(* ===== verification/_CoqProject ===== *)
-Q . S2P
Prelude.v
PyText.v
PyFraction.v
FractionQ.v
PyFloat.v
Quantity.v
Exactness.v
Duration.v
Recipe.v
Csv.v
Run.v
Main.v
