(* ===== verification/Prelude.v ===== *)
(** * Verification of the recipe scraper (src/webscraper_project/main.py)

    The program visits a list of recipe pages with a browser, reads the
    JSON-LD block of each page, decodes the cooking time, rewrites every
    ingredient line for one serving and appends one line per page to a CSV
    file.  This library models the program as executable Rocq definitions
    and proves the properties that make it correct.

    ** Parts of the program and where they are modelled

    - [Prelude] (this file): Python's exceptions as values ([exn], [res],
      [bind], [try_except], [try_default], [res_map]), the take-while and
      drop-while functions every matcher of the program is built from,
      ranges for checks by enumeration, the shared tactics and the hint
      databases [py] and [pyrw].
    - [PyText]: the [str] and [int] built-ins the program calls, on strings
      of code points U+0000..U+00FF: [is_space] (what [\s], [str.strip] and
      [str.split] test), [is_digit] ([\d] and [[0-9]]), [strip], [split],
      [join], [str_of_Z] ([str] of an int), [int_of_digits] ([int] of a run
      of digits).
    - [PyFraction]: [fractions.Fraction] as the program uses it: the record
      with its normal form, construction from a pair and from a token,
      addition, [sum], and [limit_denominator] with its loop on the
      convergents of the continued fraction.
    - [FractionQ]: the reference semantics of fractions: [to_Q] reads a
      [Fraction] as a rational number of the Standard Library, and the
      operations of [PyFraction] are related to those of [Q] up to [==].
    - [PyFloat]: the interface [FloatModel] of the float operations the
      program performs ([float(qty)], [qty > 0], [qty / yield_number],
      [Fraction(value)], [str(value)]) with two instances: [binary64], IEEE
      double precision on [SpecFloat] (what CPython computes), and [exactQ],
      exact rationals (what the specification describes).
    - [Quantity]: [decimal_to_fraction], [extract_quantity] and
      [remove_quantity], lines 26-47 of main.py, generic in the float
      interface, and the reference of the parser: the sum in [Q] of what
      the tokens of the grammar denote ([token_of], [token_Q]).
    - [Exactness]: the exact quotient [scale], the facts on the exact
      instance, and the check by enumeration that doubles give the exact
      fraction on a domain of quantities and yields.
    - [Duration]: [parse_iso8601_duration], lines 49-63.
    - [Recipe]: [scrape_foodcom_recipe], lines 69-130, from the outcome of
      the browser session ([page]): the keys read ([json_data]), the yield
      ([yield_number]), the loop over the ingredients ([ingredient_line],
      [ingredients_of]), the directions, the record ([build_recipe]) and the
      handler that turns every exception into [None].
    - [Csv]: [save_to_csv], lines 136-139, on the file as the table of its
      cells, with the invariant [file_wf] of the table.
    - [Run]: the loop of lines 145-156 as a state machine: the relation
      [step], its function [step_fun], the bounded run [run], the loop as
      one function [run_pages], the invariant [state_wf] of its states and
      the modality [eventually] of what every run reaches.
    - [Main]: the list [urls] of lines 15-20 and the program [main], the
      run over that list for any outcome [web] of the browser sessions.

    ** What the theorems show

    - Text: [strip] leaves no white space at either end and is idempotent;
      [split] yields tokens that are not empty and free of white space, and
      inverts [join]; printing and parsing integers round-trip.
    - Fractions: every operation returns a fraction in normal form; the
      tokens [Fraction_of_str] accepts are exactly those of the inductive
      grammar [rational_token]; the loop of [limit_denominator] terminates
      within its fuel, never divides by zero, and returns the closest
      fraction with a denominator within the bound.
    - Reference in [Q]: normal forms are determined by their value;
      [Fraction_add] and [Fraction_sum] compute the sum of the values; the
      sum is invariant under permutation ([Proper] for [Permutation]); a
      fraction within [1 / (2 * M * d)] of a fraction in normal form with a
      denominator [d <= M] is sent to it by [limit_denominator].
    - Quantity: which lines have a quantity, what is removed from a line,
      that the text printed for a finite double is a best approximation in
      lowest terms, that printing and parsing a fraction round-trip, that
      the parser is equivalent to its reference in [Q] and does not depend
      on the order of the tokens, and the error a float may carry without
      changing the text printed.
    - Floats: the quantity read from a line is zero or finite, its quotient
      by the yield is never a NaN, [Fraction(value)] succeeds exactly on
      zero and the finite values; hence the text of a float is printed for
      an infinity only, and the scraper is the same function whatever
      [float.__repr__] prints for finite values.
    - Duration: every branch of the decoder and the round trip with the ISO
      text.
    - Recipe: the yield read from a text; the three outcomes of a turn of
      the loop; order and number of the lines; the sentinels; the record
      and the cases in which the page is lost; the places where the code
      departs from the specification (a prefix that fails to parse is still
      removed from the line, a yield of 0 or a quantity of 0 drops the
      quantity, a yield too large for a double loses the page).
    - Refinement: on pages whose yield is at most 24 and whose quantities
      have a numerator at most 40 and a denominator at most 10, the scraper
      computed with doubles returns what it returns with exact rationals,
      and a positive quantity is printed as its exact quotient by the yield.
    - Csv: saving keeps the lines of the file as a prefix, adds the line of
      the record last, and keeps every line at four cells.
    - Run: the step relation is deterministic and agrees with [step_fun];
      every run stops within [run_fuel] steps in the state [run_pages]
      computes; every reachable state is well formed ([state_wf], by
      induction on the steps): a browser session is open inside the [try]
      block only and the table has four cells a line; the file ends with
      the header once and the lines of the records in the order of the
      URLs; a failing driver stops the run.  Liveness: the run reaches a
      state that has stopped; every URL with no failing driver before it
      is announced, and every page that yields a record has its line
      appended.
    - Main: the program stops after at most nine steps, keeps the lines of
      the file it finds and adds two lines at most.

    ** Bounds, fuel and assumptions

    - Characters are 8-bit ([ascii]), read as the code points U+0000 to
      U+00FF.  On that range [\d] is [0-9] and white space is 9-13, 28-32,
      133 and 160, as CPython's tables have it.  Code points above U+00FF
      are outside the model.
    - CPython's limit on int/str conversions (4300 digits by default) is
      not modelled: integers are unbounded [Z].
    - The loop of [limit_denominator] runs on [nat] fuel
      [ld_fuel M = 2 * (log2 M + 1) + 2].  Twice the last denominator plus
      the one before grows by a factor of 3/2 at least in each turn and
      stays below [3 * M], so the loop leaves before the fuel is spent
      ([ld_loop_total]); running out of fuel would be reported as an
      exception, and [limit_denominator_spec] shows it never is.
    - Floats are [spec_float] with precision 53 and maximal exponent 1024.
      [float.__repr__] of a finite float is a parameter of [binary64]; the
      results are proved independent of it, for the program prints a float
      only when [Fraction(value)] raises, which it does for an infinity
      only.
    - The agreement of doubles and exact rationals is checked by
      enumeration of numerators 1..40, denominators 1..10 and yields 1..24
      ([b64_agrees_all]); outside that domain they can differ, as an
      example in [Recipe] shows.
    - The values of the keys of the JSON object are taken to have the types
      the code expects: strings for [name] and [totalTime], the [str] of
      the value for [recipeYield], a list of strings for
      [recipeIngredient], a list of objects or other values for
      [recipeInstructions].
    - The run takes [3 * n + 3] steps of fuel for [n] URLs: three steps for
      each page and one to finish are enough ([run_fuel_enough]).

    ** Not modelled

    The browser session (selenium), HTML parsing (BeautifulSoup) and JSON
    decoding are libraries the program only calls: their outcome is the
    input [page] of [Recipe], [session] of [Run] and the function [web] of
    [Main].  Of the CSV writer the table of cells is modelled.  The bytes
    pandas writes for the table (the quoting of cells that hold commas,
    quotes or line breaks, the text of an empty cell) are decided inside
    that library and not by a line of main.py, so a model of them would be
    translated from no source; an error of the file system in
    [save_to_csv] is an exception nothing catches and stops the run as a
    failing driver does.  That a quotient is never an infinity is not
    proved in general: the model lets it happen and prints it as Python
    does.  The pause of three seconds has no effect on the values
    computed.  The remaining lines of main.py are imports, comments and
    blank lines. *)

From Stdlib Require Import List ZArith Lia Bool.
Import ListNotations.

(** ** Exceptions as values *)

(** The exceptions the modelled code can raise. *)
Inductive exn : Type :=
| ValueError
| ZeroDivisionError
| OverflowError
| AttributeError
| TypeError.

(** The outcome of an expression that may raise. *)
Inductive res (A : Type) : Type :=
| Ok (a : A)
| Raise (e : exn).

Arguments Ok {A} a.
Arguments Raise {A} e.

Definition bind {A B : Type} (r : res A) (k : A -> res B) : res B :=
  match r with
  | Ok a => k a
  | Raise e => Raise e
  end.

Declare Scope res_scope.
Delimit Scope res_scope with res.
Notation "x <- r ;; k" := (bind r (fun x => k))
  (at level 61, r at next level, right associativity) : res_scope.

(** [try: return e / except: return None]. *)
Definition try_except {A : Type} (r : res A) : option A :=
  match r with
  | Ok a => Some a
  | Raise _ => None
  end.

(** [try: x = e / except: x = dflt]. *)
Definition try_default {A : Type} (r : res A) (dflt : A) : A :=
  match r with
  | Ok a => a
  | Raise _ => dflt
  end.

(** A generator [f(x) for x in l] consumed from the left: the first
    exception ends the iteration. *)
Fixpoint res_map {A B : Type} (f : A -> res B) (l : list A) : res (list B) :=
  match l with
  | [] => Ok []
  | x :: l' =>
      match f x with
      | Raise e => Raise e
      | Ok y =>
          match res_map f l' with
          | Raise e => Raise e
          | Ok ys => Ok (y :: ys)
          end
      end
  end.

Definition is_ok {A : Type} (r : res A) : bool :=
  match r with
  | Ok _ => true
  | Raise _ => false
  end.

(** ** Longest prefix satisfying a test *)

Section Span.
Context {A : Type} (p : A -> bool).

Fixpoint takeWhile (l : list A) : list A :=
  match l with
  | [] => []
  | x :: l' => if p x then x :: takeWhile l' else []
  end.

Fixpoint dropWhile (l : list A) : list A :=
  match l with
  | [] => []
  | x :: l' => if p x then dropWhile l' else l
  end.

(** The first element of [l] fails [p], or [l] is empty. *)
Definition head_fails (l : list A) : Prop :=
  match l with
  | [] => True
  | x :: _ => p x = false
  end.

(** The last element of [l] fails [p], or [l] is empty. *)
Definition last_fails (l : list A) : Prop := head_fails (rev l).

Lemma takeWhile_dropWhile (l : list A) : takeWhile l ++ dropWhile l = l.
Proof.
  induction l as [|x l IH]; simpl; [reflexivity|].
  destruct (p x); simpl; [now rewrite IH | reflexivity].
Qed.

Lemma takeWhile_all (l : list A) : forallb p (takeWhile l) = true.
Proof.
  induction l as [|x l IH]; simpl; [reflexivity|].
  destruct (p x) eqn:E; simpl; [now rewrite E | reflexivity].
Qed.

Lemma dropWhile_head (l : list A) : head_fails (dropWhile l).
Proof.
  induction l as [|x l IH]; simpl; [exact I|].
  destruct (p x) eqn:E; simpl; assumption.
Qed.

Lemma takeWhile_forallb (l : list A) : forallb p l = true -> takeWhile l = l.
Proof.
  induction l as [|x l IH]; simpl; [reflexivity|].
  destruct (p x); simpl; [intros H; now rewrite IH | discriminate].
Qed.

Lemma dropWhile_forallb (l : list A) : forallb p l = true -> dropWhile l = [].
Proof.
  induction l as [|x l IH]; simpl; [reflexivity|].
  destruct (p x); simpl; [exact IH | discriminate].
Qed.

Lemma dropWhile_nil_iff (l : list A) : dropWhile l = [] <-> forallb p l = true.
Proof.
  split; [|apply dropWhile_forallb].
  intros H. rewrite <- (takeWhile_dropWhile l), H, app_nil_r.
  apply takeWhile_all.
Qed.

Lemma takeWhile_app_all (l k : list A) :
  forallb p l = true -> takeWhile (l ++ k) = l ++ takeWhile k.
Proof.
  induction l as [|x l IH]; simpl; [reflexivity|].
  destruct (p x); simpl; [intros H; now rewrite IH | discriminate].
Qed.

Lemma dropWhile_app_all (l k : list A) :
  forallb p l = true -> dropWhile (l ++ k) = dropWhile k.
Proof.
  induction l as [|x l IH]; simpl; [reflexivity|].
  destruct (p x); simpl; [exact IH | discriminate].
Qed.

Lemma takeWhile_head_fails (l : list A) : head_fails l -> takeWhile l = [].
Proof. destruct l as [|x l]; simpl; [reflexivity | now intros ->]. Qed.

Lemma dropWhile_head_fails (l : list A) : head_fails l -> dropWhile l = l.
Proof. destruct l as [|x l]; simpl; [reflexivity | now intros ->]. Qed.

Lemma dropWhile_idem (l : list A) : dropWhile (dropWhile l) = dropWhile l.
Proof. apply dropWhile_head_fails, dropWhile_head. Qed.

(** The split of [l] at its longest [p]-prefix is the only split into a
    [p]-prefix and a rest that does not start with a [p]-element. *)
Lemma span_unique (l a b : list A) :
  l = a ++ b -> forallb p a = true -> head_fails b ->
  takeWhile l = a /\ dropWhile l = b.
Proof.
  intros -> Ha Hb. rewrite takeWhile_app_all, dropWhile_app_all by assumption.
  rewrite takeWhile_head_fails, dropWhile_head_fails by assumption.
  now rewrite app_nil_r.
Qed.

Lemma dropWhile_suffix (l : list A) : exists a, l = a ++ dropWhile l.
Proof. exists (takeWhile l). symmetry. apply takeWhile_dropWhile. Qed.

Lemma dropWhile_length (l : list A) : length (dropWhile l) <= length l.
Proof.
  induction l as [|x l IH]; simpl; [lia|]. destruct (p x); simpl; lia.
Qed.

End Span.

(** ** Shared lemmas on [res] and lists *)

Lemma bind_ok {A B : Type} (r : res A) (k : A -> res B) (b : B) :
  bind r k = Ok b -> exists a, r = Ok a /\ k a = Ok b.
Proof. destruct r as [a|e]; simpl; [eauto | discriminate]. Qed.

(** The [n] integers from [lo] on, for checks by enumeration. *)
Definition zrange (lo : Z) (n : nat) : list Z :=
  map (fun i => (lo + Z.of_nat i)%Z) (seq 0 n).

Lemma zrange_In (lo : Z) (n : nat) (x : Z) :
  In x (zrange lo n) <-> (lo <= x < lo + Z.of_nat n)%Z.
Proof.
  unfold zrange. rewrite in_map_iff. split.
  - intros (i & <- & Hi). apply in_seq in Hi. lia.
  - intros H. exists (Z.to_nat (x - lo)). split; [lia|]. apply in_seq. lia.
Qed.

(** A check that holds on every element of a range holds on its members. *)
Lemma forallb_zrange (p : Z -> bool) (lo : Z) (n : nat) (x : Z) :
  forallb p (zrange lo n) = true -> (lo <= x < lo + Z.of_nat n)%Z ->
  p x = true.
Proof.
  intros H Hx. rewrite forallb_forall in H. apply H, zrange_In, Hx.
Qed.

(** [p] on every triple of three ranges. *)
Definition forall3_range (p : Z -> Z -> Z -> bool) (a b c : Z) (na nb nc : nat) : bool :=
  forallb (fun i =>
    forallb (fun j => forallb (fun k => p i j k) (zrange c nc)) (zrange b nb))
    (zrange a na).

Lemma forall3_range_spec (p : Z -> Z -> Z -> bool) (a b c : Z) (na nb nc : nat)
    (x y z : Z) :
  forall3_range p a b c na nb nc = true ->
  (a <= x < a + Z.of_nat na)%Z -> (b <= y < b + Z.of_nat nb)%Z ->
  (c <= z < c + Z.of_nat nc)%Z ->
  p x y z = true.
Proof.
  unfold forall3_range. intros H Hx Hy Hz.
  apply (forallb_zrange _ _ _ x) in H; [|exact Hx].
  apply (forallb_zrange _ _ _ y) in H; [|exact Hy].
  now apply (forallb_zrange _ _ _ z) in H.
Qed.

Lemma bind_ret {A : Type} (r : res A) : bind r (@Ok A) = r.
Proof. now destruct r. Qed.

Lemma try_except_some {A : Type} (r : res A) (a : A) :
  try_except r = Some a <-> r = Ok a.
Proof. destruct r; simpl; split; congruence. Qed.

Lemma try_except_none {A : Type} (r : res A) :
  try_except r = None <-> is_ok r = false.
Proof. destruct r; simpl; split; congruence. Qed.

Lemma res_map_ok_iff {A B : Type} (f : A -> res B) (l : list A) (ys : list B) :
  res_map f l = Ok ys <-> Forall2 (fun x y => f x = Ok y) l ys.
Proof.
  revert ys. induction l as [|x l IH]; intros ys; simpl.
  - split; [intros [= <-]; constructor | inversion 1; reflexivity].
  - destruct (f x) as [y|e] eqn:E.
    + destruct (res_map f l) as [ys'|e'].
      * split.
        -- intros [= <-]. constructor; [assumption | now apply IH].
        -- inversion 1; subst. f_equal. f_equal; [congruence|].
           assert (Ok ys' = Ok l') as [= ->] by now apply IH. reflexivity.
      * split; [discriminate|]. inversion 1; subst.
        assert (Raise e' = Ok l') by now apply IH. discriminate.
    + split; [discriminate | inversion 1; congruence].
Qed.

Lemma res_map_raise_iff {A B : Type} (f : A -> res B) (l : list A) :
  is_ok (res_map f l) = false <-> existsb (fun x => negb (is_ok (f x))) l = true.
Proof.
  induction l as [|x l IH]; simpl; [split; discriminate|].
  destruct (f x) as [y|e]; simpl; [|tauto].
  destruct (res_map f l); simpl in *; [|tauto]. rewrite <- IH. tauto.
Qed.

Lemma res_map_ext_in {A B : Type} (f g : A -> res B) (l : list A) :
  (forall x, In x l -> f x = g x) -> res_map f l = res_map g l.
Proof.
  induction l as [|x l IH]; intros H; [reflexivity|]. cbn [res_map].
  rewrite (H x) by now left. destruct (g x); [|reflexivity].
  rewrite IH; [reflexivity|]. intros z Hz. apply H. now right.
Qed.

Lemma res_map_length {A B : Type} (f : A -> res B) (l : list A) (ys : list B) :
  res_map f l = Ok ys -> length ys = length l.
Proof.
  intros H. apply res_map_ok_iff in H. symmetry. eapply Forall2_length, H.
Qed.

Lemma forallb_rev {A : Type} (p : A -> bool) (l : list A) :
  forallb p (rev l) = forallb p l.
Proof.
  induction l as [|x l IH]; simpl; [reflexivity|].
  rewrite forallb_app, IH. simpl. rewrite andb_true_r. apply andb_comm.
Qed.

(** ** Tactics and hints *)

(** Invert a hypothesis and clean up. *)
Ltac inv H := inversion H; subst; clear H.

(** Case analysis on the scrutinee of the first [match] or [if] of the goal,
    remembering the equation. *)
Ltac destr :=
  match goal with
  | |- context [match ?x with _ => _ end] =>
      let E := fresh "E" in destruct x eqn:E
  end.

(** The same in a hypothesis. *)
Ltac destr_in H :=
  match type of H with
  | context [match ?x with _ => _ end] =>
      let E := fresh "E" in destruct x eqn:E
  end.

(** Turn boolean comparisons on [Z] in the context into propositions. *)
Ltac zbool :=
  repeat match goal with
  | H : (_ <=? _)%Z = true |- _ => apply Z.leb_le in H
  | H : (_ <=? _)%Z = false |- _ => apply Z.leb_gt in H
  | H : (_ <? _)%Z = true |- _ => apply Z.ltb_lt in H
  | H : (_ <? _)%Z = false |- _ => apply Z.ltb_ge in H
  | H : (_ =? _)%Z = true |- _ => apply Z.eqb_eq in H
  | H : (_ =? _)%Z = false |- _ => apply Z.eqb_neq in H
  | H : (_ && _) = true |- _ => apply andb_true_iff in H; destruct H
  end.

Create HintDb py discriminated.
Create Rewrite HintDb pyrw.
#[export] Hint Resolve takeWhile_all dropWhile_head : py.
#[export] Hint Rewrite @takeWhile_dropWhile @dropWhile_idem : pyrw.
