(* ===== verification/PyText.v ===== *)
(** * PyText: the [str] and [int] built-ins the scraper calls

    A Python [str] is modelled as a list of 8-bit characters, read as the
    code points U+0000..U+00FF.  The file defines the character classes of
    the regular expressions of main.py, [str.strip], [str.split] without
    argument, [str.join], [str] of an int and [int] of a run of digits, and
    proves the lemmas the components above share. *)

From Stdlib Require Import List ZArith Lia Bool Ascii String.
From S2P Require Import Prelude.
Import ListNotations.

Open Scope string_scope.
Open Scope list_scope.
Open Scope Z_scope.

(** ** Strings *)

Abbreviation pystr := (list ascii).

(** String literals are read as lists of characters. *)
Definition py (s : string) : pystr := list_ascii_of_string s.
Coercion py : string >-> list.

(** [ord(c)] and [chr(n)]. *)
Definition ord (c : ascii) : Z := Z.of_N (N_of_ascii c).
Definition chr (n : Z) : ascii := ascii_of_N (Z.to_N n).

(** ** Character classes *)

(** White space as [\s], [str.strip()] and [str.split()] test it
    (Py_UNICODE_ISSPACE): TAB, LF, VT, FF, CR, the separators FS, GS, RS, US,
    the space, NEL and the no-break space. *)
Definition is_space (c : ascii) : bool :=
  let n := ord c in
  ((9 <=? n) && (n <=? 13)) || ((28 <=? n) && (n <=? 32))
  || (n =? 133) || (n =? 160).

(** Decimal digits: [\d] and [[0-9]] agree below U+0100. *)
Definition is_digit (c : ascii) : bool :=
  let n := ord c in (48 <=? n) && (n <=? 57).

Definition digit_val (c : ascii) : Z := ord c - 48.
Definition digit_char (d : Z) : ascii := chr (48 + d).

(** ** strip, split, join *)

Definition lstrip (s : pystr) : pystr := dropWhile is_space s.
Definition rstrip (s : pystr) : pystr := rev (dropWhile is_space (rev s)).

(** [s.strip()]. *)
Definition strip (s : pystr) : pystr := rstrip (lstrip s).

(** [s.split()]: the maximal runs of characters that are not white space.
    [tok] holds the current run, last character first. *)
Fixpoint split_go (tok : pystr) (s : pystr) : list pystr :=
  match s with
  | [] => match tok with [] => [] | _ => [rev tok] end
  | c :: s' =>
      if is_space c then
        match tok with
        | [] => split_go [] s'
        | _ => rev tok :: split_go [] s'
        end
      else split_go (c :: tok) s'
  end.

Definition split (s : pystr) : list pystr := split_go [] s.

(** [sep.join(l)]. *)
Fixpoint join (sep : pystr) (l : list pystr) : pystr :=
  match l with
  | [] => []
  | [x] => x
  | x :: l' => x ++ sep ++ join sep l'
  end.

(** ** Integers and their decimal form *)

(** [int(s)] for a run of digits [s], most significant digit first. *)
Definition int_acc (acc : Z) (s : pystr) : Z :=
  fold_left (fun a c => 10 * a + digit_val c) s acc.

Definition int_of_digits (s : pystr) : Z := int_acc 0 s.

(** The digits of [n >= 0] in front of [acc]. *)
Fixpoint digits_go (fuel : nat) (n : Z) (acc : pystr) : pystr :=
  match fuel with
  | O => acc
  | S f =>
      let acc' := digit_char (n mod 10) :: acc in
      if n <? 10 then acc' else digits_go f (n / 10) acc'
  end.

Definition str_of_nat (n : Z) : pystr :=
  digits_go (S (Z.to_nat (Z.log2 n))) n [].

(** [str(z)] for an int [z]. *)
Definition str_of_Z (z : Z) : pystr :=
  if z <? 0 then "-"%char :: str_of_nat (- z) else str_of_nat z.

(** ** Character facts *)

Lemma ord_range (c : ascii) : 0 <= ord c < 256.
Proof.
  unfold ord. pose proof (N_ascii_bounded c) as H. lia.
Qed.

Lemma chr_ord (c : ascii) : chr (ord c) = c.
Proof. unfold chr, ord. rewrite N2Z.id. apply ascii_N_embedding. Qed.

Lemma ord_chr (n : Z) : 0 <= n < 256 -> ord (chr n) = n.
Proof.
  intros H. unfold chr, ord. rewrite N_ascii_embedding by lia. lia.
Qed.

Lemma ord_inj (c d : ascii) : ord c = ord d -> c = d.
Proof. intros H. rewrite <- (chr_ord c), <- (chr_ord d). now f_equal. Qed.

Lemma is_digit_spec (c : ascii) : is_digit c = true <-> 48 <= ord c <= 57.
Proof. unfold is_digit. cbv zeta. rewrite andb_true_iff. lia. Qed.

Lemma digit_not_space (c : ascii) : is_digit c = true -> is_space c = false.
Proof.
  rewrite is_digit_spec. unfold is_space. cbv zeta. intros H.
  repeat match goal with
  | |- context [?a <=? ?b] => destruct (Z.leb_spec a b); try lia
  | |- context [?a =? ?b] => destruct (Z.eqb_spec a b); try lia
  end; reflexivity.
Qed.

Lemma digit_val_range (c : ascii) : is_digit c = true -> 0 <= digit_val c <= 9.
Proof. rewrite is_digit_spec. unfold digit_val. lia. Qed.

Lemma digit_char_val (c : ascii) : digit_char (digit_val c) = c.
Proof.
  unfold digit_char, digit_val.
  replace (48 + (ord c - 48)) with (ord c) by lia. apply chr_ord.
Qed.

Lemma digit_val_char (d : Z) : 0 <= d <= 9 -> digit_val (digit_char d) = d.
Proof. intros H. unfold digit_val, digit_char. rewrite ord_chr; lia. Qed.

Lemma digit_char_is_digit (d : Z) : 0 <= d <= 9 -> is_digit (digit_char d) = true.
Proof.
  intros H. apply is_digit_spec. unfold digit_char. rewrite ord_chr; lia.
Qed.

(** ** strip *)

Definition nonspace (c : ascii) : bool := negb (is_space c).

Lemma head_fails_prefix {A : Type} (p : A -> bool) (a b : list A) :
  head_fails p (a ++ b) -> a <> [] -> head_fails p a.
Proof. destruct a; simpl; [congruence | auto]. Qed.

Lemma head_fails_app {A : Type} (p : A -> bool) (a b : list A) :
  head_fails p a -> a <> [] -> head_fails p (a ++ b).
Proof. destruct a; simpl; [congruence | auto]. Qed.

Lemma lstrip_split (s : pystr) :
  s = takeWhile is_space s ++ lstrip s.
Proof. symmetry. apply takeWhile_dropWhile. Qed.

Lemma rstrip_split (s : pystr) :
  s = rstrip s ++ rev (takeWhile is_space (rev s)).
Proof.
  unfold rstrip. rewrite <- rev_app_distr, takeWhile_dropWhile.
  symmetry. apply rev_involutive.
Qed.

Lemma lstrip_head (s : pystr) : head_fails is_space (lstrip s).
Proof. apply dropWhile_head. Qed.

Lemma rstrip_last (s : pystr) : last_fails is_space (rstrip s).
Proof.
  unfold last_fails, rstrip. rewrite rev_involutive. apply dropWhile_head.
Qed.

Lemma rstrip_head (s : pystr) :
  head_fails is_space s -> head_fails is_space (rstrip s).
Proof.
  intros H. destruct (rstrip s) as [|c r] eqn:E; [exact I|].
  rewrite (rstrip_split s), E in H. exact H.
Qed.

Lemma strip_head (s : pystr) : head_fails is_space (strip s).
Proof. apply rstrip_head, lstrip_head. Qed.

Lemma strip_last (s : pystr) : last_fails is_space (strip s).
Proof. apply rstrip_last. Qed.

Lemma lstrip_fixed (s : pystr) : head_fails is_space s -> lstrip s = s.
Proof. apply dropWhile_head_fails. Qed.

Lemma rstrip_fixed (s : pystr) : last_fails is_space s -> rstrip s = s.
Proof.
  intros H. unfold rstrip. rewrite dropWhile_head_fails by exact H.
  apply rev_involutive.
Qed.

Lemma strip_fixed (s : pystr) :
  head_fails is_space s -> last_fails is_space s -> strip s = s.
Proof.
  intros Hh Hl. unfold strip. rewrite lstrip_fixed by assumption.
  now apply rstrip_fixed.
Qed.

Lemma strip_idem (s : pystr) : strip (strip s) = strip s.
Proof. apply strip_fixed; [apply strip_head | apply strip_last]. Qed.

Lemma rstrip_app_spaces (m b : pystr) :
  forallb is_space b = true -> rstrip (m ++ b) = rstrip m.
Proof.
  intros Hb. unfold rstrip. rewrite rev_app_distr, dropWhile_app_all; [reflexivity|].
  now rewrite forallb_rev.
Qed.

(** [strip s] is the only middle part of [s] between two runs of white
    space that neither starts nor ends with white space. *)
Lemma strip_unique (s a m b : pystr) :
  s = a ++ m ++ b ->
  forallb is_space a = true -> forallb is_space b = true ->
  head_fails is_space m -> last_fails is_space m ->
  strip s = m.
Proof.
  intros -> Ha Hb Hh Hl. unfold strip, lstrip.
  rewrite dropWhile_app_all by assumption.
  destruct m as [|c m].
  - simpl. rewrite dropWhile_forallb by assumption. reflexivity.
  - rewrite dropWhile_head_fails by exact Hh.
    rewrite rstrip_app_spaces by assumption. now apply rstrip_fixed.
Qed.

Lemma strip_decompose (s : pystr) :
  exists a b, s = a ++ strip s ++ b /\
              forallb is_space a = true /\ forallb is_space b = true.
Proof.
  exists (takeWhile is_space s), (rev (takeWhile is_space (rev (lstrip s)))).
  split; [|split].
  - unfold strip. rewrite <- rstrip_split. apply lstrip_split.
  - apply takeWhile_all.
  - rewrite forallb_rev. apply takeWhile_all.
Qed.

Lemma strip_nil_iff (s : pystr) : strip s = [] <-> forallb is_space s = true.
Proof.
  split.
  - intros E. destruct (strip_decompose s) as (a & b & Hs & Ha & Hb).
    rewrite Hs, E, !forallb_app, Ha, Hb. reflexivity.
  - intros H. unfold strip, lstrip. now rewrite dropWhile_forallb.
Qed.

Lemma strip_length (s : pystr) : (List.length (strip s) <= List.length s)%nat.
Proof.
  destruct (strip_decompose s) as (a & b & Hs & _).
  rewrite Hs at 2. rewrite !length_app. lia.
Qed.

(** ** split *)

(** A token of [split]: not empty and free of white space. *)
Definition token_ok (t : pystr) : Prop :=
  t <> [] /\ forallb nonspace t = true.

Lemma nonspace_false (c : ascii) : nonspace c = false <-> is_space c = true.
Proof. unfold nonspace. destruct (is_space c); simpl; split; congruence. Qed.

Lemma nonspace_true (c : ascii) : nonspace c = true <-> is_space c = false.
Proof. unfold nonspace. destruct (is_space c); simpl; split; congruence. Qed.

(** With a token under way, [split_go] completes it with the longest run
    free of white space and goes on after it. *)
Lemma split_go_tok (tok s : pystr) :
  tok <> [] ->
  split_go tok s =
  (rev tok ++ takeWhile nonspace s) :: split (dropWhile nonspace s).
Proof.
  revert tok. induction s as [|c s IH]; intros tok Ht; simpl.
  - destruct tok; [congruence|]. now rewrite app_nil_r.
  - unfold nonspace at 1 3. destruct (is_space c) eqn:E; simpl.
    + destruct tok; [congruence|]. unfold split. simpl. rewrite E.
      now rewrite app_nil_r.
    + rewrite IH by discriminate. simpl. now rewrite <- app_assoc.
Qed.

(** The equations of [split] as CPython's loop computes it: skip white
    space, take a maximal run, repeat. *)
Lemma split_space (c : ascii) (s : pystr) :
  is_space c = true -> split (c :: s) = split s.
Proof. intros E. unfold split. simpl. now rewrite E. Qed.

Lemma split_nonspace (c : ascii) (s : pystr) :
  is_space c = false ->
  split (c :: s) = (c :: takeWhile nonspace s) :: split (dropWhile nonspace s).
Proof.
  intros E. unfold split at 1. simpl. rewrite E.
  now rewrite split_go_tok by discriminate.
Qed.

Lemma split_go_tokens (tok s : pystr) :
  forallb nonspace tok = true -> Forall token_ok (split_go tok s).
Proof.
  revert tok. induction s as [|c s IH]; intros tok Ht; simpl.
  - destruct tok as [|x tok]; constructor; [|constructor].
    split; [|now rewrite forallb_rev].
    intros H. apply (f_equal (@List.length _)) in H.
    rewrite length_rev in H. discriminate.
  - destruct (is_space c) eqn:E.
    + destruct tok as [|x tok]; [now apply IH|].
      constructor; [|now apply IH]. split; [|now rewrite forallb_rev].
      intros H. apply (f_equal (@List.length _)) in H.
      rewrite length_rev in H. discriminate.
    + apply IH. simpl. rewrite Ht, andb_true_r. now apply nonspace_true.
Qed.

Lemma split_tokens (s : pystr) : Forall token_ok (split s).
Proof. now apply split_go_tokens. Qed.

Lemma split_spaces (a s : pystr) :
  forallb is_space a = true -> split (a ++ s) = split s.
Proof.
  induction a as [|c a IH]; simpl; [reflexivity|].
  intros H. apply andb_true_iff in H as [Hc Ha].
  rewrite split_space by assumption. now apply IH.
Qed.

Lemma split_all_space (s : pystr) : forallb is_space s = true -> split s = [].
Proof. intros H. rewrite <- (app_nil_r s). now rewrite split_spaces. Qed.

Lemma split_go_trailing (tok s b : pystr) :
  forallb is_space b = true -> split_go tok (s ++ b) = split_go tok s.
Proof.
  intros Hb. revert tok. induction s as [|c s IH]; intros tok; simpl.
  - destruct b as [|c b]; [reflexivity|]. simpl in *.
    apply andb_true_iff in Hb as [Hc Hb]. rewrite Hc.
    fold (split b). rewrite (split_all_space b Hb). reflexivity.
  - now rewrite !IH.
Qed.

Lemma split_nil_iff (s : pystr) : split s = [] <-> forallb is_space s = true.
Proof.
  split; [|apply split_all_space].
  induction s as [|c s IH]; [reflexivity|]. simpl.
  destruct (is_space c) eqn:E.
  - rewrite split_space by assumption. exact IH.
  - rewrite split_nonspace by assumption. discriminate.
Qed.

(** Stripping before splitting changes nothing. *)
Lemma split_strip (s : pystr) : split (strip s) = split s.
Proof.
  destruct (strip_decompose s) as (a & b & Hs & Ha & Hb).
  rewrite Hs at 2. rewrite split_spaces by assumption.
  unfold split. now rewrite split_go_trailing.
Qed.

Lemma split_token (t : pystr) : token_ok t -> split t = [t].
Proof.
  intros [Hne Ht]. destruct t as [|c t]; [congruence|]. simpl in Ht.
  apply andb_true_iff in Ht as [Hc Ht]. apply nonspace_true in Hc.
  rewrite split_nonspace by assumption.
  rewrite takeWhile_forallb, dropWhile_forallb by assumption. reflexivity.
Qed.

Lemma split_token_space (t s : pystr) (c : ascii) :
  token_ok t -> is_space c = true -> split (t ++ c :: s) = t :: split s.
Proof.
  intros [Hne Ht] Hc. destruct t as [|x t]; [congruence|]. simpl in Ht.
  apply andb_true_iff in Ht as [Hx Ht]. apply nonspace_true in Hx.
  rewrite <- app_comm_cons, split_nonspace by assumption.
  rewrite takeWhile_app_all, dropWhile_app_all by assumption.
  assert (Hn : nonspace c = false) by now apply nonspace_false.
  cbn [takeWhile dropWhile]. rewrite Hn, app_nil_r.
  now rewrite split_space.
Qed.

(** Round trip of [split] and [join]: splitting the tokens joined with
    a space gives the tokens back. *)
Theorem split_join (l : list pystr) :
  Forall token_ok l -> split (join " " l) = l.
Proof.
  induction 1 as [|t l Ht Hl IH]; [reflexivity|].
  destruct l as [|t' l]; [now apply split_token|].
  change (join " " (t :: t' :: l)) with (t ++ " "%char :: join " " (t' :: l)).
  rewrite split_token_space by (assumption || reflexivity). now rewrite IH.
Qed.

(** ** join *)

Lemma join_cons (sep x : pystr) (l : list pystr) :
  l <> [] -> join sep (x :: l) = x ++ sep ++ join sep l.
Proof. destruct l; [congruence | reflexivity]. Qed.

Lemma join_nil_iff (sep : pystr) (l : list pystr) :
  sep <> [] -> (join sep l = [] <-> l = [] \/ l = [[]]).
Proof.
  intros Hsep. destruct l as [|x [|y l]]; simpl.
  - split; auto.
  - split; [intros ->; auto | intros [H|[= ->]]; congruence].
  - split.
    + intros H. apply app_eq_nil in H as [_ H].
      apply app_eq_nil in H as [H _]. congruence.
    + intros [H|H]; discriminate.
Qed.

(** ** int and str *)

Lemma int_acc_app (a : Z) (s t : pystr) :
  int_acc a (s ++ t) = int_acc (int_acc a s) t.
Proof. apply fold_left_app. Qed.

Lemma int_acc_cons (a : Z) (c : ascii) (s : pystr) :
  int_acc a (c :: s) = int_acc (10 * a + digit_val c) s.
Proof. reflexivity. Qed.

(** Reading from the accumulator [a] shifts [a] by the length read. *)
Lemma int_acc_shift (a : Z) (s : pystr) :
  int_acc a s = a * 10 ^ Z.of_nat (List.length s) + int_of_digits s.
Proof.
  unfold int_of_digits. revert a.
  induction s as [|c s IH]; intros a.
  - simpl. lia.
  - rewrite !int_acc_cons, IH, (IH (10 * 0 + digit_val c)).
    cbn [List.length]. rewrite Nat2Z.inj_succ, Z.pow_succ_r by lia. ring.
Qed.

Lemma int_of_digits_range (s : pystr) :
  forallb is_digit s = true ->
  0 <= int_of_digits s < 10 ^ Z.of_nat (List.length s).
Proof.
  induction s as [|c s IH] using rev_ind; [cbn; lia|].
  rewrite forallb_app. simpl. rewrite andb_true_r.
  intros H. apply andb_true_iff in H as [Hs Hc]. specialize (IH Hs).
  apply digit_val_range in Hc.
  unfold int_of_digits in *. rewrite int_acc_app, int_acc_cons.
  change (int_acc (10 * int_acc 0 s + digit_val c) [])
    with (10 * int_acc 0 s + digit_val c).
  rewrite length_app. cbn [List.length]. rewrite Nat.add_1_r, Nat2Z.inj_succ.
  rewrite Z.pow_succ_r by lia. lia.
Qed.

Lemma int_of_digits_nonneg (s : pystr) :
  forallb is_digit s = true -> 0 <= int_of_digits s.
Proof. intros H. apply int_of_digits_range in H. lia. Qed.

Lemma digits_go_digits (fuel : nat) (n : Z) (acc : pystr) :
  0 <= n -> forallb is_digit acc = true ->
  forallb is_digit (digits_go fuel n acc) = true.
Proof.
  revert n acc. induction fuel as [|f IH]; intros n acc Hn Hacc; simpl.
  - assumption.
  - assert (Hd : is_digit (digit_char (n mod 10)) = true).
    { apply digit_char_is_digit. pose proof (Z.mod_pos_bound n 10). lia. }
    destruct (n <? 10); [simpl; now rewrite Hd|].
    apply IH; [apply Z.div_pos; lia | simpl; now rewrite Hd].
Qed.

(** Reading back the digits written in front of [acc] is reading [acc]
    from [n]: the fuel [f] is enough for every [n < 2^f]. *)
Lemma int_acc_digits_go (fuel : nat) (n : Z) (acc : pystr) :
  0 <= n < 2 ^ Z.of_nat fuel ->
  int_acc 0 (digits_go fuel n acc) = int_acc n acc.
Proof.
  revert n acc. induction fuel as [|f IH]; intros n acc Hn.
  - simpl in *. now replace n with 0 by lia.
  - cbn [digits_go]. rewrite Nat2Z.inj_succ, Z.pow_succ_r in Hn by lia.
    pose proof (Z.mod_pos_bound n 10 ltac:(lia)) as Hm.
    destruct (Z.ltb_spec n 10) as [Hlt|Hge].
    + rewrite int_acc_cons, digit_val_char by lia.
      now rewrite Z.mod_small by lia.
    + rewrite IH.
      * rewrite int_acc_cons, digit_val_char by lia.
        now rewrite <- Z.div_mod by lia.
      * split; [apply Z.div_pos; lia|].
        apply Z.div_lt_upper_bound; lia.
Qed.

Lemma str_of_nat_fuel (n : Z) :
  0 <= n -> n < 2 ^ Z.of_nat (S (Z.to_nat (Z.log2 n))).
Proof.
  intros Hn. rewrite Nat2Z.inj_succ, Z2Nat.id by apply Z.log2_nonneg.
  destruct (Z.eq_dec n 0) as [->|Hz]; [reflexivity|].
  apply Z.log2_spec. lia.
Qed.

Lemma str_of_nat_digits (n : Z) :
  0 <= n -> forallb is_digit (str_of_nat n) = true.
Proof. intros Hn. now apply digits_go_digits. Qed.

Lemma digits_go_nonempty (fuel : nat) (n : Z) (acc : pystr) :
  digits_go (S fuel) n acc <> [].
Proof.
  revert n acc. induction fuel as [|f IH]; intros n acc.
  - simpl. destruct (n <? 10); discriminate.
  - cbn [digits_go]. destruct (n <? 10); [discriminate|]. apply IH.
Qed.

Lemma str_of_nat_nonempty (n : Z) : str_of_nat n <> [].
Proof. apply digits_go_nonempty. Qed.

(** Printing a natural number and reading it back. *)
Lemma int_of_str_of_nat (n : Z) : 0 <= n -> int_of_digits (str_of_nat n) = n.
Proof.
  intros Hn. unfold int_of_digits, str_of_nat.
  rewrite int_acc_digits_go; [reflexivity|].
  split; [assumption | now apply str_of_nat_fuel].
Qed.

Lemma str_of_nat_inj (n m : Z) :
  0 <= n -> 0 <= m -> str_of_nat n = str_of_nat m -> n = m.
Proof.
  intros Hn Hm H. apply (f_equal int_of_digits) in H.
  now rewrite !int_of_str_of_nat in H.
Qed.

Lemma str_of_Z_nonneg (z : Z) : 0 <= z -> str_of_Z z = str_of_nat z.
Proof. intros H. unfold str_of_Z. destruct (Z.ltb_spec z 0); [lia | reflexivity]. Qed.

Lemma str_of_Z_neg (z : Z) : z < 0 -> str_of_Z z = "-"%char :: str_of_nat (- z).
Proof. intros H. unfold str_of_Z. destruct (Z.ltb_spec z 0); [reflexivity | lia]. Qed.

Lemma str_of_Z_nonempty (z : Z) : str_of_Z z <> [].
Proof.
  unfold str_of_Z. destruct (z <? 0); [discriminate | apply str_of_nat_nonempty].
Qed.

Lemma str_of_nat_head_digit (n : Z) :
  0 <= n -> exists c s, str_of_nat n = c :: s /\ is_digit c = true.
Proof.
  intros Hn. pose proof (str_of_nat_digits n Hn) as Hd.
  destruct (str_of_nat n) as [|c s] eqn:E; [now apply str_of_nat_nonempty in E|].
  simpl in Hd. apply andb_true_iff in Hd as [Hc _]. eauto.
Qed.

(** [str] of an int is injective. *)
Lemma str_of_Z_inj (a b : Z) : str_of_Z a = str_of_Z b -> a = b.
Proof.
  unfold str_of_Z.
  destruct (Z.ltb_spec a 0) as [Ha|Ha], (Z.ltb_spec b 0) as [Hb|Hb]; intros H.
  - injection H as H. apply str_of_nat_inj in H; lia.
  - destruct (str_of_nat_head_digit b Hb) as (c & s & E & Hc).
    rewrite E in H. injection H as <- _. discriminate.
  - destruct (str_of_nat_head_digit a Ha) as (c & s & E & Hc).
    rewrite E in H. injection H as -> _. discriminate.
  - now apply str_of_nat_inj.
Qed.

(** No character of a printed int is white space. *)
Lemma str_of_Z_nonspace (z : Z) : forallb nonspace (str_of_Z z) = true.
Proof.
  assert (Hd : forall n, 0 <= n -> forallb nonspace (str_of_nat n) = true).
  { intros n Hn. pose proof (str_of_nat_digits n Hn) as H.
    rewrite forallb_forall in *. intros c Hc. apply nonspace_true.
    apply digit_not_space. now apply H. }
  unfold str_of_Z. destruct (Z.ltb_spec z 0); [|now apply Hd].
  simpl. apply Hd. lia.
Qed.

(** ** Characters kept by strip and split *)

Lemma rstrip_head_any (p : ascii -> bool) (s : pystr) :
  head_fails p s -> head_fails p (rstrip s).
Proof.
  intros H. destruct (rstrip s) as [|c r] eqn:E; [exact I|].
  rewrite (rstrip_split s), E in H. exact H.
Qed.

Lemma strip_forallb (p : ascii -> bool) (s : pystr) :
  forallb p s = true -> forallb p (strip s) = true.
Proof.
  destruct (strip_decompose s) as (a & b & Hs & _). intros H.
  rewrite Hs, !forallb_app in H.
  apply andb_true_iff in H as [_ H]. now apply andb_true_iff in H as [H _].
Qed.

Lemma split_go_forallb (p : ascii -> bool) (tok s : pystr) :
  forallb p tok = true -> forallb p s = true ->
  Forall (fun t => forallb p t = true) (split_go tok s).
Proof.
  revert tok. induction s as [|c s IH]; intros tok Ht Hs; cbn [split_go].
  - destruct tok; constructor; [now rewrite forallb_rev | constructor].
  - cbn [forallb] in Hs. apply andb_true_iff in Hs as [Hc Hs].
    destruct (is_space c).
    + destruct tok; [now apply IH|].
      constructor; [now rewrite forallb_rev | now apply IH].
    + apply IH; [cbn [forallb]; now rewrite Hc, Ht | assumption].
Qed.

(** The tokens of a string keep a property of all its characters. *)
Lemma split_forallb (p : ascii -> bool) (s : pystr) :
  forallb p s = true -> Forall (fun t => forallb p t = true) (split s).
Proof. now apply split_go_forallb. Qed.

#[export] Hint Resolve strip_head strip_last lstrip_head rstrip_last
  split_tokens str_of_Z_nonempty str_of_nat_digits : py.
#[export] Hint Rewrite strip_idem split_strip : pyrw.
