(* ===== verification/PyFraction.v ===== *)
(** * PyFraction: [fractions.Fraction] as the scraper uses it

    The scraper builds fractions from tokens ([Fraction(s)]), adds them up
    ([sum]), builds one from a float ([Fraction(value)], in [PyFloat]) and
    asks for the closest fraction with a denominator of at most 1000000
    ([limit_denominator()]).  This file models the class after CPython's
    fractions.py: a pair of integers in lowest terms with a positive
    denominator, the constructors, [+], [sum] and [limit_denominator]. *)

From Stdlib Require Import List ZArith Lia Bool Ascii String Znumtheory.
From S2P Require Import Prelude PyText.
Import ListNotations.

Open Scope string_scope.
Open Scope list_scope.
Open Scope Z_scope.

(** ** The class *)

Record Fraction : Type := mkFraction { numerator : Z; denominator : Z }.

(** The class invariant: lowest terms, positive denominator. *)
Definition Fraction_wf (f : Fraction) : Prop :=
  0 < denominator f /\ Z.gcd (numerator f) (denominator f) = 1.

Definition Fraction_wfb (f : Fraction) : bool :=
  (0 <? denominator f) && (Z.gcd (numerator f) (denominator f) =? 1).

(** Two fractions denote the same rational. *)
Definition Fraction_eqv (a b : Fraction) : Prop :=
  numerator a * denominator b = numerator b * denominator a.

(** [|x - a| <= |x - b|], cross-multiplied by the (positive) denominators. *)
Definition Fraction_closer (x a b : Fraction) : Prop :=
  Z.abs (numerator x * denominator a - numerator a * denominator x) * denominator b
  <= Z.abs (numerator x * denominator b - numerator b * denominator x) * denominator a.

(** The normalisation step of the constructor:
    [g = gcd(n, d); if d < 0: g = -g; n //= g; d //= g]. *)
Definition normalize (n d : Z) : Fraction :=
  let g := Z.gcd n d in
  let g := if d <? 0 then - g else g in
  mkFraction (n / g) (d / g).

(** [Fraction(n, d)] for two ints. *)
Definition Fraction_new (n d : Z) : res Fraction :=
  if d =? 0 then Raise ZeroDivisionError else Ok (normalize n d).

Definition nonempty (s : pystr) : bool :=
  match s with [] => false | _ => true end.

(** [Fraction(s)] for a token [s] over the digits, [/] and [.] (the only
    characters a token of [extract_quantity] has, on which every CPython
    version agrees).  The token must start with a digit or with a point
    and a digit, and be a run of digits (the numerator, empty before a
    point), followed by nothing, by a slash and one digit or more (the
    denominator), or by a point and a run of digits (the decimals). *)
Definition Fraction_of_str (s : pystr) : res Fraction :=
  let num := takeWhile is_digit s in
  match dropWhile is_digit s with
  | [] =>
      if nonempty num then Fraction_new (int_of_digits num) 1
      else Raise ValueError
  | c :: rest =>
      if Ascii.eqb c "/" then
        if nonempty num && nonempty rest && forallb is_digit rest
        then Fraction_new (int_of_digits num) (int_of_digits rest)
        else Raise ValueError
      else if Ascii.eqb c "." then
        if forallb is_digit rest && (nonempty num || nonempty rest) then
          match rest with
          | [] => Fraction_new (int_of_digits num) 1
          | _ =>
              let scale := 10 ^ Z.of_nat (List.length rest) in
              Fraction_new (int_of_digits num * scale + int_of_digits rest) scale
          end
        else Raise ValueError
      else Raise ValueError
  end.

(** [a + b]. *)
Definition Fraction_add (a b : Fraction) : Fraction :=
  normalize (numerator a * denominator b + numerator b * denominator a)
            (denominator a * denominator b).

(** [sum(l)]: from 0, left to right. *)
Definition Fraction_sum (l : list Fraction) : Fraction :=
  fold_left Fraction_add l (mkFraction 0 1).

(** ** limit_denominator *)

(** The state of the loop: two consecutive convergents [p0/q0], [p1/q1] and
    the remainders [n], [d] of Euclid's algorithm. *)
Record ld_state : Type :=
  mkLd { ld_p0 : Z; ld_q0 : Z; ld_p1 : Z; ld_q1 : Z; ld_n : Z; ld_d : Z }.

Inductive ld_out : Type :=
| LdDone (st : ld_state)
| LdDivZero
| LdNoFuel.

(** [while True: a = n//d; q2 = q0+a*q1; if q2 > M: break;
     p0, q0, p1, q1 = p1, q1, p0+a*p1, q2; n, d = d, n-a*d]. *)
Fixpoint ld_loop (fuel : nat) (M : Z) (st : ld_state) : ld_out :=
  match fuel with
  | O => LdNoFuel
  | S fuel' =>
      let '(mkLd p0 q0 p1 q1 n d) := st in
      if d =? 0 then LdDivZero
      else
        let a := n / d in
        let q2 := q0 + a * q1 in
        if M <? q2 then LdDone st
        else ld_loop fuel' M (mkLd p1 q1 (p0 + a * p1) q2 d (n - a * d))
  end.

(** Iterations granted to the loop: [2 * (log2 M + 1) + 2]. *)
Definition ld_fuel (M : Z) : nat :=
  S (S (2 * S (Z.to_nat (Z.log2 M)))).

(** The choice between the two candidates after the loop:
    [k = (M-q0)//q1; if 2*d*(q0+k*q1) <= D: p1/q1 else (p0+k*p1)/(q0+k*q1)]. *)
Definition ld_choose (M D : Z) (st : ld_state) : res Fraction :=
  let '(mkLd p0 q0 p1 q1 n d) := st in
  if q1 =? 0 then Raise ZeroDivisionError
  else
    let k := (M - q0) / q1 in
    if 2 * d * (q0 + k * q1) <=? D then Ok (mkFraction p1 q1)
    else Ok (mkFraction (p0 + k * p1) (q0 + k * q1)).

(** [f.limit_denominator(M)].  [ValueError] for [M < 1]; running out of
    fuel is reported as [OverflowError], which Python never raises here and
    which [limit_denominator_total] excludes. *)
Definition limit_denominator (f : Fraction) (M : Z) : res Fraction :=
  if M <? 1 then Raise ValueError
  else if denominator f <=? M then Ok f
  else
    match ld_loop (ld_fuel M) M (mkLd 0 1 1 0 (numerator f) (denominator f)) with
    | LdDone st => ld_choose M (denominator f) st
    | LdDivZero => Raise ZeroDivisionError
    | LdNoFuel => Raise OverflowError
    end.

(** The default bound of [limit_denominator()]. *)
Definition max_denominator : Z := 1000000.

(** ** The grammar of tokens *)

(** A run of one digit or more. *)
Definition digits (s : pystr) : bool := nonempty s && forallb is_digit s.

(** [rational_token s n d]: the token [s] denotes [n/d] before
    normalisation.  The four shapes are [12], [3/4], [7.] and [1.5] or [.5]. *)
Inductive rational_token : pystr -> Z -> Z -> Prop :=
| RT_int (ns : pystr) :
    digits ns = true -> rational_token ns (int_of_digits ns) 1
| RT_ratio (ns ds : pystr) :
    digits ns = true -> digits ds = true ->
    rational_token (ns ++ "/"%char :: ds) (int_of_digits ns) (int_of_digits ds)
| RT_point (ns : pystr) :
    digits ns = true -> rational_token (ns ++ ["."%char]) (int_of_digits ns) 1
| RT_decimal (ns ds : pystr) :
    forallb is_digit ns = true -> digits ds = true ->
    rational_token (ns ++ "."%char :: ds)
      (int_of_digits ns * 10 ^ Z.of_nat (List.length ds) + int_of_digits ds)
      (10 ^ Z.of_nat (List.length ds)).

(** The characters of a token of the grammar. *)
Definition token_char (c : ascii) : bool :=
  is_digit c || Ascii.eqb c "/" || Ascii.eqb c ".".

(** ** The normal form *)

Lemma normalize_pos (n d : Z) :
  0 < d -> normalize n d = mkFraction (n / Z.gcd n d) (d / Z.gcd n d).
Proof.
  intros H. unfold normalize. destruct (Z.ltb_spec d 0); [lia | reflexivity].
Qed.

Lemma gcd_pos_r (n d : Z) : d <> 0 -> 0 < Z.gcd n d.
Proof.
  intros H. pose proof (Z.gcd_nonneg n d).
  destruct (Z.eq_dec (Z.gcd n d) 0) as [E|E]; [|lia].
  apply Z.gcd_eq_0_r in E. contradiction.
Qed.

Lemma exact_div (a b q : Z) : b <> 0 -> a = b * q -> a / b = q.
Proof. intros Hb H. symmetry. now apply Z.div_unique_exact. Qed.

(** [n] and [d] as multiples of their gcd. *)
Lemma gcd_cofactors (n d : Z) :
  exists a b, n = Z.gcd n d * a /\ d = Z.gcd n d * b.
Proof.
  destruct (Z.gcd_divide_l n d) as [a Ha], (Z.gcd_divide_r n d) as [b Hb].
  exists a, b. lia.
Qed.

Lemma normalize_neg (n d : Z) :
  d < 0 -> normalize n d = normalize (- n) (- d).
Proof.
  intros H. pose proof (gcd_pos_r n d ltac:(lia)) as Hg.
  rewrite (normalize_pos (- n) (- d)) by lia.
  unfold normalize. destruct (Z.ltb_spec d 0); [|lia].
  rewrite Z.gcd_opp_l, Z.gcd_opp_r.
  destruct (gcd_cofactors n d) as (a & b & Ha & Hb).
  set (g := Z.gcd n d) in *.
  rewrite (exact_div n (- g) (- a)), (exact_div d (- g) (- b)),
    (exact_div (- n) g (- a)), (exact_div (- d) g (- b)) by lia.
  reflexivity.
Qed.

Lemma normalize_wf (n d : Z) : d <> 0 -> Fraction_wf (normalize n d).
Proof.
  assert (Hpos : forall n d, 0 < d -> Fraction_wf (normalize n d)).
  { clear. intros n d H. rewrite normalize_pos by assumption.
    pose proof (gcd_pos_r n d ltac:(lia)) as Hg.
    split; simpl.
    - destruct (gcd_cofactors n d) as (a & b & Ha & Hb).
      rewrite (exact_div d _ b) by lia. nia.
    - apply Z.gcd_div_gcd; [lia | reflexivity]. }
  intros H. destruct (Z.ltb_spec d 0).
  - rewrite normalize_neg by assumption. apply Hpos. lia.
  - apply Hpos. lia.
Qed.

Lemma normalize_eqv (n d : Z) :
  d <> 0 -> Fraction_eqv (normalize n d) (mkFraction n d).
Proof.
  assert (Hpos : forall n d, 0 < d -> Fraction_eqv (normalize n d) (mkFraction n d)).
  { clear. intros n d H. rewrite normalize_pos by assumption.
    pose proof (gcd_pos_r n d ltac:(lia)) as Hg.
    unfold Fraction_eqv. simpl.
    destruct (gcd_cofactors n d) as (a & b & Ha & Hb).
    set (g := Z.gcd n d) in *.
    rewrite (exact_div n g a), (exact_div d g b) by lia. nia. }
  intros H. destruct (Z.ltb_spec d 0).
  - rewrite normalize_neg by assumption.
    specialize (Hpos (- n) (- d) ltac:(lia)). unfold Fraction_eqv in *.
    simpl in *. lia.
  - apply Hpos. lia.
Qed.

Lemma normalize_wf_id (f : Fraction) :
  Fraction_wf f -> normalize (numerator f) (denominator f) = f.
Proof.
  intros [Hd Hg]. rewrite normalize_pos by assumption. rewrite Hg.
  rewrite !Z.div_1_r. now destruct f.
Qed.

(** Normalising keeps the sign of the numerator. *)
Lemma normalize_num_pos (n d : Z) :
  0 < n -> 0 < d -> 0 < numerator (normalize n d).
Proof.
  intros Hn Hd. rewrite normalize_pos by assumption. cbn.
  pose proof (gcd_pos_r n d ltac:(lia)) as Hg.
  destruct (gcd_cofactors n d) as (a & b & Ha & _).
  rewrite (exact_div n _ a) by lia. nia.
Qed.

(** Normalising does not make the denominator larger. *)
Lemma normalize_den_le (n d : Z) : 0 < d -> denominator (normalize n d) <= d.
Proof.
  intros Hd. rewrite normalize_pos by assumption. cbn.
  pose proof (gcd_pos_r n d ltac:(lia)) as Hg.
  destruct (gcd_cofactors n d) as (a & b & _ & Hb).
  rewrite (exact_div d _ b) by lia. nia.
Qed.

(** Two fractions in normal form that denote the same rational are equal. *)
Lemma Fraction_wf_eqv_eq (a b : Fraction) :
  Fraction_wf a -> Fraction_wf b -> Fraction_eqv a b -> a = b.
Proof.
  destruct a as [na da], b as [nb db]. unfold Fraction_wf, Fraction_eqv. simpl.
  intros [Hda Hga] [Hdb Hgb] E.
  assert (Hab : (da | db)).
  { apply Z.gauss with na; [|now rewrite Z.gcd_comm]. exists nb. lia. }
  assert (Hba : (db | da)).
  { apply Z.gauss with nb; [|now rewrite Z.gcd_comm]. exists na. lia. }
  assert (da = db) by (apply Z.divide_antisym_nonneg; (lia || assumption)).
  subst. f_equal. nia.
Qed.

(** ** The loop of limit_denominator *)

(** Quotient and remainder of a floor division by a positive number. *)
Lemma floor_div_spec (n d : Z) :
  0 < d -> exists r, n = d * (n / d) + r /\ 0 <= r < d /\ n - n / d * d = r.
Proof.
  intros Hd. exists (n mod d). pose proof (Z.div_mod n d ltac:(lia)).
  pose proof (Z.mod_pos_bound n d Hd). lia.
Qed.

Lemma det_coprime (a b c d : Z) :
  a * d - b * c = 1 \/ a * d - b * c = -1 -> Z.gcd b d = 1.
Proof.
  intros H. pose proof (Z.gcd_nonneg b d) as Hn.
  destruct (Z.gcd_divide_l b d) as [x Hx], (Z.gcd_divide_r b d) as [y Hy].
  set (g := Z.gcd b d) in *.
  assert (Hd : (g | 1)).
  { destruct H as [H|H].
    - exists (a * y - x * c). rewrite <- H. rewrite Hx at 1. rewrite Hy at 1. ring.
    - exists (x * c - a * y). replace 1 with (- (a * d - b * c)) by lia.
      rewrite Hx at 1. rewrite Hy at 1. ring. }
  apply Z.divide_1_r_nonneg in Hd; assumption.
Qed.

(** A fraction [q = a*Q1 + b*q1] written on two neighbours [Q1], [q1] whose
    sum exceeds [M] has [a] and [b] of opposite signs when [1 <= q <= M]. *)
Lemma neighbours_signs (a b Q1 q1 q M : Z) :
  1 <= q1 -> 1 <= Q1 -> M < Q1 + q1 -> q = a * Q1 + b * q1 -> 1 <= q <= M ->
  (a <= 0 /\ 1 <= b) \/ (1 <= a /\ b <= 0).
Proof.
  intros Hq1 HQ1 HM Hq Hqb.
  destruct (Z_le_gt_dec a 0) as [Ha|Ha], (Z_le_gt_dec b 0) as [Hb|Hb];
    [exfalso; nia | left; lia | right; lia | exfalso; nia].
Qed.

Lemma neighbours_pick_second (a b e1 e2 Q1 q1 q M : Z) :
  1 <= q1 -> 1 <= Q1 -> M < Q1 + q1 -> 0 < e1 -> 0 < e2 ->
  q = a * Q1 + b * q1 -> 1 <= q <= M ->
  e2 * Q1 <= e1 * q1 ->
  e2 * q <= Z.abs (b * e2 - a * e1) * q1.
Proof.
  intros Hq1 HQ1 HM He1 He2 Hq Hqb Hc.
  destruct (neighbours_signs a b Q1 q1 q M) as [[Ha Hb]|[Ha Hb]]; try assumption.
  - rewrite Z.abs_eq by nia. subst q.
    assert (0 <= - a * (e2 * Q1 + e1 * q1)) by nia. nia.
  - rewrite Z.abs_neq by nia. subst q.
    assert (0 <= a * (e1 * q1 - e2 * Q1)) by nia.
    assert (0 <= - b * (e2 * q1)) by nia. nia.
Qed.

Lemma neighbours_pick_first (a b e1 e2 Q1 q1 q M : Z) :
  1 <= q1 -> 1 <= Q1 -> M < Q1 + q1 -> 0 < e1 -> 0 < e2 ->
  q = a * Q1 + b * q1 -> 1 <= q <= M ->
  e1 * q1 <= e2 * Q1 ->
  e1 * q <= Z.abs (b * e2 - a * e1) * Q1.
Proof.
  intros Hq1 HQ1 HM He1 He2 Hq Hqb Hc.
  destruct (neighbours_signs a b Q1 q1 q M) as [[Ha Hb]|[Ha Hb]]; try assumption.
  - rewrite Z.abs_eq by nia. subst q.
    assert (0 <= - a * (e1 * Q1)) by nia.
    assert (0 <= b * (e2 * Q1 - e1 * q1)) by nia. nia.
  - rewrite Z.abs_neq by nia. subst q.
    assert (0 <= - b * (e1 * q1 + e2 * Q1)) by nia. nia.
Qed.

(** The numerators of the distances from [N/D] to the two candidates, with
    [N = p1*n + p0*d] and [D = q1*n + q0*d]. *)
Lemma convergent_errors (p0 q0 p1 q1 n d k : Z) :
  p0 * q1 - p1 * q0 = 1 \/ p0 * q1 - p1 * q0 = -1 ->
  0 <= d -> 0 <= n - k * d ->
  Z.abs ((p1 * n + p0 * d) * q1 - p1 * (q1 * n + q0 * d)) = d /\
  Z.abs ((p1 * n + p0 * d) * (q0 + k * q1) - (p0 + k * p1) * (q1 * n + q0 * d))
  = n - k * d.
Proof.
  intros Hdet Hd He.
  replace ((p1 * n + p0 * d) * q1 - p1 * (q1 * n + q0 * d))
    with ((p0 * q1 - p1 * q0) * d) by ring.
  replace ((p1 * n + p0 * d) * (q0 + k * q1) - (p0 + k * p1) * (q1 * n + q0 * d))
    with (- (p0 * q1 - p1 * q0) * (n - k * d)) by ring.
  destruct Hdet as [->| ->]; split; lia.
Qed.

(** Any [p/q] has integer coordinates [a], [b] on the two candidates, and
    the numerator of its distance from [N/D] is [|b*d - a*(n - k*d)|]. *)
Lemma convergent_coords (p0 q0 p1 q1 n d k p q : Z) :
  p0 * q1 - p1 * q0 = 1 \/ p0 * q1 - p1 * q0 = -1 ->
  exists a b, q = a * (q0 + k * q1) + b * q1 /\
    Z.abs ((p1 * n + p0 * d) * q - p * (q1 * n + q0 * d))
    = Z.abs (b * d - a * (n - k * d)).
Proof.
  intros Hdet.
  set (a := p * q1 - q * p1). set (b := q * (p0 + k * p1) - p * (q0 + k * q1)).
  assert (Hq : a * (q0 + k * q1) + b * q1 = q * (p0 * q1 - p1 * q0))
    by (unfold a, b; ring).
  assert (Hu : (p1 * n + p0 * d) * q - p * (q1 * n + q0 * d)
               = b * d - a * (n - k * d)) by (unfold a, b; ring).
  destruct Hdet as [Hs|Hs]; rewrite Hs in Hq.
  - exists a, b. split; [lia | now rewrite Hu].
  - exists (- a), (- b). split; [lia|]. rewrite Hu, <- Z.abs_opp. f_equal. ring.
Qed.

Section LimitDenominator.
Variables N D M : Z.
Hypothesis HD : 0 < D.
Hypothesis Hg : Z.gcd N D = 1.
Hypothesis HM : 1 <= M.
Hypothesis HDM : M < D.

Definition ld_inv (st : ld_state) : Prop :=
  let '(mkLd p0 q0 p1 q1 n d) := st in
  N = p1 * n + p0 * d /\ D = q1 * n + q0 * d /\
  (p0 * q1 - p1 * q0 = 1 \/ p0 * q1 - p1 * q0 = -1) /\
  0 <= q0 <= M /\ 1 <= q1 <= M /\ 0 <= d < n.

Definition ld_next (st : ld_state) : ld_state :=
  let '(mkLd p0 q0 p1 q1 n d) := st in
  let a := n / d in
  mkLd p1 q1 (p0 + a * p1) (q0 + a * q1) d (n - a * d).

Definition ld_q2 (st : ld_state) : Z :=
  ld_q0 st + ld_n st / ld_d st * ld_q1 st.

Ltac ld_simpl :=
  unfold ld_q2 in *;
  cbn [ld_inv ld_next ld_p0 ld_q0 ld_p1 ld_q1 ld_n ld_d] in *.

Lemma ld_loop_S (fuel : nat) (st : ld_state) :
  ld_loop (S fuel) M st =
  if ld_d st =? 0 then LdDivZero
  else if M <? ld_q2 st then LdDone st
  else ld_loop fuel M (ld_next st).
Proof. destruct st. reflexivity. Qed.

Lemma ld_inv_d_pos (st : ld_state) : ld_inv st -> 0 < ld_d st.
Proof.
  destruct st as [p0 q0 p1 q1 n d]. ld_simpl.
  intros (HN & HDd & _ & _ & Hq1 & Hd).
  destruct (Z.eq_dec d 0) as [->|]; [exfalso|lia].
  assert (Hn : (n | 1)).
  { rewrite <- Hg. apply Z.gcd_greatest; [exists p1 | exists q1]; lia. }
  apply Z.divide_1_r_nonneg in Hn; [|lia]. subst n. lia.
Qed.

Lemma ld_inv_next (st : ld_state) :
  ld_inv st -> ld_q2 st <= M -> ld_inv (ld_next st).
Proof.
  intros Hinv. pose proof (ld_inv_d_pos st Hinv) as Hdp. revert Hinv Hdp.
  destruct st as [p0 q0 p1 q1 n d]. ld_simpl.
  intros (HN & HDd & Hdet & Hq0 & Hq1 & Hd) Hdp Hq2.
  destruct (floor_div_spec n d Hdp) as (r & Hr & Hrb & Hsub).
  rewrite Hsub. set (a := n / d) in *.
  assert (Ha : 1 <= a) by nia.
  repeat split; try lia; nia.
Qed.

(** The denominators grow: [2 * q1 + q0] gains a factor 3/2 per iteration,
    and it cannot exceed [3 * M]. *)
Lemma ld_loop_done (fuel : nat) (st : ld_state) :
  ld_inv st ->
  3 * M * 2 ^ Z.of_nat fuel < (2 * ld_q1 st + ld_q0 st) * 3 ^ Z.of_nat fuel ->
  exists st', ld_loop fuel M st = LdDone st' /\ ld_inv st' /\ M < ld_q2 st'.
Proof.
  revert st. induction fuel as [|fuel IH]; intros st Hinv Hfuel.
  - exfalso. change (Z.of_nat 0) with 0 in Hfuel. rewrite !Z.pow_0_r in Hfuel.
    destruct st as [p0 q0 p1 q1 n d]. ld_simpl. lia.
  - rewrite ld_loop_S. pose proof (ld_inv_d_pos st Hinv) as Hdp.
    destruct (Z.eqb_spec (ld_d st) 0) as [|_]; [lia|].
    destruct (Z.ltb_spec M (ld_q2 st)) as [Hlt|Hle]; [eauto|].
    apply IH; [now apply ld_inv_next|].
    rewrite Nat2Z.inj_succ, !Z.pow_succ_r in Hfuel by lia.
    revert Hinv Hdp Hle Hfuel. destruct st as [p0 q0 p1 q1 n d].
    ld_simpl. intros (_ & _ & _ & Hq0 & Hq1 & Hd) Hdp Hle Hfuel.
    destruct (floor_div_spec n d Hdp) as (r & Hr & Hrb & _).
    set (a := n / d) in *. assert (Ha : 1 <= a) by nia.
    assert (H3 : 0 < 3 ^ Z.of_nat fuel) by (apply Z.pow_pos_nonneg; lia).
    assert (H2 : 0 < 2 ^ Z.of_nat fuel) by (apply Z.pow_pos_nonneg; lia).
    assert (Hq : 3 * (2 * q1 + q0) <= 2 * (2 * (q0 + a * q1) + q1)) by nia.
    nia.
Qed.


(** What [k = (M - q0) // q1] satisfies after the loop. *)
Lemma ld_k_spec (st : ld_state) :
  ld_inv st -> M < ld_q2 st ->
  let k := (M - ld_q0 st) / ld_q1 st in
  0 <= k /\ 1 <= ld_q0 st + k * ld_q1 st <= M /\
  M < (ld_q0 st + k * ld_q1 st) + ld_q1 st /\
  ld_d st <= ld_n st - k * ld_d st.
Proof.
  intros Hinv Hq2. pose proof (ld_inv_d_pos st Hinv) as Hdp.
  revert Hinv Hq2 Hdp. destruct st as [p0 q0 p1 q1 n d]. ld_simpl.
  intros (_ & _ & _ & Hq0 & Hq1 & Hd) Hq2 Hdp.
  destruct (floor_div_spec n d Hdp) as (r & Hr & Hrb & _).
  destruct (floor_div_spec (M - q0) q1 ltac:(lia)) as (r' & Hr' & Hrb' & _).
  set (k := (M - q0) / q1) in *. set (a := n / d) in *.
  assert (Hk : 0 <= k) by nia.
  assert (Hka : k + 1 <= a) by nia.
  repeat split; try nia.
Qed.

(** The candidate chosen after the loop is in lowest terms, within the
    bound, and no fraction within the bound is closer to [N/D]. *)
Lemma ld_choose_spec (st : ld_state) :
  ld_inv st -> M < ld_q2 st ->
  exists r, ld_choose M D st = Ok r /\ Fraction_wf r /\ denominator r <= M /\
    forall p q, 1 <= q <= M -> Fraction_closer (mkFraction N D) r (mkFraction p q).
Proof.
  intros Hinv Hq2. pose proof (ld_inv_d_pos st Hinv) as Hdp.
  pose proof (ld_k_spec st Hinv Hq2) as Hk.
  revert Hinv Hq2 Hdp Hk. destruct st as [p0 q0 p1 q1 n d]. ld_simpl.
  cbn [ld_choose]. intros (HN & HDd & Hdet & Hq0 & Hq1 & Hd) Hq2 Hdp.
  set (k := (M - q0) / q1). intros (Hk0 & HQ1 & HMQ & He1).
  destruct (Z.eqb_spec q1 0) as [|_]; [lia|].
  destruct (convergent_errors p0 q0 p1 q1 n d k Hdet) as [Hu2 Hu1]; try lia.
  rewrite <- HN, <- HDd in Hu1, Hu2.
  assert (Hcmp : 2 * d * (q0 + k * q1) <= D <-> d * (q0 + k * q1) <= (n - k * d) * q1)
    by (subst D; nia).
  destruct (Z.leb_spec (2 * d * (q0 + k * q1)) D) as [Hc|Hc];
    eexists; (split; [reflexivity|]); (split; [|split]); cbn; try lia.
  - split; cbn; [lia | eapply det_coprime; eassumption].
  - intros p q Hq. unfold Fraction_closer. cbn [numerator denominator].
    destruct (convergent_coords p0 q0 p1 q1 n d k p q Hdet) as (a & b & Ha & Hab).
    rewrite <- HN, <- HDd in Hab. rewrite Hu2, Hab.
    apply neighbours_pick_second with (Q1 := q0 + k * q1) (M := M); lia.
  - split; cbn; [lia|]. apply det_coprime with (a := p1) (c := q1).
    destruct Hdet; [right | left]; lia.
  - intros p q Hq. unfold Fraction_closer. cbn [numerator denominator].
    destruct (convergent_coords p0 q0 p1 q1 n d k p q Hdet) as (a & b & Ha & Hab).
    rewrite <- HN, <- HDd in Hab. rewrite Hu1, Hab.
    apply neighbours_pick_first with (q1 := q1) (M := M); lia.
Qed.

Lemma ld_fuel_enough (k : nat) :
  M < 2 ^ Z.of_nat k ->
  3 * M * 2 ^ Z.of_nat (S (2 * k)) < 2 * 3 ^ Z.of_nat (S (2 * k)).
Proof.
  intros Hk.
  replace (Z.of_nat (S (2 * k))) with (Z.succ (2 * Z.of_nat k)) by lia.
  rewrite !Z.pow_succ_r, !Z.pow_mul_r by lia.
  change (2 ^ 2) with 4. change (3 ^ 2) with 9.
  assert (H4 : 0 < 4 ^ Z.of_nat k) by (apply Z.pow_pos_nonneg; lia).
  assert (H8 : 2 ^ Z.of_nat k * 4 ^ Z.of_nat k = 8 ^ Z.of_nat k)
    by (now rewrite <- Z.pow_mul_l).
  assert (H9 : 8 ^ Z.of_nat k <= 9 ^ Z.of_nat k)
    by (apply Z.pow_le_mono_l; lia).
  nia.
Qed.

(** From the initial state the loop leaves through [break], with the
    invariant, before the fuel is spent. *)
Lemma ld_loop_total :
  exists st, ld_loop (ld_fuel M) M (mkLd 0 1 1 0 N D) = LdDone st /\
             ld_inv st /\ M < ld_q2 st.
Proof.
  unfold ld_fuel. rewrite ld_loop_S. ld_simpl.
  destruct (Z.eqb_spec D 0) as [|_]; [lia|].
  destruct (Z.ltb_spec M (1 + N / D * 0)) as [|_]; [lia|].
  destruct (floor_div_spec N D HD) as (r & Hr & Hrb & Hsub).
  apply ld_loop_done.
  - cbn [ld_inv]. rewrite Hsub. repeat split; lia.
  - cbn [ld_q0 ld_q1].
    replace (2 * (1 + N / D * 0) + 1) with (2 + 1) by ring.
    pose proof (ld_fuel_enough (S (Z.to_nat (Z.log2 M)))) as H.
    assert (H3 : 0 < 3 ^ Z.of_nat (S (2 * S (Z.to_nat (Z.log2 M)))))
      by (apply Z.pow_pos_nonneg; lia).
    enough (M < 2 ^ Z.of_nat (S (Z.to_nat (Z.log2 M)))) by nia.
    rewrite Nat2Z.inj_succ, Z2Nat.id by apply Z.log2_nonneg.
    apply Z.log2_spec. lia.
Qed.

End LimitDenominator.

(** ** limit_denominator *)

Lemma limit_denominator_small (f : Fraction) (M : Z) :
  1 <= M -> denominator f <= M -> limit_denominator f M = Ok f.
Proof.
  intros HM Hd. unfold limit_denominator.
  destruct (Z.ltb_spec M 1); [lia|]. destruct (Z.leb_spec (denominator f) M); [reflexivity | lia].
Qed.

Lemma limit_denominator_bad_bound (f : Fraction) (M : Z) :
  M < 1 -> limit_denominator f M = Raise ValueError.
Proof.
  intros HM. unfold limit_denominator. destruct (Z.ltb_spec M 1); [reflexivity | lia].
Qed.

(** The full specification: for a fraction in normal form and a bound of
    at least 1, [limit_denominator] returns a fraction in normal form with
    a denominator within the bound, and no fraction with a denominator
    within the bound is closer to the argument. *)
Lemma limit_denominator_spec (f : Fraction) (M : Z) :
  Fraction_wf f -> 1 <= M ->
  exists r, limit_denominator f M = Ok r /\ Fraction_wf r /\ denominator r <= M /\
    forall p q, 1 <= q <= M -> Fraction_closer f r (mkFraction p q).
Proof.
  intros [Hd Hg] HM. destruct (Z_le_gt_dec (denominator f) M) as [Hle|Hgt].
  - exists f. rewrite limit_denominator_small by assumption.
    repeat split; try assumption. intros p q Hq. unfold Fraction_closer.
    replace (numerator f * denominator f - numerator f * denominator f) with 0 by ring.
    cbn. pose proof (Z.abs_nonneg (numerator f * q - p * denominator f)). nia.
  - unfold limit_denominator.
    destruct (Z.ltb_spec M 1); [lia|]. destruct (Z.leb_spec (denominator f) M); [lia|].
    destruct (ld_loop_total (numerator f) (denominator f) M) as (st & -> & Hinv & Hq2);
      try assumption; try lia.
    destruct f as [N D]. now apply ld_choose_spec.
Qed.

Lemma limit_denominator_total (f : Fraction) (M : Z) :
  Fraction_wf f -> 1 <= M -> exists r, limit_denominator f M = Ok r.
Proof.
  intros Hf HM. destruct (limit_denominator_spec f M Hf HM) as (r & Hr & _). eauto.
Qed.

Lemma limit_denominator_wf (f r : Fraction) (M : Z) :
  Fraction_wf f -> 1 <= M -> limit_denominator f M = Ok r ->
  Fraction_wf r /\ denominator r <= M.
Proof.
  intros Hf HM Hr. destruct (limit_denominator_spec f M Hf HM) as (r' & Hr' & Hwf & Hb & _).
  rewrite Hr in Hr'. injection Hr' as <-. auto.
Qed.

Lemma limit_denominator_closest (f r : Fraction) (M p q : Z) :
  Fraction_wf f -> 1 <= M -> limit_denominator f M = Ok r -> 1 <= q <= M ->
  Fraction_closer f r (mkFraction p q).
Proof.
  intros Hf HM Hr Hq. destruct (limit_denominator_spec f M Hf HM) as (r' & Hr' & _ & _ & Hc).
  rewrite Hr in Hr'. injection Hr' as <-. auto.
Qed.

(** A fraction whose denominator is within the bound is the only closest
    one, so [limit_denominator] is idempotent. *)
Lemma limit_denominator_idem (f r : Fraction) (M : Z) :
  Fraction_wf f -> 1 <= M -> limit_denominator f M = Ok r ->
  limit_denominator r M = Ok r.
Proof.
  intros Hf HM Hr. apply limit_denominator_small; [assumption|].
  now apply (limit_denominator_wf f r M).
Qed.

(** ** Addition and sum *)

Lemma Fraction_add_wf (a b : Fraction) :
  Fraction_wf a -> Fraction_wf b -> Fraction_wf (Fraction_add a b).
Proof. intros [Ha _] [Hb _]. apply normalize_wf. nia. Qed.

Lemma Fraction_add_eqv (a b : Fraction) :
  Fraction_wf a -> Fraction_wf b ->
  Fraction_eqv (Fraction_add a b)
    (mkFraction (numerator a * denominator b + numerator b * denominator a)
                (denominator a * denominator b)).
Proof. intros [Ha _] [Hb _]. apply normalize_eqv. nia. Qed.

Lemma Fraction_zero_wf : Fraction_wf (mkFraction 0 1).
Proof. split; reflexivity. Qed.

Lemma Fraction_add_zero_l (a : Fraction) :
  Fraction_wf a -> Fraction_add (mkFraction 0 1) a = a.
Proof.
  intros Ha. unfold Fraction_add. cbn [numerator denominator].
  rewrite Z.mul_0_l, Z.add_0_l, !Z.mul_1_r, Z.mul_1_l. now apply normalize_wf_id.
Qed.

Lemma fold_add_wf (l : list Fraction) (a : Fraction) :
  Fraction_wf a -> Forall Fraction_wf l -> Fraction_wf (fold_left Fraction_add l a).
Proof.
  revert a. induction l as [|x l IH]; intros a Ha Hl; [assumption|].
  inv Hl. cbn [fold_left]. apply IH; [now apply Fraction_add_wf | assumption].
Qed.

Lemma Fraction_sum_wf (l : list Fraction) :
  Forall Fraction_wf l -> Fraction_wf (Fraction_sum l).
Proof. apply fold_add_wf, Fraction_zero_wf. Qed.

Lemma Fraction_sum_nil : Fraction_sum [] = mkFraction 0 1.
Proof. reflexivity. Qed.

Lemma Fraction_sum_single (a : Fraction) :
  Fraction_wf a -> Fraction_sum [a] = a.
Proof. intros Ha. unfold Fraction_sum. cbn [fold_left]. now apply Fraction_add_zero_l. Qed.

(** ** Construction *)

Lemma Fraction_new_ok (n d : Z) (f : Fraction) :
  Fraction_new n d = Ok f <-> d <> 0 /\ f = normalize n d.
Proof.
  unfold Fraction_new. destruct (Z.eqb_spec d 0); split.
  - discriminate.
  - intros [H _]. contradiction.
  - intros [= <-]. auto.
  - intros [_ ->]. reflexivity.
Qed.

Lemma Fraction_new_raise (n d : Z) (e : exn) :
  Fraction_new n d = Raise e <-> d = 0 /\ e = ZeroDivisionError.
Proof.
  unfold Fraction_new. destruct (Z.eqb_spec d 0); split.
  - intros [= <-]. auto.
  - intros [_ ->]. reflexivity.
  - discriminate.
  - intros [H _]. contradiction.
Qed.

Lemma Fraction_new_wf (n d : Z) (f : Fraction) :
  Fraction_new n d = Ok f -> Fraction_wf f.
Proof. intros H. apply Fraction_new_ok in H as [Hd ->]. now apply normalize_wf. Qed.

Lemma Fraction_of_str_wf (s : pystr) (f : Fraction) :
  Fraction_of_str s = Ok f -> Fraction_wf f.
Proof.
  unfold Fraction_of_str.
  repeat (destr; try discriminate); eauto using Fraction_new_wf.
Qed.

(** ** The grammar accepted by the constructor *)

Lemma digits_spec (s : pystr) :
  digits s = true <-> nonempty s = true /\ forallb is_digit s = true.
Proof. unfold digits. apply andb_true_iff. Qed.

(** The split of a token at its first character that is not a digit. *)
Lemma span_digits (ns rest : pystr) (c : ascii) :
  forallb is_digit ns = true -> is_digit c = false ->
  takeWhile is_digit (ns ++ c :: rest) = ns /\
  dropWhile is_digit (ns ++ c :: rest) = c :: rest.
Proof. intros Hn Hc. now apply span_unique. Qed.

(** Split the hypotheses [digits s = true] of the context. *)
Ltac digits_hyps :=
  repeat match goal with
  | H : digits ?s = true |- _ =>
      let Hne := fresh "Hne" in let Hall := fresh "Hall" in
      apply digits_spec in H as [Hne Hall]
  end.

(** Rewrite with the boolean facts of the context. *)
Ltac bool_hyps :=
  repeat match goal with
  | H : ?b = true |- context [?b] => rewrite H
  end.

Lemma Fraction_of_str_sound (s : pystr) (n d : Z) :
  rational_token s n d -> Fraction_of_str s = Fraction_new n d.
Proof.
  intros H. unfold Fraction_of_str.
  destruct H as [ns Hn | ns ds Hn Hd | ns Hn | ns ds Hn Hd]; digits_hyps.
  - rewrite dropWhile_forallb, takeWhile_forallb by assumption. now bool_hyps.
  - destruct (span_digits ns ds "/") as [-> ->]; [assumption | reflexivity |].
    cbn [Ascii.eqb Bool.eqb]. now bool_hyps.
  - destruct (span_digits ns [] ".") as [-> ->]; [assumption | reflexivity |].
    cbn [Ascii.eqb Bool.eqb forallb]. now bool_hyps.
  - destruct (span_digits ns ds ".") as [-> ->]; [assumption | reflexivity |].
    cbn [Ascii.eqb Bool.eqb]. bool_hyps. rewrite orb_true_r.
    destruct ds; [discriminate | reflexivity].
Qed.

Lemma Fraction_of_str_complete (s : pystr) :
  Fraction_of_str s <> Raise ValueError -> exists n d, rational_token s n d.
Proof.
  unfold Fraction_of_str. intros H.
  rewrite <- (takeWhile_dropWhile is_digit s). revert H.
  pose proof (takeWhile_all is_digit s) as Hn.
  set (ns := takeWhile is_digit s) in *.
  destruct (dropWhile is_digit s) as [|c rest].
  - rewrite app_nil_r. destruct (nonempty ns) eqn:E; [|congruence].
    intros _. do 2 eexists. apply RT_int. apply digits_spec. auto.
  - destruct (Ascii.eqb_spec c "/") as [->|_].
    { destruct (nonempty ns && nonempty rest && forallb is_digit rest) eqn:E;
        [|congruence].
      apply andb_true_iff in E as [E Hr]. apply andb_true_iff in E as [En Er].
      intros _. do 2 eexists. apply RT_ratio; apply digits_spec; auto. }
    destruct (Ascii.eqb_spec c ".") as [->|_]; [|congruence].
    destruct (forallb is_digit rest && (nonempty ns || nonempty rest)) eqn:E;
      [|congruence].
    apply andb_true_iff in E as [Hr E]. intros _.
    destruct rest as [|r rest].
    + do 2 eexists. apply RT_point. apply digits_spec. simpl in E.
      rewrite orb_false_r in E. auto.
    + do 2 eexists. apply RT_decimal; [assumption|]. now apply digits_spec.
Qed.

Lemma Fraction_new_not_ValueError (n d : Z) : Fraction_new n d <> Raise ValueError.
Proof. unfold Fraction_new. destruct (d =? 0); discriminate. Qed.

(** [Fraction(s)] accepts exactly the tokens of the grammar: it raises
    [ValueError] on the others and builds [n/d] on a token that denotes it. *)
Lemma Fraction_of_str_grammar (s : pystr) :
  (exists n d, rational_token s n d /\ Fraction_of_str s = Fraction_new n d)
  \/ ((forall n d, ~ rational_token s n d) /\ Fraction_of_str s = Raise ValueError).
Proof.
  destruct (Fraction_of_str s) as [f|e] eqn:E.
  - left. destruct (Fraction_of_str_complete s) as (n & d & H); [congruence|].
    exists n, d. split; [assumption|]. rewrite <- E. now apply Fraction_of_str_sound.
  - destruct e; try (left; destruct (Fraction_of_str_complete s) as (n & d & H);
      [congruence | exists n, d; split;
        [assumption | rewrite <- E; now apply Fraction_of_str_sound]]).
    right. split; [|reflexivity]. intros n d H.
    apply Fraction_of_str_sound in H. rewrite E in H. symmetry in H.
    now apply Fraction_new_not_ValueError in H.
Qed.

Lemma rational_token_chars (s : pystr) (n d : Z) :
  rational_token s n d -> forallb token_char s = true.
Proof.
  assert (Hd : forall t, forallb is_digit t = true -> forallb token_char t = true).
  { intros t Ht. rewrite forallb_forall in *. intros c Hc. unfold token_char.
    now rewrite (Ht c Hc). }
  intros H. destruct H; digits_hyps;
    rewrite ?forallb_app; cbn [forallb]; rewrite ?Hd by assumption;
    reflexivity.
Qed.

(** The value of a token is not negative. *)
Lemma rational_token_nonneg (s : pystr) (n d : Z) :
  rational_token s n d -> 0 <= n /\ 0 <= d.
Proof.
  intros H. destruct H; digits_hyps;
    repeat match goal with
    | H : forallb is_digit ?t = true |- _ =>
        apply int_of_digits_nonneg in H
    end; split; try lia.
  all: assert (0 < 10 ^ Z.of_nat (List.length ds)) by (apply Z.pow_pos_nonneg; lia);
    nia.
Qed.

(** ** Concrete checks *)

Example Fraction_of_str_mixed :
  map Fraction_of_str (map py ["3"; "3/4"; "0.5"; ".25"; "7."; "10/4"])
  = [Ok (mkFraction 3 1); Ok (mkFraction 3 4); Ok (mkFraction 1 2);
     Ok (mkFraction 1 4); Ok (mkFraction 7 1); Ok (mkFraction 5 2)].
Proof. reflexivity. Qed.

Example Fraction_of_str_errors :
  map Fraction_of_str (map py ["1/0"; "1/"; "/2"; "."; "1.5/2"; "1/2/3"; "1..5"; "0x1"])
  = [Raise ZeroDivisionError; Raise ValueError; Raise ValueError;
     Raise ValueError; Raise ValueError; Raise ValueError; Raise ValueError;
     Raise ValueError].
Proof. reflexivity. Qed.

(** The double nearest to 1/3 and the double nearest to pi. *)
Example limit_denominator_third :
  limit_denominator (mkFraction 6004799503160661 18014398509481984) max_denominator
  = Ok (mkFraction 1 3).
Proof. vm_compute. reflexivity. Qed.

Example limit_denominator_pi :
  limit_denominator (mkFraction 884279719003555 281474976710656) max_denominator
  = Ok (mkFraction 3126535 995207).
Proof. vm_compute. reflexivity. Qed.

Example limit_denominator_pi_small :
  map (limit_denominator (mkFraction 884279719003555 281474976710656)) [10; 100; 1000]
  = [Ok (mkFraction 22 7); Ok (mkFraction 311 99); Ok (mkFraction 355 113)].
Proof. vm_compute. reflexivity. Qed.

Example limit_denominator_negative :
  limit_denominator (mkFraction (-6004799503160661) 18014398509481984) 10
  = Ok (mkFraction (-1) 3).
Proof. vm_compute. reflexivity. Qed.

#[export] Hint Resolve normalize_wf Fraction_add_wf Fraction_sum_wf
  Fraction_zero_wf Fraction_new_wf Fraction_of_str_wf : py.
