(* ===== verification/FractionQ.v ===== *)
(** * FractionQ: fractions as rational numbers of the Standard Library

    [to_Q] reads a [Fraction] as a rational of [QArith].  The operations of
    [PyFraction] are shown to compute, up to the equality [==] of [Q], what
    the operations of [Q] compute: this is the reference the parser of
    quantities and the renderer are checked against.  The file also holds
    two consequences: the sum of fractions does not depend on their order,
    and [limit_denominator] returns a fraction with a small denominator
    exactly when its argument is close enough to it. *)

From Stdlib Require Import List ZArith Lia QArith Qabs Permutation Morphisms.
From S2P Require Import Prelude PyText PyFraction.
Import ListNotations.

Open Scope Z_scope.

(** ** The value of a fraction *)

Definition to_Q (f : Fraction) : Q := numerator f # Z.to_pos (denominator f).

(** The sum of a list of rationals. *)
Fixpoint Qsum (l : list Q) : Q :=
  match l with
  | [] => 0%Q
  | x :: l' => (x + Qsum l')%Q
  end.

Lemma to_Q_eqv (a b : Fraction) :
  0 < denominator a -> 0 < denominator b ->
  (to_Q a == to_Q b)%Q <-> Fraction_eqv a b.
Proof.
  intros Ha Hb. unfold Qeq, to_Q, Fraction_eqv. cbn.
  rewrite !Z2Pos.id by assumption. reflexivity.
Qed.

(** Fractions in normal form are equal when their values are. *)
Lemma to_Q_inj (a b : Fraction) :
  Fraction_wf a -> Fraction_wf b -> (to_Q a == to_Q b)%Q -> a = b.
Proof.
  intros Ha Hb H. apply Fraction_wf_eqv_eq; try assumption.
  apply to_Q_eqv; [apply Ha | apply Hb | exact H].
Qed.

Lemma to_Q_normalize (n d : Z) :
  0 < d -> (to_Q (normalize n d) == n # Z.to_pos d)%Q.
Proof.
  intros Hd. destruct (normalize_wf n d ltac:(lia)) as [Hp _].
  apply (to_Q_eqv (normalize n d) (mkFraction n d)); try assumption.
  apply normalize_eqv. lia.
Qed.

(** [Fraction_add] is the addition of [Q]. *)
Lemma to_Q_add (a b : Fraction) :
  0 < denominator a -> 0 < denominator b ->
  (to_Q (Fraction_add a b) == to_Q a + to_Q b)%Q.
Proof.
  intros Ha Hb. unfold Fraction_add. rewrite to_Q_normalize by nia.
  unfold Qeq, to_Q, Qplus. cbn.
  rewrite Pos2Z.inj_mul, !Z2Pos.id by nia. ring.
Qed.

(** ** Sums *)

#[export] Instance Qsum_Permutation : Proper (@Permutation Q ==> Qeq) Qsum.
Proof.
  intros l l' H.
  induction H as [|x l l' _ IH|x y l|l l' l'' _ IH1 _ IH2];
    cbn [Qsum].
  - reflexivity.
  - now rewrite IH.
  - ring.
  - now rewrite IH1.
Qed.

Lemma to_Q_fold (l : list Fraction) (a : Fraction) :
  Fraction_wf a -> Forall Fraction_wf l ->
  (to_Q (fold_left Fraction_add l a) == to_Q a + Qsum (map to_Q l))%Q.
Proof.
  revert a. induction l as [|x l IH]; intros a Ha Hl;
    cbn [fold_left map Qsum].
  - ring.
  - apply Forall_cons_iff in Hl as [Hx Hl]. rewrite IH by auto with py.
    rewrite to_Q_add by (apply Ha || apply Hx). ring.
Qed.

(** [Fraction_sum] is the sum of [Q]. *)
Lemma to_Q_sum (l : list Fraction) :
  Forall Fraction_wf l -> (to_Q (Fraction_sum l) == Qsum (map to_Q l))%Q.
Proof.
  intros Hl. unfold Fraction_sum. rewrite to_Q_fold by auto with py.
  change (to_Q (mkFraction 0 1)) with (0 # 1)%Q. ring.
Qed.

(** The sum of fractions does not depend on their order. *)
Lemma Fraction_sum_Permutation (l l' : list Fraction) :
  Forall Fraction_wf l -> Permutation l l' -> Fraction_sum l = Fraction_sum l'.
Proof.
  intros Hl Hp.
  assert (Hl' : Forall Fraction_wf l') by (eapply Permutation_Forall; eauto).
  apply to_Q_inj; auto with py.
  rewrite !to_Q_sum by assumption. now rewrite Hp.
Qed.

(** ** Distances *)

(** [Fraction_closer] compares distances in [Q]. *)
Lemma Fraction_closer_Q (x a b : Fraction) :
  0 < denominator x -> 0 < denominator a -> 0 < denominator b ->
  Fraction_closer x a b <->
  (Qabs (to_Q x - to_Q a) <= Qabs (to_Q x - to_Q b))%Q.
Proof.
  intros Hx Ha Hb. unfold Fraction_closer, Qle, to_Q, Qabs, Qminus, Qplus, Qopp.
  cbn. rewrite !Pos2Z.inj_mul, !Z2Pos.id by assumption.
  rewrite <- !Z.add_opp_r, <- !Z.mul_opp_l.
  split; intros H; nia.
Qed.

(** ** Stability of [limit_denominator] *)

(** Two fractions in normal form with denominators within [M] that are both
    within [1 / (2 * M)] of the denominator of [f] from [f] are equal: there
    is room for one only. *)
Lemma near_unique (N D M : Z) (r c : Fraction) :
  0 < D -> Fraction_wf r -> Fraction_wf c -> denominator r <= M ->
  Z.abs (N * denominator r - numerator r * D) * denominator c
  <= Z.abs (N * denominator c - numerator c * D) * denominator r ->
  2 * M * Z.abs (N * denominator c - numerator c * D) < D ->
  r = c.
Proof.
  intros HD Hr Hc HM Hcl Hnear.
  apply Fraction_wf_eqv_eq; try assumption. unfold Fraction_eqv.
  destruct r as [rn rd], c as [cn cd], Hr as [Hrd _], Hc as [Hcd _].
  cbn [numerator denominator] in *.
  set (A := N * rd - rn * D) in *. set (B := N * cd - cn * D) in *.
  assert (HE : D * (rn * cd - cn * rd) = rd * B - cd * A) by (subst A B; ring).
  clearbody A B.
  assert (Hb : D * Z.abs (rn * cd - cn * rd) < D * 1).
  { rewrite <- (Z.abs_eq D) at 1 by lia. rewrite <- Z.abs_mul, HE.
    pose proof (Z.abs_triangle (rd * B) (- (cd * A))) as Ht.
    rewrite Z.add_opp_r, Z.abs_opp, !Z.abs_mul, (Z.abs_eq rd), (Z.abs_eq cd) in Ht by lia.
    pose proof (Z.abs_nonneg B). nia. }
  apply Z.mul_lt_mono_pos_l in Hb; [lia | exact HD].
Qed.

(** A fraction close enough to a fraction [c] with a denominator within the
    bound is sent to [c] by [limit_denominator]. *)
Lemma limit_denominator_near (f c : Fraction) (M : Z) :
  Fraction_wf f -> Fraction_wf c -> 1 <= M -> denominator c <= M ->
  2 * M * Z.abs (numerator f * denominator c - numerator c * denominator f)
  < denominator f ->
  limit_denominator f M = Ok c.
Proof.
  intros Hf Hc HM Hb Hnear.
  destruct (limit_denominator_spec f M Hf HM) as (r & -> & Hr & Hrb & Hcl).
  f_equal. apply (near_unique (numerator f) (denominator f) M); try assumption.
  - apply Hf.
  - apply (Hcl (numerator c) (denominator c)). destruct Hc. lia.
Qed.
