(* ===== verification/PyFloat.v ===== *)
(** * PyFloat: the float operations of the scraper behind an interface

    main.py turns the parsed quantity into a float ([float(qty)], line 41),
    tests it ([qty > 0], line 103), divides it by the yield
    ([qty / yield_number], line 104), turns the quotient back into a
    fraction ([Fraction(value)], line 28) and, should that fail, prints it
    ([str(value)], line 33).  [FloatModel] is the interface of these five
    operations.  [binary64] implements it with IEEE double precision on
    [SpecFloat], which is what CPython computes; [exactQ] implements it with
    exact rationals, which is what the specification asks for. *)

From Stdlib Require Import List ZArith Lia Bool Ascii String SpecFloat.
From S2P Require Import Prelude PyText PyFraction.
Import ListNotations.

Open Scope string_scope.
Open Scope list_scope.
Open Scope Z_scope.

(** ** The interface *)

Class FloatModel : Type := {
  (** the type of [float] values *)
  flt : Type;
  (** [float(q)] for a fraction [q] *)
  float_of_Fraction : Fraction -> res flt;
  (** [x > 0] *)
  float_gt_zero : flt -> bool;
  (** [x / y] for an int [y] *)
  float_div_int : flt -> Z -> res flt;
  (** [Fraction(x)] *)
  Fraction_of_float : flt -> res Fraction;
  (** [str(x)] *)
  str_of_float : flt -> pystr;
  (** [Fraction(x)] is in normal form *)
  Fraction_of_float_wf :
    forall x f, Fraction_of_float x = Ok f -> Fraction_wf f;
  (** the float of 0 is not positive *)
  float_zero_not_gt :
    forall x, float_of_Fraction (mkFraction 0 1) = Ok x -> float_gt_zero x = false;
  (** dividing by the int 0 raises *)
  float_div_zero :
    forall x, float_div_int x 0 = Raise ZeroDivisionError
}.

(** ** IEEE double precision *)

Definition prec : Z := 53.
Definition emax : Z := 1024.

Definition is_neg (z : Z) : bool := z <? 0.

(** An int result that does not fit a double raises [OverflowError]. *)
Definition check_overflow (x : spec_float) : res spec_float :=
  match x with
  | S754_infinity _ => Raise OverflowError
  | _ => Ok x
  end.

(** [a / b] for two ints: the quotient rounded once, to nearest, ties to
    even. *)
Definition int_truediv (a b : Z) : res spec_float :=
  match a, b with
  | _, Z0 => Raise ZeroDivisionError
  | Z0, _ => Ok (S754_zero (is_neg b))
  | _, _ =>
      check_overflow
        (SFdiv prec emax
           (S754_finite (is_neg a) (Z.to_pos (Z.abs a)) 0)
           (S754_finite (is_neg b) (Z.to_pos (Z.abs b)) 0))
  end.

(** [float(q)]: [numerator / denominator]. *)
Definition b64_of_Fraction (q : Fraction) : res spec_float :=
  int_truediv (numerator q) (denominator q).

(** The conversion of an int operand to a double. *)
Definition b64_of_int (z : Z) : res spec_float :=
  check_overflow (binary_normalize prec emax z 0 false).

(** [x > 0]. *)
Definition b64_gt_zero (x : spec_float) : bool :=
  SFltb (S754_zero false) x.

Definition b64_is_zero (x : spec_float) : bool :=
  match x with
  | S754_zero _ => true
  | _ => false
  end.

(** Zero or finite: neither NaN nor an infinity. *)
Definition b64_finite (x : spec_float) : bool :=
  match x with
  | S754_zero _ | S754_finite _ _ _ => true
  | _ => false
  end.

Definition b64_is_nan (x : spec_float) : bool :=
  match x with
  | S754_nan => true
  | _ => false
  end.

(** [x / y] for a float [x] and an int [y]. *)
Definition b64_div_int (x : spec_float) (y : Z) : res spec_float :=
  match b64_of_int y with
  | Raise e => Raise e
  | Ok yf =>
      if b64_is_zero yf then Raise ZeroDivisionError
      else Ok (SFdiv prec emax x yf)
  end.

(** [Fraction(x)]: the exact value of a finite float, in lowest terms. *)
Definition b64_as_Fraction (x : spec_float) : res Fraction :=
  match x with
  | S754_nan => Raise ValueError
  | S754_infinity _ => Raise OverflowError
  | S754_zero _ => Ok (mkFraction 0 1)
  | S754_finite s m e =>
      let n := if s then Z.neg m else Z.pos m in
      if 0 <=? e then Ok (mkFraction (n * 2 ^ e) 1)
      else Ok (normalize n (2 ^ (- e)))
  end.

(** [str(x)].  The digits of a finite float other than zero are given by
    [repr_finite]. *)
Definition b64_str (repr_finite : spec_float -> pystr) (x : spec_float) : pystr :=
  match x with
  | S754_nan => "nan"
  | S754_infinity false => "inf"
  | S754_infinity true => "-inf"
  | S754_zero false => "0.0"
  | S754_zero true => "-0.0"
  | S754_finite _ _ _ => repr_finite x
  end.

(** ** Exact rationals *)

Definition exact_gt_zero (q : Fraction) : bool := 0 <? numerator q.

Definition exact_div_int (q : Fraction) (y : Z) : res Fraction :=
  Fraction_new (numerator q) (denominator q * y).

Definition exact_as_Fraction (q : Fraction) : res Fraction :=
  Fraction_new (numerator q) (denominator q).

Definition exact_str (q : Fraction) : pystr :=
  str_of_Z (numerator q) ++ "/" ++ str_of_Z (denominator q).

(** ** The laws *)

Lemma b64_as_Fraction_wf (x : spec_float) (f : Fraction) :
  b64_as_Fraction x = Ok f -> Fraction_wf f.
Proof.
  destruct x as [s|s| |s m e]; cbn [b64_as_Fraction]; try discriminate.
  - intros [= <-]. apply Fraction_zero_wf.
  - destruct (Z.leb_spec 0 e); intros [= <-].
    + split; cbn; [lia | apply Z.gcd_1_r].
    + apply normalize_wf. apply Z.pow_nonzero; lia.
Qed.

Lemma b64_zero_not_gt (x : spec_float) :
  b64_of_Fraction (mkFraction 0 1) = Ok x -> b64_gt_zero x = false.
Proof. cbn. now intros [= <-]. Qed.

Lemma b64_div_zero (x : spec_float) : b64_div_int x 0 = Raise ZeroDivisionError.
Proof. reflexivity. Qed.

Lemma exact_as_Fraction_wf (x f : Fraction) :
  exact_as_Fraction x = Ok f -> Fraction_wf f.
Proof. apply Fraction_new_wf. Qed.

Lemma exact_zero_not_gt (x : Fraction) :
  Ok (mkFraction 0 1) = Ok x -> exact_gt_zero x = false.
Proof. now intros [= <-]. Qed.

Lemma exact_div_zero (x : Fraction) : exact_div_int x 0 = Raise ZeroDivisionError.
Proof.
  unfold exact_div_int, Fraction_new. now rewrite Z.mul_0_r.
Qed.

(** ** The two instances *)

(** What CPython computes.  [repr_finite] stands for [float.__repr__] on
    finite floats other than zero. *)
Definition binary64 (repr_finite : spec_float -> pystr) : FloatModel := {|
  flt := spec_float;
  float_of_Fraction := b64_of_Fraction;
  float_gt_zero := b64_gt_zero;
  float_div_int := b64_div_int;
  Fraction_of_float := b64_as_Fraction;
  str_of_float := b64_str repr_finite;
  Fraction_of_float_wf := b64_as_Fraction_wf;
  float_zero_not_gt := b64_zero_not_gt;
  float_div_zero := b64_div_zero
|}.

(** What the specification describes: quantities stay exact. *)
Definition exactQ : FloatModel := {|
  flt := Fraction;
  float_of_Fraction := @Ok Fraction;
  float_gt_zero := exact_gt_zero;
  float_div_int := exact_div_int;
  Fraction_of_float := exact_as_Fraction;
  str_of_float := exact_str;
  Fraction_of_float_wf := exact_as_Fraction_wf;
  float_zero_not_gt := exact_zero_not_gt;
  float_div_zero := exact_div_zero
|}.

(** ** Facts on the double-precision operations *)

Lemma check_overflow_ok (x y : spec_float) :
  check_overflow x = Ok y <->
  x = y /\ (forall s, x <> S754_infinity s).
Proof.
  destruct x; cbn; (split; [intros H | intros [H1 H2]]);
    try (injection H as <-; split; [reflexivity | discriminate]);
    try (now rewrite H1); try discriminate.
  now destruct (H2 s).
Qed.

Lemma b64_as_Fraction_ok_iff (x : spec_float) :
  is_ok (b64_as_Fraction x) = true <->
  (exists s, x = S754_zero s) \/ (exists s m e, x = S754_finite s m e).
Proof.
  destruct x as [s|s| |s m e]; cbn [b64_as_Fraction is_ok].
  - split; eauto.
  - split; [discriminate | intros [[? [=]]|(? & ? & ? & [=])]].
  - split; [discriminate | intros [[? [=]]|(? & ? & ? & [=])]].
  - destruct (0 <=? e); cbn; split; eauto 6.
Qed.

(** The fraction of a finite double with mantissa [m] and exponent [e]
    denotes [m * 2^e] exactly. *)
Theorem b64_as_Fraction_value (s : bool) (m : positive) (e : Z) (f : Fraction) :
  b64_as_Fraction (S754_finite s m e) = Ok f ->
  let n := if s then Z.neg m else Z.pos m in
  if 0 <=? e then f = mkFraction (n * 2 ^ e) 1
  else numerator f * 2 ^ (- e) = n * denominator f.
Proof.
  cbn [b64_as_Fraction]. destruct (Z.leb_spec 0 e); intros [= <-]; [reflexivity|].
  apply (normalize_eqv (if s then Z.neg m else Z.pos m) (2 ^ (- e))).
  apply Z.pow_nonzero; lia.
Qed.

(** A positive float is finite or infinite, never zero or NaN. *)
Lemma b64_gt_zero_cases (x : spec_float) :
  b64_gt_zero x = true ->
  x = S754_infinity false \/ exists m e, x = S754_finite false m e.
Proof.
  destruct x as [s|[]| |[] m e]; cbn; try discriminate; eauto.
Qed.

(** ** Finite values *)

Lemma iter_pos_inv {A : Type} (P : A -> Prop) (f : A -> A) :
  (forall x, P x -> P (f x)) -> forall n x, P x -> P (iter_pos f n x).
Proof.
  intros Hf. induction n as [n IH|n IH|]; intros x Hx; cbn; auto.
Qed.

Lemma shr_1_nonneg (mrs : shr_record) : 0 <= shr_m mrs -> 0 <= shr_m (shr_1 mrs).
Proof.
  destruct mrs as [m r s]. cbn [shr_m].
  destruct m as [|[p|p|]|p]; cbn; lia.
Qed.

Lemma shr_nonneg (mrs : shr_record) (e n : Z) :
  0 <= shr_m mrs -> 0 <= shr_m (fst (shr mrs e n)).
Proof.
  intros H. destruct n as [|p|p]; cbn [shr fst]; try assumption.
  apply (iter_pos_inv (fun r => 0 <= shr_m r)); [apply shr_1_nonneg | assumption].
Qed.

Lemma shr_fexp_nonneg (m e : Z) (l : location) :
  0 <= m -> 0 <= shr_m (fst (shr_fexp prec emax m e l)).
Proof.
  intros H. unfold shr_fexp. apply shr_nonneg.
  destruct l as [|[]]; exact H.
Qed.

Lemma round_nearest_even_nonneg (m : Z) (l : location) :
  0 <= m -> 0 <= round_nearest_even m l.
Proof.
  intros H. destruct l as [|[]]; cbn; try lia. destruct (Z.even m); lia.
Qed.

(** Rounding a mantissa that is not negative never gives a NaN. *)
Lemma binary_round_aux_not_nan (s : bool) (m e : Z) (l : location) :
  0 <= m -> b64_is_nan (binary_round_aux prec emax s m e l) = false.
Proof.
  intros H. unfold binary_round_aux.
  pose proof (shr_fexp_nonneg m e l H) as H1.
  destruct (shr_fexp prec emax m e l) as [mrs1 e1]. cbn [fst] in H1.
  pose proof (shr_fexp_nonneg _ e1 loc_Exact
                (round_nearest_even_nonneg _ (loc_of_shr_record mrs1) H1)) as H2.
  destruct (shr_fexp prec emax _ e1 loc_Exact) as [mrs2 e2]. cbn [fst] in H2.
  destruct (shr_m mrs2) as [|p|p]; [reflexivity | | lia].
  now destruct (e2 <=? emax - prec).
Qed.

Lemma SFdiv_finite_not_nan (sx sy : bool) (mx my : positive) (ex ey : Z) :
  b64_is_nan (SFdiv prec emax (S754_finite sx mx ex) (S754_finite sy my ey)) = false.
Proof.
  cbn [SFdiv]. unfold SFdiv_core_binary.
  set (s := _ - _ - _).
  set (m' := match s with Z.pos _ => _ | 0 => _ | Z.neg _ => _ end).
  assert (Hm : 0 <= m').
  { subst m'. destruct s; try lia. apply Z.shiftl_nonneg. lia. }
  pose proof (Z_div_mod m' (Z.pos my) ltac:(lia)) as Hd.
  destruct (Z.div_eucl m' (Z.pos my)) as [q r].
  apply binary_round_aux_not_nan. nia.
Qed.

(** The quotient of two floats is a NaN only for a NaN operand, for two
    zeros and for two infinities. *)
Lemma SFdiv_not_nan (x y : spec_float) :
  b64_is_nan x = false -> b64_finite y = true -> b64_is_zero y = false ->
  b64_is_nan (SFdiv prec emax x y) = false.
Proof.
  destruct x as [sx|sx| |sx mx ex], y as [sy|sy| |sy my ey]; try discriminate;
    intros _ _ _; try reflexivity.
  apply SFdiv_finite_not_nan.
Qed.

Lemma check_overflow_div_finite (sx sy : bool) (mx my : positive) (ex ey : Z)
    (x : spec_float) :
  check_overflow (SFdiv prec emax (S754_finite sx mx ex) (S754_finite sy my ey)) = Ok x ->
  b64_finite x = true.
Proof.
  intros H. apply check_overflow_ok in H as [<- Hi].
  pose proof (SFdiv_finite_not_nan sx sy mx my ex ey) as Hn.
  destruct (SFdiv prec emax _ _) as [s|s| |s m e]; try reflexivity;
    [now destruct (Hi s) | discriminate].
Qed.

(** [a / b] for two ints is zero or finite. *)
Lemma int_truediv_finite (a b : Z) (x : spec_float) :
  int_truediv a b = Ok x -> b64_finite x = true.
Proof.
  unfold int_truediv.
  destruct a as [|a|a], b as [|b|b]; try discriminate;
    try (intros [= <-]; reflexivity); apply check_overflow_div_finite.
Qed.

Lemma check_overflow_round_finite (s : bool) (m : positive) (e : Z)
    (x : spec_float) :
  check_overflow (binary_round prec emax s m e) = Ok x -> b64_finite x = true.
Proof.
  intros H. apply check_overflow_ok in H as [<- Hi]. revert Hi.
  unfold binary_round. destruct (shl_align _ _ _) as [mz ez]. intros Hi.
  pose proof (binary_round_aux_not_nan s (Z.pos mz) ez loc_Exact ltac:(lia)) as Hn.
  destruct (binary_round_aux prec emax s (Z.pos mz) ez loc_Exact) as [t|t| |t p q];
    try reflexivity; [now destruct (Hi t) | discriminate].
Qed.

(** The int operand of a division is zero or finite as a float. *)
Lemma b64_of_int_finite (z : Z) (x : spec_float) :
  b64_of_int z = Ok x -> b64_finite x = true.
Proof.
  unfold b64_of_int.
  destruct z as [|p|p]; [now intros [= <-] | |]; apply check_overflow_round_finite.
Qed.

(** [float(q)] is zero or finite: an overflow is an exception, not a
    value. *)
Lemma b64_of_Fraction_finite (q : Fraction) (x : spec_float) :
  b64_of_Fraction q = Ok x -> b64_finite x = true.
Proof. apply int_truediv_finite. Qed.

Lemma b64_finite_not_nan (x : spec_float) : b64_finite x = true -> b64_is_nan x = false.
Proof. now destruct x. Qed.

(** [x / y] is a NaN only when [x] is. *)
Lemma b64_div_int_not_nan (x s : spec_float) (y : Z) :
  b64_is_nan x = false -> b64_div_int x y = Ok s -> b64_is_nan s = false.
Proof.
  intros Hx. unfold b64_div_int.
  destruct (b64_of_int y) as [yf|e] eqn:Ey; [|discriminate].
  apply b64_of_int_finite in Ey.
  destruct (b64_is_zero yf) eqn:Ez; [discriminate|].
  intros [= <-]. now apply SFdiv_not_nan.
Qed.

(** The text of a NaN or an infinity does not use the digits of finite
    floats. *)
Lemma b64_str_nonfinite (r1 r2 : spec_float -> pystr) (x : spec_float) :
  b64_finite x = false -> b64_str r1 x = b64_str r2 x.
Proof. now destruct x as [s|s| |s m e]. Qed.

Lemma b64_as_Fraction_finite (x : spec_float) :
  is_ok (b64_as_Fraction x) = b64_finite x.
Proof. destruct x as [s|s| |s m e]; try reflexivity. cbn. now destruct (0 <=? e). Qed.

(** ** Concrete values *)

(** 1/3, 1/10 and 2^53 + 1 as doubles. *)
Example b64_of_Fraction_third :
  b64_of_Fraction (mkFraction 1 3) = Ok (S754_finite false 6004799503160661 (-54)).
Proof. vm_compute. reflexivity. Qed.

Example b64_of_Fraction_tenth :
  b64_of_Fraction (mkFraction 1 10) = Ok (S754_finite false 7205759403792794 (-56)).
Proof. vm_compute. reflexivity. Qed.

(** Rounding at the width of a double: [float] of [2^53 + 1] is [2^53],
    to nearest with ties to even. *)
Example b64_of_Fraction_ties_even :
  b64_of_Fraction (mkFraction (2 ^ 53 + 1) 1) = Ok (S754_finite false (2 ^ 52) 1).
Proof. vm_compute. reflexivity. Qed.

Example b64_of_Fraction_overflow :
  b64_of_Fraction (mkFraction (10 ^ 400) 1) = Raise OverflowError.
Proof. vm_compute. reflexivity. Qed.

Example b64_of_Fraction_underflow :
  b64_of_Fraction (mkFraction 1 (10 ^ 400)) = Ok (S754_zero false).
Proof. vm_compute. reflexivity. Qed.

Example b64_div_int_overflow :
  b64_div_int (S754_finite false (2 ^ 52) (-52)) (2 ^ 1024) = Raise OverflowError.
Proof. vm_compute. reflexivity. Qed.

Example b64_as_Fraction_tenth :
  b64_as_Fraction (S754_finite false 7205759403792794 (-56))
  = Ok (mkFraction 3602879701896397 36028797018963968).
Proof. vm_compute. reflexivity. Qed.
