(* ===== verification/Quantity.v ===== *)
(** * Quantity: the utility functions of main.py, lines 26-47

    [extract_quantity] reads the amount at the start of an ingredient line,
    [remove_quantity] removes it from the line and [decimal_to_fraction]
    prints a scaled amount as a fraction.  The functions are generic in the
    [FloatModel]; the theorems of the first section hold for every model,
    those of the second for double precision. *)

From Stdlib Require Import List ZArith Lia Bool Ascii String SpecFloat QArith
  Morphisms Setoid Permutation.
From S2P Require Import Prelude PyText PyFraction FractionQ PyFloat.
Import ListNotations.

Open Scope string_scope.
Open Scope list_scope.
Open Scope Z_scope.
Open Scope res_scope.

(** ** The functions *)

(** The class [[0-9/.\s]] of the two patterns. *)
Definition qty_char (c : ascii) : bool :=
  is_digit c || Ascii.eqb c "/" || Ascii.eqb c "." || is_space c.

(** [re.match(r"([0-9/.\s]+)", text)]: group 1 of the match, or [None]. *)
Definition match_quantity (text : pystr) : option pystr :=
  match takeWhile qty_char text with
  | [] => None
  | m => Some m
  end.

(** [sum(Fraction(s) for s in qty_str.split())], line 40. *)
Definition parse_quantity (qty_str : pystr) : res Fraction :=
  fs <- res_map Fraction_of_str (split qty_str) ;; Ok (Fraction_sum fs).

(** Lines 29-31: the integer alone when the denominator is 1. *)
Definition render_fraction (f : Fraction) : pystr :=
  if denominator f =? 1 then str_of_Z (numerator f)
  else str_of_Z (numerator f) ++ "/" ++ str_of_Z (denominator f).

(** [remove_quantity], lines 46-47. *)
Definition remove_quantity (text : pystr) : pystr :=
  strip (dropWhile qty_char text).

Section Generic.
Context {FM : FloatModel}.

(** [decimal_to_fraction], lines 26-33. *)
Definition decimal_to_fraction (value : flt) : pystr :=
  match (f <- Fraction_of_float value ;; limit_denominator f max_denominator) with
  | Ok f => render_fraction f
  | Raise _ => str_of_float value
  end.

(** [extract_quantity], lines 35-44. *)
Definition extract_quantity (text : pystr) : option flt :=
  match match_quantity text with
  | Some m =>
      let qty_str := strip m in
      try_except (qty <- parse_quantity qty_str ;; float_of_Fraction qty)
  | None => None
  end.

End Generic.

(** ** The character class *)

Lemma qty_char_space (c : ascii) : is_space c = true -> qty_char c = true.
Proof. intros H. unfold qty_char. rewrite H. apply orb_true_r. Qed.

Lemma qty_char_not_space (c : ascii) : qty_char c = false -> is_space c = false.
Proof.
  intros H. destruct (is_space c) eqn:E; [|reflexivity].
  now rewrite (qty_char_space c E) in H.
Qed.

Lemma qty_char_token (c : ascii) :
  qty_char c = true -> nonspace c = true -> token_char c = true.
Proof.
  unfold qty_char, token_char, nonspace. destruct (is_space c); [discriminate|].
  now rewrite orb_false_r.
Qed.

Lemma head_fails_qty_space (s : pystr) :
  head_fails qty_char s -> head_fails is_space s.
Proof. destruct s as [|c s]; [auto | apply qty_char_not_space]. Qed.

(** ** remove_quantity *)

(** What is left of a line starts with no digit, slash, point or white
    space, and ends with no white space. *)
Lemma remove_quantity_clean (text : pystr) :
  head_fails qty_char (remove_quantity text) /\
  last_fails is_space (remove_quantity text).
Proof.
  unfold remove_quantity, strip. split; [|apply rstrip_last].
  pose proof (dropWhile_head qty_char text) as H.
  rewrite lstrip_fixed by now apply head_fails_qty_space.
  now apply rstrip_head_any.
Qed.

Lemma remove_quantity_rstrip (text : pystr) :
  remove_quantity text = rstrip (dropWhile qty_char text).
Proof.
  unfold remove_quantity, strip. f_equal. apply lstrip_fixed.
  apply head_fails_qty_space, dropWhile_head.
Qed.

Lemma remove_quantity_no_prefix (text : pystr) :
  head_fails qty_char text -> remove_quantity text = strip text.
Proof.
  intros H. unfold remove_quantity. now rewrite dropWhile_head_fails.
Qed.

(** [remove_quantity] is idempotent. *)
Theorem remove_quantity_idem (text : pystr) :
  remove_quantity (remove_quantity text) = remove_quantity text.
Proof.
  destruct (remove_quantity_clean text) as [Hh Hl].
  rewrite (remove_quantity_no_prefix _ Hh).
  apply strip_fixed; [now apply head_fails_qty_space | assumption].
Qed.

(** C20: Every line is the longest prefix of quantity characters, then
    [remove_quantity] of the line, then white space only: the description is
    what follows the prefix, trimmed at its end. *)
Theorem remove_quantity_split (text : pystr) :
  exists b, text = takeWhile qty_char text ++ remove_quantity text ++ b /\
            forallb is_space b = true.
Proof.
  rewrite remove_quantity_rstrip.
  exists (rev (takeWhile is_space (rev (dropWhile qty_char text)))). split.
  - rewrite <- rstrip_split. symmetry. apply takeWhile_dropWhile.
  - rewrite forallb_rev. apply takeWhile_all.
Qed.

(** ** match_quantity *)

Lemma match_quantity_none (text : pystr) :
  match_quantity text = None <-> head_fails qty_char text.
Proof.
  unfold match_quantity. destruct text as [|c text]; cbn; [tauto|].
  destruct (qty_char c); split; congruence.
Qed.

Lemma match_quantity_some (text m : pystr) :
  match_quantity text = Some m <->
  m = takeWhile qty_char text /\ m <> [].
Proof.
  unfold match_quantity. destruct (takeWhile qty_char text) as [|c r]; split.
  - discriminate.
  - intros [-> H]. congruence.
  - intros [= <-]. split; [reflexivity | discriminate].
  - intros [-> _]. reflexivity.
Qed.

(** Every token handed to [Fraction] is made of digits, slashes and
    points: the alphabet [Fraction_of_str] is modelled on. *)
Lemma match_quantity_tokens (text m : pystr) :
  match_quantity text = Some m ->
  Forall (fun t => forallb token_char t = true) (split (strip m)).
Proof.
  intros H. apply match_quantity_some in H as [-> _]. rewrite split_strip.
  pose proof (split_forallb qty_char _ (takeWhile_all qty_char text)) as Hq.
  pose proof (split_tokens (takeWhile qty_char text)) as Ht.
  rewrite Forall_forall in *. intros t Hin.
  specialize (Hq t Hin). destruct (Ht t Hin) as [_ Hn].
  rewrite forallb_forall in *. intros c Hc. apply qty_char_token; auto.
Qed.

(** ** parse_quantity *)

Lemma parse_quantity_ok_iff (s : pystr) (f : Fraction) :
  parse_quantity s = Ok f <->
  exists fs, Forall2 (fun t g => Fraction_of_str t = Ok g) (split s) fs /\
             f = Fraction_sum fs.
Proof.
  unfold parse_quantity. split.
  - intros H. apply bind_ok in H as (fs & Hfs & [= <-]).
    exists fs. split; [now apply res_map_ok_iff | reflexivity].
  - intros (fs & Hfs & ->). apply res_map_ok_iff in Hfs. now rewrite Hfs.
Qed.

Lemma Forall2_Fraction_wf (ts : list pystr) (fs : list Fraction) :
  Forall2 (fun t g => Fraction_of_str t = Ok g) ts fs -> Forall Fraction_wf fs.
Proof. induction 1; constructor; eauto with py. Qed.

(** The sum of the tokens is a fraction in normal form. *)
Lemma parse_quantity_wf (s : pystr) (f : Fraction) :
  parse_quantity s = Ok f -> Fraction_wf f.
Proof.
  intros H. apply parse_quantity_ok_iff in H as (fs & Hfs & ->).
  apply Fraction_sum_wf. eapply Forall2_Fraction_wf, Hfs.
Qed.

(** A quantity of white space alone is the empty sum. *)
Lemma parse_quantity_blank (s : pystr) :
  forallb is_space s = true -> parse_quantity s = Ok (mkFraction 0 1).
Proof.
  intros H. unfold parse_quantity. now rewrite split_all_space.
Qed.

(** A quantity of one token is that token. *)
Lemma parse_quantity_token (t : pystr) :
  token_ok t -> parse_quantity t = Fraction_of_str t.
Proof.
  intros Ht. unfold parse_quantity. rewrite split_token by assumption.
  cbn [res_map]. destruct (Fraction_of_str t) as [f|e] eqn:E; [|reflexivity].
  cbn [bind]. f_equal. apply Fraction_sum_single. eauto with py.
Qed.

(** The first token that is no fraction makes the quantity fail. *)
(** C21: Mixed numbers: two tokens separated by one white space character
    parse to the sum of the fractions of the tokens. *)
Theorem parse_quantity_mixed (a b : pystr) (c : ascii) (fa fb : Fraction) :
  token_ok a -> token_ok b -> is_space c = true ->
  Fraction_of_str a = Ok fa -> Fraction_of_str b = Ok fb ->
  parse_quantity (a ++ c :: b) = Ok (Fraction_add fa fb).
Proof.
  intros Ha Hb Hc Hfa Hfb. unfold parse_quantity.
  rewrite split_token_space, split_token by assumption.
  cbn [res_map]. rewrite Hfa, Hfb. cbn [bind]. unfold Fraction_sum.
  cbn [fold_left]. rewrite Fraction_add_zero_l by eauto with py. reflexivity.
Qed.

(** C22: The parser fails exactly when [Fraction] refuses one of the tokens
    of the text. *)
Theorem parse_quantity_raise_iff (s : pystr) :
  is_ok (parse_quantity s) = false <->
  existsb (fun t => negb (is_ok (Fraction_of_str t))) (split s) = true.
Proof.
  unfold parse_quantity. rewrite <- res_map_raise_iff.
  destruct (res_map Fraction_of_str (split s)); cbn; tauto.
Qed.

(** ** The value of a quantity *)

(** What a token of the grammar denotes, before normalisation. *)
Definition token_Q (nd : Z * Z) : Q := fst nd # Z.to_pos (snd nd).

(** [t] is a token of the grammar for the pair [nd], with a denominator
    that is not 0. *)
Definition token_of (t : pystr) (nd : Z * Z) : Prop :=
  rational_token t (fst nd) (snd nd) /\ snd nd <> 0.

Definition normalize_pair (nd : Z * Z) : Fraction := normalize (fst nd) (snd nd).

(** [Fraction(t)] succeeds exactly on the tokens of the grammar with a
    denominator other than 0, and gives their normal form. *)
Lemma Fraction_of_str_ok_iff (t : pystr) (g : Fraction) :
  Fraction_of_str t = Ok g <-> exists nd, token_of t nd /\ g = normalize_pair nd.
Proof.
  split.
  - intros H. destruct (Fraction_of_str_grammar t) as [(n & d & Ht & E)|[_ E]];
      [|congruence].
    rewrite E in H. apply Fraction_new_ok in H as [Hd ->].
    exists (n, d). repeat split; assumption.
  - intros ([n d] & [Ht Hd] & ->). rewrite (Fraction_of_str_sound t n d Ht).
    apply Fraction_new_ok. auto.
Qed.

Lemma tokens_values (ts : list pystr) (fs : list Fraction) :
  Forall2 (fun t g => Fraction_of_str t = Ok g) ts fs <->
  exists vals, Forall2 token_of ts vals /\ fs = map normalize_pair vals.
Proof.
  split.
  - induction 1 as [|t g ts fs Ht _ (vals & Hv & ->)]; [now exists []|].
    apply Fraction_of_str_ok_iff in Ht as (nd & Hnd & ->).
    exists (nd :: vals). split; [now constructor | reflexivity].
  - intros (vals & Hv & ->). induction Hv as [|t nd ts vals Ht _ IH];
      constructor; [|exact IH].
    apply Fraction_of_str_ok_iff. eauto.
Qed.

Lemma token_of_pos (t : pystr) (nd : Z * Z) : token_of t nd -> 0 < snd nd.
Proof.
  intros [Ht Hd]. apply rational_token_nonneg in Ht. lia.
Qed.

Lemma Qsum_normalize (ts : list pystr) (vals : list (Z * Z)) :
  Forall2 token_of ts vals ->
  Forall Fraction_wf (map normalize_pair vals) /\
  (Qsum (map to_Q (map normalize_pair vals)) == Qsum (map token_Q vals))%Q.
Proof.
  induction 1 as [|t nd ts vals Ht _ [IHw IHq]]; [split; [constructor | reflexivity]|].
  pose proof (token_of_pos t nd Ht) as Hd. cbn [map Qsum]. split.
  - constructor; [apply normalize_wf; lia | exact IHw].
  - rewrite IHq. unfold normalize_pair at 1. now rewrite to_Q_normalize.
Qed.

(** What a text parses to has the value of the sum of its tokens. *)
Lemma parse_quantity_sound (s : pystr) (f : Fraction) :
  parse_quantity s = Ok f ->
  exists vals, Forall2 token_of (split s) vals /\ Fraction_wf f /\
               (to_Q f == Qsum (map token_Q vals))%Q.
Proof.
  rewrite parse_quantity_ok_iff.
  intros (fs & Hfs & ->). apply tokens_values in Hfs as (vals & Hv & ->).
  destruct (Qsum_normalize _ _ Hv) as [Hw Hq].
  exists vals. split; [exact Hv | split; [auto with py|]].
  now rewrite (to_Q_sum _ Hw).
Qed.

(** A text of tokens of the grammar parses to the fraction in normal form
    with the value of their sum. *)
Lemma parse_quantity_complete (s : pystr) (f : Fraction) (vals : list (Z * Z)) :
  Forall2 token_of (split s) vals -> Fraction_wf f ->
  (to_Q f == Qsum (map token_Q vals))%Q ->
  parse_quantity s = Ok f.
Proof.
  intros Hv Hf Hq. apply parse_quantity_ok_iff.
  destruct (Qsum_normalize _ _ Hv) as [Hw Hs].
  exists (map normalize_pair vals). split; [apply tokens_values; eauto|].
  apply to_Q_inj; auto with py. now rewrite (to_Q_sum _ Hw), Hs.
Qed.

(** C11: Equivalence with the reference: [parse_quantity] returns [f]
    exactly when the tokens of the text are tokens of the grammar with
    denominators other than 0 and [f] is the fraction in normal form whose
    value in [Q] is the sum of what the tokens denote. *)
Theorem parse_quantity_value (s : pystr) (f : Fraction) :
  parse_quantity s = Ok f <->
  exists vals, Forall2 token_of (split s) vals /\ Fraction_wf f /\
               (to_Q f == Qsum (map token_Q vals))%Q.
Proof.
  split; [apply parse_quantity_sound|].
  intros (vals & Hv & Hf & Hq). now apply (parse_quantity_complete s f vals).
Qed.

(** The quantity does not depend on the order of the tokens. *)
Lemma parse_quantity_Permutation (l l' : list pystr) (f : Fraction) :
  Forall token_ok l -> Permutation l l' ->
  parse_quantity (join " " l) = Ok f -> parse_quantity (join " " l') = Ok f.
Proof.
  intros Hl Hp.
  assert (Hl' : Forall token_ok l') by (eapply Permutation_Forall; eauto).
  intros H. apply parse_quantity_sound in H as (vals & Hv & Hf & Hq).
  rewrite split_join in Hv by assumption.
  destruct (Permutation_Forall2 Hp Hv) as (vals' & Hp' & Hv').
  apply (parse_quantity_complete _ f vals'); [|exact Hf|now rewrite <- Hp'].
  now rewrite split_join.
Qed.

Section GenericFacts.
Context {FM : FloatModel}.

(** ** extract_quantity *)

(** A line that starts with no character of the class has no quantity. *)
Lemma extract_quantity_no_prefix (text : pystr) :
  head_fails qty_char text -> extract_quantity text = None.
Proof.
  intros H. apply match_quantity_none in H. unfold extract_quantity. now rewrite H.
Qed.

Lemma extract_quantity_some_iff (text : pystr) (x : flt) :
  extract_quantity text = Some x <->
  exists m q, match_quantity text = Some m /\
              parse_quantity (strip m) = Ok q /\ float_of_Fraction q = Ok x.
Proof.
  unfold extract_quantity. destruct (match_quantity text) as [m|]; cbv zeta.
  - rewrite try_except_some. split.
    + intros H. apply bind_ok in H as (q & Hq & Hx). eauto.
    + intros (m' & q & [= <-] & Hq & Hx). now rewrite Hq.
  - split; [discriminate | intros (m & q & [=] & _)].
Qed.

(** C33: A prefix of white space only gives the quantity 0, not [None]: the
    sum of no fraction is 0. *)
Theorem extract_quantity_blank (text m : pystr) :
  match_quantity text = Some m -> forallb is_space m = true ->
  extract_quantity text = try_except (float_of_Fraction (mkFraction 0 1)).
Proof.
  intros Hm Hs. unfold extract_quantity. rewrite Hm. cbv zeta.
  rewrite parse_quantity_blank; [reflexivity|]. now apply strip_nil_iff in Hs as ->.
Qed.

(** ** decimal_to_fraction *)

(** What is printed for a value that has a fraction: the closest fraction
    with a denominator of at most 1000000, in lowest terms. *)
Lemma decimal_to_fraction_spec (value : flt) (f : Fraction) :
  Fraction_of_float value = Ok f ->
  exists r, decimal_to_fraction value = render_fraction r /\
    limit_denominator f max_denominator = Ok r /\
    Fraction_wf r /\ denominator r <= max_denominator /\
    forall p q, 1 <= q <= max_denominator -> Fraction_closer f r (mkFraction p q).
Proof.
  intros Hf. pose proof (Fraction_of_float_wf value f Hf) as Hwf.
  destruct (limit_denominator_spec f max_denominator Hwf) as (r & Hr & H);
    [unfold max_denominator; lia|].
  exists r. unfold decimal_to_fraction. rewrite Hf. cbn [bind]. rewrite Hr. auto.
Qed.

(** A value without a fraction is printed as it is. *)
Lemma decimal_to_fraction_fallback (value : flt) (e : exn) :
  Fraction_of_float value = Raise e ->
  decimal_to_fraction value = str_of_float value.
Proof. intros H. unfold decimal_to_fraction. now rewrite H. Qed.

(** C17: Bound on the error that the rendering absorbs: a float whose
    fraction [f] is so close to a fraction [c] in normal form with a
    denominator up to 1000000 that [2 * 1000000 * |f_n * c_d - c_n * f_d| <
    f_d] is printed as [c]. *)
Theorem decimal_to_fraction_near (value : flt) (f c : Fraction) :
  Fraction_of_float value = Ok f ->
  Fraction_wf c -> denominator c <= max_denominator ->
  2 * max_denominator
    * Z.abs (numerator f * denominator c - numerator c * denominator f)
  < denominator f ->
  decimal_to_fraction value = render_fraction c.
Proof.
  intros Hf Hc Hb Hn. unfold decimal_to_fraction. rewrite Hf. cbn [bind].
  rewrite (limit_denominator_near f c); try assumption; [reflexivity | |].
  - now apply (Fraction_of_float_wf value).
  - unfold max_denominator. lia.
Qed.

End GenericFacts.

(** ** Printing a fraction and reading it back *)

Lemma str_of_nat_is_digits (n : Z) : 0 <= n -> digits (str_of_nat n) = true.
Proof.
  intros Hn. apply digits_spec. split; [|now apply str_of_nat_digits].
  pose proof (str_of_nat_nonempty n). now destruct (str_of_nat n).
Qed.

(** The printed form of a non-negative fraction is a token of [n/d]. *)
Lemma render_fraction_token (r : Fraction) :
  Fraction_wf r -> 0 <= numerator r ->
  rational_token (render_fraction r) (numerator r) (denominator r).
Proof.
  intros [Hd _] Hn. unfold render_fraction.
  rewrite !str_of_Z_nonneg by lia.
  pose proof (str_of_nat_is_digits _ Hn) as Hdn.
  pose proof (str_of_nat_is_digits (denominator r) ltac:(lia)) as Hdd.
  destruct (Z.eqb_spec (denominator r) 1) as [->|_].
  - rewrite <- (int_of_str_of_nat (numerator r)) at 2 by assumption.
    now apply RT_int.
  - rewrite <- (int_of_str_of_nat (numerator r)) at 2 by assumption.
    rewrite <- (int_of_str_of_nat (denominator r)) at 2 by lia.
    now apply (RT_ratio (str_of_nat (numerator r)) (str_of_nat (denominator r))).
Qed.

(** Reading a printed fraction gives the fraction back. *)
Lemma Fraction_of_str_render (r : Fraction) :
  Fraction_wf r -> 0 <= numerator r ->
  Fraction_of_str (render_fraction r) = Ok r.
Proof.
  intros Hwf Hn. rewrite (Fraction_of_str_sound _ _ _ (render_fraction_token r Hwf Hn)).
  apply Fraction_new_ok. destruct Hwf as [Hd Hg]. split; [lia|].
  symmetry. now apply normalize_wf_id.
Qed.

Lemma render_fraction_token_ok (r : Fraction) :
  Fraction_wf r -> 0 <= numerator r -> token_ok (render_fraction r).
Proof.
  intros Hwf Hn. pose proof (render_fraction_token r Hwf Hn) as Ht.
  pose proof (rational_token_chars _ _ _ Ht) as Hc. split.
  - unfold render_fraction. pose proof (str_of_Z_nonempty (numerator r)).
    destruct (denominator r =? 1); [assumption|].
    now destruct (str_of_Z (numerator r)).
  - rewrite forallb_forall in *. intros c Hin. specialize (Hc c Hin).
    unfold token_char in Hc. apply nonspace_true.
    destruct (is_digit c) eqn:Ed; [now apply digit_not_space|].
    destruct (Ascii.eqb_spec c "/") as [->|]; [reflexivity|].
    destruct (Ascii.eqb_spec c ".") as [->|]; [reflexivity | discriminate].
Qed.

(** C4: Round trip: the text [render_fraction] prints for a fraction in
    lowest terms with a numerator that is not negative is parsed by
    [parse_quantity] to that same fraction. *)
Theorem parse_quantity_render (r : Fraction) :
  Fraction_wf r -> 0 <= numerator r ->
  parse_quantity (render_fraction r) = Ok r.
Proof.
  intros Hwf Hn. rewrite parse_quantity_token by now apply render_fraction_token_ok.
  now apply Fraction_of_str_render.
Qed.

(** The printing is injective: two fractions in lowest terms with
    numerators that are not negative and the same text by [render_fraction]
    are equal. *)
Theorem render_fraction_inj (a b : Fraction) :
  Fraction_wf a -> Fraction_wf b -> 0 <= numerator a -> 0 <= numerator b ->
  render_fraction a = render_fraction b -> a = b.
Proof.
  intros Ha Hb Hna Hnb E.
  assert (H : Ok a = Ok b); [|now injection H].
  rewrite <- (Fraction_of_str_render a), <- (Fraction_of_str_render b) by assumption.
  now rewrite E.
Qed.

(** ** Double precision *)

Section Binary64.
Variable repr_finite : spec_float -> pystr.
Let B : FloatModel := binary64 repr_finite.


(** C3: For every finite double [x], [decimal_to_fraction] prints a fraction
    [r] in lowest terms whose denominator is at most 1000000 and which is at
    least as close to the exact value of [x] as every fraction [p/q] with [1
    <= q <= 1000000]: the fallback of the except clause is not used. *)
Theorem decimal_to_fraction_finite (x : spec_float) :
  is_ok (b64_as_Fraction x) = true ->
  exists f r, b64_as_Fraction x = Ok f /\
    @decimal_to_fraction B x = render_fraction r /\
    limit_denominator f max_denominator = Ok r /\
    Fraction_wf r /\ denominator r <= max_denominator /\
    forall p q, 1 <= q <= max_denominator -> Fraction_closer f r (mkFraction p q).
Proof.
  intros H. destruct (b64_as_Fraction x) as [f|] eqn:E; [|discriminate].
  exists f. destruct (@decimal_to_fraction_spec B x f E) as (r & Hr). eauto.
Qed.

(** The quantity read from a line is zero or finite: never a NaN, never
    an infinity. *)
Lemma extract_quantity_finite (text : pystr) (x : spec_float) :
  @extract_quantity B text = Some x -> b64_finite x = true.
Proof.
  intros H. apply (@extract_quantity_some_iff B) in H as (m & q & _ & _ & H).
  now apply (b64_of_Fraction_finite q).
Qed.

(** C16: Type of the quantity: the float [extract_quantity] returns is zero
    or finite, never a NaN or an infinity, and its quotient by the yield is
    never a NaN. *)
Theorem scaled_quantity_not_nan (text : pystr) (x : spec_float) :
  @extract_quantity B text = Some x ->
  b64_finite x = true /\
  forall y s, b64_div_int x y = Ok s -> b64_is_nan s = false.
Proof.
  intros Hx. apply extract_quantity_finite in Hx. split; [exact Hx|].
  intros y s. now apply b64_div_int_not_nan, b64_finite_not_nan.
Qed.

End Binary64.

(** The digits [str] prints for a finite float play no part: the text
    [decimal_to_fraction] returns is the same whatever they are. *)
Lemma decimal_to_fraction_repr (r1 r2 : spec_float -> pystr) (x : spec_float) :
  @decimal_to_fraction (binary64 r1) x = @decimal_to_fraction (binary64 r2) x.
Proof.
  unfold decimal_to_fraction.
  change (@Fraction_of_float (binary64 r1) x) with (b64_as_Fraction x).
  change (@Fraction_of_float (binary64 r2) x) with (b64_as_Fraction x).
  pose proof (b64_as_Fraction_finite x) as Hf.
  destruct (b64_as_Fraction x) as [f|e] eqn:E; cbn [bind].
  - destruct (limit_denominator_total f max_denominator) as (r & ->);
      [now apply (b64_as_Fraction_wf x) | unfold max_denominator; lia | reflexivity].
  - apply b64_str_nonfinite. now rewrite <- Hf.
Qed.

(** ** Instances at concrete inputs *)

(** The instance of C3. *)
Lemma decimal_to_fraction_finite_witness :
  exists f r, b64_as_Fraction (S754_finite false 7205759403792794 (-56)) = Ok f /\
    @decimal_to_fraction (binary64 (fun _ => [])) (S754_finite false 7205759403792794 (-56))
    = render_fraction r /\
    limit_denominator f max_denominator = Ok r /\
    Fraction_wf r /\ denominator r <= max_denominator /\
    forall p q, 1 <= q <= max_denominator -> Fraction_closer f r (mkFraction p q).
Proof.
  apply (decimal_to_fraction_finite (fun _ => [])
           (S754_finite false 7205759403792794 (-56))).
  reflexivity.
Defined.

(** The instance of C4. *)
Lemma parse_quantity_render_witness :
  parse_quantity (py "3/8") = Ok (mkFraction 3 8).
Proof.
  apply (parse_quantity_render (mkFraction 3 8));
    [split; reflexivity | cbn; lia].
Defined.

(** The instance of C16. *)
Lemma scaled_quantity_not_nan_witness :
  b64_finite (S754_finite false 4503599627370496 (-51)) = true /\
  forall y s, b64_div_int (S754_finite false 4503599627370496 (-51)) y = Ok s -> b64_is_nan s = false.
Proof.
  apply (scaled_quantity_not_nan (fun _ => []) (py "2 cups") (S754_finite false 4503599627370496 (-51))).
  vm_compute. reflexivity.
Defined.

(** The instance of C17. *)
Lemma decimal_to_fraction_near_witness :
  @decimal_to_fraction (binary64 (fun _ => [])) (S754_finite false 7205759403792794 (-56))
  = render_fraction (mkFraction 1 10).
Proof.
  apply (@decimal_to_fraction_near (binary64 (fun _ => []))
           (S754_finite false 7205759403792794 (-56))
           (mkFraction 3602879701896397 36028797018963968) (mkFraction 1 10));
    [vm_compute; reflexivity | now vm_compute | now vm_compute | now vm_compute].
Defined.

(** The instance of C21. *)
Lemma parse_quantity_mixed_witness :
  parse_quantity (py "1" ++ " "%char :: py "1/2")
  = Ok (Fraction_add (mkFraction 1 1) (mkFraction 1 2)).
Proof.
  apply (parse_quantity_mixed (py "1") (py "1/2") " "%char);
    [split; [discriminate | reflexivity] | split; [discriminate | reflexivity]
    | reflexivity | reflexivity | reflexivity].
Defined.

(** The instance of C33. *)
Lemma extract_quantity_blank_witness :
  @extract_quantity (binary64 (fun _ => [])) (py " salt") = Some (S754_zero false).
Proof.
  apply (@extract_quantity_blank (binary64 (fun _ => [])) (py " salt") (py " "));
    reflexivity.
Defined.
