(* ===== verification/Exactness.v ===== *)
(** * Exactness: double precision against exact arithmetic

    The scraper computes with doubles where the specification asks for exact
    rationals.  This file holds the exact scaling of a quantity, the facts
    on the exact instance of the float interface, and the check, by
    enumeration of a domain of quantities and yields, that the doubles give
    the fraction the exact computation gives. *)

From Stdlib Require Import List ZArith Lia Bool Ascii String SpecFloat.
From S2P Require Import Prelude PyText PyFraction PyFloat Quantity.
Import ListNotations.

Open Scope string_scope.
Open Scope list_scope.
Open Scope Z_scope.
Open Scope res_scope.

(** ** Exact arithmetic *)

(** [q / y] in lowest terms. *)
Definition scale (q : Fraction) (y : Z) : Fraction :=
  normalize (numerator q) (denominator q * y).

(** The quantity of a line is the fraction its prefix parses to. *)
Lemma exact_extract_quantity (item : pystr) (q : Fraction) :
  @extract_quantity exactQ item = Some q <->
  exists m, match_quantity item = Some m /\ parse_quantity (strip m) = Ok q.
Proof.
  rewrite extract_quantity_some_iff. cbn. split.
  - intros (m & q' & Hm & Hp & [= <-]). eauto.
  - intros (m & Hm & Hp). eauto.
Qed.

Lemma exact_extract_wf (item : pystr) (q : Fraction) :
  @extract_quantity exactQ item = Some q -> Fraction_wf q.
Proof.
  intros H. apply exact_extract_quantity in H as (m & _ & H).
  now apply parse_quantity_wf in H.
Qed.

Lemma exact_as_Fraction_id (s : Fraction) :
  Fraction_wf s -> exact_as_Fraction s = Ok s.
Proof.
  intros Hs. unfold exact_as_Fraction, Fraction_new.
  rewrite normalize_wf_id by assumption.
  destruct Hs. destruct (Z.eqb_spec (denominator s) 0); [lia | reflexivity].
Qed.

(** A fraction in normal form within the bound is printed as it is. *)
Lemma exact_decimal_to_fraction (s : Fraction) :
  Fraction_wf s -> denominator s <= max_denominator ->
  @decimal_to_fraction exactQ s = render_fraction s.
Proof.
  intros Hs Hd. unfold decimal_to_fraction.
  change (@Fraction_of_float exactQ s) with (exact_as_Fraction s).
  rewrite exact_as_Fraction_id by assumption. cbn [bind].
  now rewrite limit_denominator_small by (unfold max_denominator in *; lia).
Qed.

Lemma scale_wf (q : Fraction) (y : Z) :
  Fraction_wf q -> y <> 0 -> Fraction_wf (scale q y).
Proof. intros [Hd _] Hy. apply normalize_wf. nia. Qed.

Lemma scale_one (q : Fraction) : Fraction_wf q -> scale q 1 = q.
Proof. intros H. unfold scale. rewrite Z.mul_1_r. now apply normalize_wf_id. Qed.

(** The scaled quantity denotes the quotient of the quantity by the yield. *)
Lemma scale_eqv (q : Fraction) (y : Z) :
  Fraction_wf q -> y <> 0 ->
  numerator (scale q y) * (denominator q * y) = numerator q * denominator (scale q y).
Proof.
  intros [Hd _] Hy. apply (normalize_eqv (numerator q) (denominator q * y)). nia.
Qed.

Lemma scale_den_le (q : Fraction) (y : Z) :
  Fraction_wf q -> 0 < y -> denominator (scale q y) <= denominator q * y.
Proof. intros [Hd _] Hy. apply normalize_den_le. nia. Qed.

(** Dividing exactly never raises for a yield other than 0. *)
Lemma exact_div_int_ok (q : Fraction) (y : Z) :
  Fraction_wf q -> y <> 0 -> exact_div_int q y = Ok (scale q y).
Proof.
  intros [Hd _] Hy. unfold exact_div_int, Fraction_new, scale.
  destruct (Z.eqb_spec (denominator q * y) 0); [nia | reflexivity].
Qed.


(** ** Agreement by enumeration *)

Definition Fraction_eqb (a b : Fraction) : bool :=
  (numerator a =? numerator b) && (denominator a =? denominator b).

(** The check that the doubles give the exact result for the quantity [q]
    and the yield [y]: [float(q)] is positive, the division raises nothing
    and the fraction printed for the quotient is [q / y] in lowest terms. *)
Definition b64_agrees (q : Fraction) (y : Z) : bool :=
  match b64_of_Fraction q with
  | Ok x =>
      b64_gt_zero x &&
      match b64_div_int x y with
      | Ok s =>
          match (f <- b64_as_Fraction s ;; limit_denominator f max_denominator) with
          | Ok r => Fraction_eqb r (scale q y)
          | Raise _ => false
          end
      | Raise _ => false
      end
  | Raise _ => false
  end.

(** The domain checked by enumeration: numerators up to 40, denominators up
    to 10, yields up to 24. *)
Definition max_num : nat := 40.
Definition max_den : nat := 10.
Definition max_yield : nat := 24.

Definition b64_agrees_at (n d y : Z) : bool := b64_agrees (mkFraction n d) y.



Lemma Fraction_eqb_eq (a b : Fraction) : Fraction_eqb a b = true <-> a = b.
Proof.
  unfold Fraction_eqb. rewrite andb_true_iff, !Z.eqb_eq.
  destruct a, b; cbn. split; [intros [-> ->] | intros [= -> ->]]; auto.
Qed.

Lemma b64_agrees_all :
  forall3_range b64_agrees_at 1 1 1 max_num max_den max_yield = true.
Proof. vm_compute. reflexivity. Qed.

(** On the domain the doubles give the exact result. *)
Lemma b64_agrees_domain (q : Fraction) (y : Z) :
  1 <= numerator q <= Z.of_nat max_num ->
  1 <= denominator q <= Z.of_nat max_den ->
  1 <= y <= Z.of_nat max_yield ->
  b64_agrees q y = true.
Proof.
  intros Hn Hd Hy. destruct q as [n d]. cbn [numerator denominator] in Hn, Hd.
  apply (forall3_range_spec b64_agrees_at 1 1 1 max_num max_den max_yield
           n d y b64_agrees_all);
    unfold max_num, max_den, max_yield in *; lia.
Qed.

Section Binary64.
Variable repr_finite : spec_float -> pystr.
Let B : FloatModel := binary64 repr_finite.

(** What the check establishes. *)
Lemma b64_agrees_spec (q : Fraction) (y : Z) :
  b64_agrees q y = true ->
  exists x s, b64_of_Fraction q = Ok x /\ b64_gt_zero x = true /\
    b64_div_int x y = Ok s /\
    @decimal_to_fraction B s = render_fraction (scale q y) /\
    denominator (scale q y) <= max_denominator.
Proof.
  unfold b64_agrees. destruct (b64_of_Fraction q) as [x|] eqn:Ex; [|discriminate].
  destruct (b64_gt_zero x) eqn:Eg; [|discriminate]. cbn [andb].
  destruct (b64_div_int x y) as [s|] eqn:Es; [|discriminate].
  destruct (b64_as_Fraction s) as [f|] eqn:Ef; [|discriminate]. cbn [bind].
  destruct (limit_denominator f max_denominator) as [r|] eqn:Er; [|discriminate].
  intros H. apply Fraction_eqb_eq in H as <-.
  exists x, s. repeat split; try reflexivity; try assumption.
  - unfold decimal_to_fraction.
    change (@Fraction_of_float B s) with (b64_as_Fraction s).
    rewrite Ef. cbn [bind]. now rewrite Er.
  - apply (limit_denominator_wf f r); [|unfold max_denominator; lia | exact Er].
    now apply (b64_as_Fraction_wf s).
Qed.

(** The double read from a line is the double of the fraction read from
    it exactly. *)
Lemma b64_extract_quantity (item : pystr) :
  @extract_quantity B item =
  match @extract_quantity exactQ item with
  | Some q => try_except (b64_of_Fraction q)
  | None => None
  end.
Proof.
  unfold extract_quantity. destruct (match_quantity item) as [m|]; [|reflexivity].
  now destruct (parse_quantity (strip m)).
Qed.

End Binary64.
