(* ===== verification/Duration.v ===== *)
(** * Duration: [parse_iso8601_duration], main.py lines 49-63

    The decoder matches [PT], an optional number of hours followed by [H]
    and an optional number of minutes followed by [M] at the start of the
    string, and prints a phrase; a string that does not start with [PT] is
    returned as it is. *)

From Stdlib Require Import List ZArith Lia Bool Ascii String.
From S2P Require Import Prelude PyText PyFraction.
Import ListNotations.

Open Scope string_scope.
Open Scope list_scope.
Open Scope Z_scope.

(** ** The decoder *)

(** The literal [pre] at the start of [s]: what follows it, or [None]. *)
Fixpoint literal (pre s : pystr) : option pystr :=
  match pre, s with
  | [], _ => Some s
  | c :: pre', d :: s' => if Ascii.eqb c d then literal pre' s' else None
  | _ :: _, [] => None
  end.

(** The optional group [(?:(\d+)U)?] at the start of [s]: the digits it
    captures and what follows the unit [U], or nothing consumed.  The run of
    digits is the longest one: a shorter run is followed by a digit, not by
    the unit. *)
Definition opt_number (unit : ascii) (s : pystr) : option pystr * pystr :=
  let ds := takeWhile is_digit s in
  match dropWhile is_digit s with
  | c :: rest =>
      if nonempty ds && Ascii.eqb c unit then (Some ds, rest) else (None, s)
  | [] => (None, s)
  end.

(** [re.match(pattern, duration)] with the pattern of line 50: the two
    groups of the match, or [None]. *)
Definition match_duration (duration : pystr) : option (option pystr * option pystr) :=
  match literal "PT" duration with
  | Some s =>
      let (h, s1) := opt_number "H" s in
      let (m, _) := opt_number "M" s1 in
      Some (h, m)
  | None => None
  end.

(** [int(match.group(i)) if match.group(i) else 0]. *)
Definition group_int (g : option pystr) : Z :=
  match g with
  | Some ds => int_of_digits ds
  | None => 0
  end.

(** Lines 56-63: the phrase for a number of hours and of minutes. *)
Definition duration_phrase (hours minutes : Z) : pystr :=
  if negb (hours =? 0) && negb (minutes =? 0) then
    str_of_Z hours ++ " hours " ++ str_of_Z minutes ++ " minutes"
  else if negb (hours =? 0) then str_of_Z hours ++ " hours"
  else if negb (minutes =? 0) then str_of_Z minutes ++ " minutes"
  else "Not specified".

(** [parse_iso8601_duration], lines 49-63. *)
Definition parse_iso8601_duration (duration : pystr) : pystr :=
  match match_duration duration with
  | None => duration
  | Some (h, m) => duration_phrase (group_int h) (group_int m)
  end.

(** The ISO 8601 text of [h] hours and [m] minutes, each part present when
    its number is given. *)
Definition iso_duration (h m : option Z) : pystr :=
  "PT"
  ++ match h with Some n => str_of_Z n ++ "H" | None => [] end
  ++ match m with Some n => str_of_Z n ++ "M" | None => [] end.

(** ** The optional group *)

Lemma literal_some (pre s rest : pystr) :
  literal pre s = Some rest <-> s = pre ++ rest.
Proof.
  revert s. induction pre as [|c pre IH]; intros s; cbn.
  - split; congruence.
  - destruct s as [|d s]; [split; discriminate|].
    destruct (Ascii.eqb_spec c d) as [->|N].
    + rewrite IH. split; congruence.
    + split; [discriminate | congruence].
Qed.

Lemma opt_number_some (unit : ascii) (s ds rest : pystr) :
  is_digit unit = false ->
  opt_number unit s = (Some ds, rest) <->
  s = ds ++ unit :: rest /\ digits ds = true.
Proof.
  intros Hu. unfold opt_number. split.
  - pose proof (takeWhile_dropWhile is_digit s) as Hs.
    pose proof (takeWhile_all is_digit s) as Hd.
    destruct (dropWhile is_digit s) as [|c r]; [discriminate|].
    destruct (nonempty (takeWhile is_digit s)) eqn:En; [|discriminate].
    destruct (Ascii.eqb_spec c unit) as [->|]; [|discriminate].
    cbn. intros [= <- <-]. split; [now symmetry|]. apply digits_spec. auto.
  - intros (-> & Hd). apply digits_spec in Hd as [Hne Hd].
    destruct (span_digits ds rest unit Hd Hu) as [-> ->].
    now rewrite Hne, Ascii.eqb_refl.
Qed.

(** The group captures the digits in front of the unit. *)
Lemma opt_number_match (unit : ascii) (ds rest : pystr) :
  digits ds = true -> is_digit unit = false ->
  opt_number unit (ds ++ unit :: rest) = (Some ds, rest).
Proof. intros Hd Hu. apply opt_number_some; auto. Qed.

(** Without digits and unit at its start, the string is left as it is. *)
Lemma opt_number_none (unit : ascii) (s : pystr) (r : option pystr * pystr) :
  opt_number unit s = r -> fst r = None -> snd r = s.
Proof.
  unfold opt_number. intros <-.
  destruct (dropWhile is_digit s); [reflexivity|].
  destruct (_ && _); [discriminate | reflexivity].
Qed.

Lemma opt_number_digits (unit : ascii) (s ds rest : pystr) :
  opt_number unit s = (Some ds, rest) -> digits ds = true.
Proof.
  unfold opt_number. pose proof (takeWhile_all is_digit s) as Hd.
  destruct (dropWhile is_digit s) as [|c r]; [discriminate|].
  destruct (nonempty (takeWhile is_digit s)) eqn:En; [|discriminate].
  destruct (Ascii.eqb c unit); [|discriminate].
  cbn. intros [= <- _]. apply digits_spec. auto.
Qed.

(** ** The decoder's branches *)

Lemma match_duration_none_iff (duration : pystr) :
  match_duration duration = None <-> literal "PT" duration = None.
Proof.
  unfold match_duration. destruct (literal "PT" duration) as [s|]; [|tauto].
  destruct (opt_number "H" s) as [h s1]. destruct (opt_number "M" s1).
  split; discriminate.
Qed.

(** C31: A text that does not start with [PT] is returned unchanged by
    [parse_iso8601_duration]. *)
Theorem parse_duration_no_match (duration : pystr) :
  (forall rest, duration <> "PT" ++ rest) ->
  parse_iso8601_duration duration = duration.
Proof.
  intros H. unfold parse_iso8601_duration.
  destruct (match_duration duration) as [g|] eqn:E; [|reflexivity].
  destruct (literal "PT" duration) as [rest|] eqn:El.
  - apply literal_some in El. now destruct (H rest).
  - apply match_duration_none_iff in El. congruence.
Qed.

(** The phrase is one of the four forms, chosen by which of the hours
    and the minutes are 0. *)
Theorem duration_phrase_cases (h m : Z) :
  (h <> 0 /\ m <> 0 /\
   duration_phrase h m = str_of_Z h ++ " hours " ++ str_of_Z m ++ " minutes")
  \/ (h <> 0 /\ m = 0 /\ duration_phrase h m = str_of_Z h ++ " hours")
  \/ (h = 0 /\ m <> 0 /\ duration_phrase h m = str_of_Z m ++ " minutes")
  \/ (h = 0 /\ m = 0 /\ duration_phrase h m = "Not specified").
Proof.
  unfold duration_phrase.
  destruct (Z.eqb_spec h 0), (Z.eqb_spec m 0); cbn; tauto.
Qed.

(** Bounds: the number read from a group of the match is not negative.
    *)
Theorem group_int_nonneg (unit : ascii) (s rest : pystr) (g : option pystr) :
  opt_number unit s = (g, rest) -> 0 <= group_int g.
Proof.
  destruct g as [ds|]; [|cbn; lia]. intros H.
  apply opt_number_digits in H. apply digits_spec in H as [_ H].
  now apply int_of_digits_nonneg.
Qed.

(** ** Round trip with the ISO text *)

Lemma str_of_Z_digits (n : Z) : 0 <= n -> digits (str_of_Z n) = true.
Proof.
  intros Hn. rewrite str_of_Z_nonneg by assumption. apply digits_spec.
  split; [|now apply str_of_nat_digits].
  pose proof (str_of_nat_nonempty n). now destruct (str_of_nat n).
Qed.

Lemma int_of_str_of_Z (n : Z) : 0 <= n -> int_of_digits (str_of_Z n) = n.
Proof.
  intros Hn. rewrite str_of_Z_nonneg by assumption. now apply int_of_str_of_nat.
Qed.

Definition opt_nonneg (o : option Z) : Prop :=
  match o with Some n => 0 <= n | None => True end.

Definition opt_value (o : option Z) : Z :=
  match o with Some n => n | None => 0 end.

(** Digits followed by another character than the unit are not the group. *)
Lemma opt_number_other (unit c : ascii) (ds rest : pystr) :
  forallb is_digit ds = true -> is_digit c = false -> c <> unit ->
  opt_number unit (ds ++ c :: rest) = (None, ds ++ c :: rest).
Proof.
  intros Hd Hc Hne. unfold opt_number.
  destruct (span_digits ds rest c Hd Hc) as [-> ->].
  destruct (Ascii.eqb_spec c unit); [contradiction|].
  now rewrite andb_false_r.
Qed.

Lemma match_duration_iso (a : pystr) :
  match_duration ("PT" ++ a) =
  let (h, s1) := opt_number "H" a in
  let (m, _) := opt_number "M" s1 in Some (h, m).
Proof. reflexivity. Qed.

(** C5: Round trip with the ISO 8601 text: for numbers of hours and minutes
    that are not negative, each given or not, [parse_iso8601_duration] of
    the text [PT], hours and [H], minutes and [M] is the phrase
    [duration_phrase] builds from these numbers, an absent number counting
    as 0. *)
Theorem parse_duration_iso (h m : option Z) :
  opt_nonneg h -> opt_nonneg m ->
  parse_iso8601_duration (iso_duration h m)
  = duration_phrase (opt_value h) (opt_value m).
Proof.
  intros Hh Hm. unfold parse_iso8601_duration, iso_duration.
  rewrite match_duration_iso.
  destruct h as [a|], m as [b|]; cbn [opt_nonneg opt_value app] in *;
    rewrite <- ?app_assoc, ?app_nil_r; cbn [py list_ascii_of_string app].
  - rewrite !opt_number_match by (auto using str_of_Z_digits).
    cbn [group_int]. now rewrite !int_of_str_of_Z.
  - rewrite !opt_number_match by (auto using str_of_Z_digits).
    change (opt_number "M" []) with (@None pystr, @nil ascii).
    cbn [group_int]. now rewrite !int_of_str_of_Z.
  - rewrite opt_number_other; try discriminate; try reflexivity.
    + rewrite !opt_number_match by (auto using str_of_Z_digits).
      cbn [group_int]. now rewrite !int_of_str_of_Z.
    + apply digits_spec. now apply str_of_Z_digits.
  - reflexivity.
Qed.

(** The sentinel of an absent [totalTime] passes through. *)
Example parse_duration_not_available :
  parse_iso8601_duration "Not Available" = "Not Available".
Proof. reflexivity. Qed.


(** ** Instances at concrete inputs *)

(** The instance of C5. *)
Lemma parse_duration_iso_witness :
  parse_iso8601_duration (py "PT1H30M") = py "1 hours 30 minutes".
Proof.
  apply (parse_duration_iso (Some 1) (Some 30)); cbn; lia.
Defined.

(** The instance of C31. *)
Lemma parse_duration_no_match_witness :
  parse_iso8601_duration (py "Not Available") = py "Not Available".
Proof.
  apply (parse_duration_no_match (py "Not Available")).
  intros rest H. cbn in H. discriminate H.
Defined.
