(* ===== verification/Recipe.v ===== *)
(** * Recipe: the body of [scrape_foodcom_recipe], main.py lines 69-130

    The outcome of fetching and decoding a page is the input [page].  For a
    decoded JSON object the scraper reads five keys, computes the yield,
    rewrites every ingredient line for one serving, collects the texts of
    the instructions and builds the output record.  An exception anywhere in
    that work is caught at line 126 and the page yields [None]. *)

From Stdlib Require Import List ZArith Lia Bool Ascii String SpecFloat.
From S2P Require Import Prelude PyText PyFraction PyFloat Quantity Exactness Duration.
Import ListNotations.

Open Scope string_scope.
Open Scope list_scope.
Open Scope Z_scope.
Open Scope res_scope.

(** ** Data *)

(** An element of [recipeInstructions]: a JSON object, with or without the
    key [text], or any other value, which has no method [get]. *)
Inductive step : Type :=
| StepDict (text : option pystr)
| StepOther.

(** The keys of the JSON object the scraper reads, each absent or present.
    [recipeYield] holds the [str] of the value. *)
Record json_data : Type := mkJson {
  name : option pystr;
  totalTime : option pystr;
  recipeYield : option pystr;
  recipeIngredient : option (list pystr);
  recipeInstructions : option (list step)
}.

(** The output record, lines 117-122. *)
Record recipe_data : Type := mkRecipe {
  Dish_Name : pystr;
  Ready_In_Time : pystr;
  Ingredients : pystr;
  Directions : pystr
}.

(** What lines 78-87 produce: an exception, no JSON-LD block, or the
    decoded object. *)
Inductive page : Type :=
| PageError
| PageNoJson
| PageJson (j : json_data).

(** [d.get(key, default)]. *)
Definition get {A : Type} (o : option A) (default : A) : A :=
  match o with
  | Some a => a
  | None => default
  end.

Definition newline : pystr := ["010"%char].

(** ** The yield *)

Definition not_digit (c : ascii) : bool := negb (is_digit c).

(** [re.search(r'\d+', s)]: the first maximal run of digits of [s]. *)
Definition search_digits (s : pystr) : option pystr :=
  match dropWhile not_digit s with
  | [] => None
  | s' => Some (takeWhile is_digit s')
  end.

(** Lines 93-96: the int of the first run of digits, 1 when there is none
    (calling [group] on [None] raises [AttributeError]). *)
Definition yield_number (recipe_yield : pystr) : Z :=
  try_default
    match search_digits recipe_yield with
    | Some ds => Ok (int_of_digits ds)
    | None => Raise AttributeError
    end
    1.

(** ** The pipeline *)

Section Pipeline.
Context {FM : FloatModel}.

(** One turn of the loop of lines 99-108: the line appended for [item]. *)
Definition ingredient_line (yield_number : Z) (item : pystr) : res pystr :=
  let qty := extract_quantity item in
  let ing := remove_quantity item in
  match qty with
  | Some q =>
      if float_gt_zero q && negb (yield_number =? 0) then
        scaled_qty <- float_div_int q yield_number ;;
        let qty_str := decimal_to_fraction scaled_qty in
        Ok (strip (qty_str ++ " " ++ ing))
      else Ok (strip ing)
  | None => Ok (strip ing)
  end.

(** Lines 98-111: the list of lines, or the sentinel. *)
Definition ingredients_of (yield_number : Z) (items : list pystr) : res (list pystr) :=
  lines <- res_map (ingredient_line yield_number) items ;;
  Ok match lines with
     | [] => [py "Ingredients not found"]
     | _ => lines
     end.

(** [step.get] of the key [text], with the empty string as default. *)
Definition step_text (s : step) : res pystr :=
  match s with
  | StepDict text => Ok (get text [])
  | StepOther => Raise AttributeError
  end.

(** Lines 113-115. *)
Definition directions_of (steps : list step) : res (list pystr) :=
  texts <- res_map step_text steps ;;
  Ok match texts with
     | [] => [py "Directions not found"]
     | _ => texts
     end.

(** Lines 89-124. *)
Definition build_recipe (j : json_data) : res recipe_data :=
  let dish_name := get (name j) (py "Unknown Dish") in
  let ready_in_time :=
    parse_iso8601_duration (get (totalTime j) (py "Not Available")) in
  let recipe_yield := get (recipeYield j) (py "1") in
  let y := yield_number recipe_yield in
  ingredients <- ingredients_of y (get (recipeIngredient j) []) ;;
  directions <- directions_of (get (recipeInstructions j) []) ;;
  Ok {| Dish_Name := dish_name;
        Ready_In_Time := ready_in_time;
        Ingredients := join newline ingredients;
        Directions := join newline directions |}.

(** [scrape_foodcom_recipe]: [None] for a page without JSON-LD block
    (lines 83-85) and for any exception (lines 126-128). *)
Definition scrape_foodcom_recipe (p : page) : option recipe_data :=
  match p with
  | PageError => None
  | PageNoJson => None
  | PageJson j => try_except (build_recipe j)
  end.

End Pipeline.

(** ** The yield *)

Lemma not_digit_false (c : ascii) : not_digit c = false <-> is_digit c = true.
Proof. unfold not_digit. now destruct (is_digit c). Qed.

(** No run of digits is found exactly when the string has no digit. *)
Lemma search_digits_none_iff (s : pystr) :
  search_digits s = None <-> forallb not_digit s = true.
Proof.
  unfold search_digits. rewrite <- dropWhile_nil_iff.
  destruct (dropWhile not_digit s); split; congruence.
Qed.

(** The run found is the first one: digits, after a part without digit,
    and not followed by a digit. *)
Lemma search_digits_some (s ds : pystr) :
  search_digits s = Some ds <->
  exists a b, s = a ++ ds ++ b /\ forallb not_digit a = true /\
              digits ds = true /\ head_fails is_digit b.
Proof.
  unfold search_digits. split.
  - pose proof (takeWhile_dropWhile not_digit s) as Hs.
    pose proof (dropWhile_head not_digit s) as Hh.
    destruct (dropWhile not_digit s) as [|c r] eqn:E; [discriminate|].
    intros H. assert (ds = takeWhile is_digit (c :: r)) as -> by congruence.
    exists (takeWhile not_digit s), (dropWhile is_digit (c :: r)).
    rewrite takeWhile_dropWhile. repeat split; auto with py.
    apply digits_spec. split; [|auto with py].
    cbn in Hh. apply not_digit_false in Hh. cbn. now rewrite Hh.
  - intros (a & b & -> & Ha & Hd & Hb). apply digits_spec in Hd as [Hne Hd].
    rewrite dropWhile_app_all by assumption.
    destruct ds as [|c ds]; [discriminate|]. cbn in Hd.
    apply andb_true_iff in Hd as [Hc Hd].
    cbn [app dropWhile]. unfold not_digit at 1. rewrite Hc. cbn [negb].
    f_equal. change (c :: ds ++ b) with ((c :: ds) ++ b).
    rewrite takeWhile_app_all by (cbn; now rewrite Hc).
    rewrite takeWhile_head_fails by assumption. apply app_nil_r.
Qed.

(** The yield is never negative. *)
Lemma yield_number_nonneg (recipe_yield : pystr) : 0 <= yield_number recipe_yield.
Proof.
  unfold yield_number. destruct (search_digits recipe_yield) as [ds|] eqn:E.
  - apply search_digits_some in E as (a & b & _ & _ & Hd & _).
    apply digits_spec in Hd as [_ Hd]. cbn. now apply int_of_digits_nonneg.
  - cbn. lia.
Qed.

(** A text of [recipeYield] without digit gives the yield 1: the
    exception of the missing match is caught. *)
Theorem yield_number_default (recipe_yield : pystr) :
  forallb not_digit recipe_yield = true -> yield_number recipe_yield = 1.
Proof.
  intros H. apply search_digits_none_iff in H. unfold yield_number.
  now rewrite H.
Qed.

(** The yield is the number written by the first run of digits. *)
Lemma yield_number_first_run (a ds b : pystr) :
  forallb not_digit a = true -> digits ds = true -> head_fails is_digit b ->
  yield_number (a ++ ds ++ b) = int_of_digits ds.
Proof.
  intros Ha Hd Hb. unfold yield_number.
  assert (search_digits (a ++ ds ++ b) = Some ds) as ->; [|reflexivity].
  apply search_digits_some. now exists a, b.
Qed.

(** C8: Round trip of the yield: when the text of [recipeYield] is a part
    without digit, the decimal text of [n >= 0] and a rest that does not
    start with a digit, [yield_number] is [n]. *)
Theorem yield_number_str (n : Z) (a b : pystr) :
  0 <= n -> forallb not_digit a = true -> head_fails is_digit b ->
  yield_number (a ++ str_of_Z n ++ b) = n.
Proof.
  intros Hn Ha Hb. rewrite yield_number_first_run; auto using str_of_Z_digits.
  now apply int_of_str_of_Z.
Qed.

(** ** One ingredient line *)

Section PipelineFacts.
Context {FM : FloatModel}.

(** Stripping the rest of a line again changes nothing. *)
Lemma strip_remove_quantity (item : pystr) :
  strip (remove_quantity item) = remove_quantity item.
Proof. apply strip_idem. Qed.

(** The three outcomes of a turn of the loop: the rest alone, the scaled
    quantity in front of the rest, or the exception of the division. *)
Lemma ingredient_line_cases (y : Z) (item : pystr) :
  (ingredient_line y item = Ok (remove_quantity item) /\
   (extract_quantity item = None \/ y = 0 \/
    exists q, extract_quantity item = Some q /\ float_gt_zero q = false))
  \/ exists q, extract_quantity item = Some q /\ float_gt_zero q = true /\ y <> 0 /\
       ingredient_line y item =
       (s <- float_div_int q y ;;
        Ok (strip (decimal_to_fraction s ++ " " ++ remove_quantity item))).
Proof.
  unfold ingredient_line. rewrite strip_remove_quantity.
  destruct (extract_quantity item) as [q|]; [|left; auto].
  destruct (float_gt_zero q) eqn:Eq; [|left; eauto 6].
  destruct (Z.eqb_spec y 0) as [->|Hy]; cbn [andb negb]; [left; auto|].
  right. eauto 6.
Qed.

(** C27: A line that does not start with a quantity character is appended
    stripped and otherwise unchanged, whatever the yield and the float
    arithmetic. *)
Theorem ingredient_line_no_prefix (y : Z) (item : pystr) :
  head_fails qty_char item -> ingredient_line y item = Ok (strip item).
Proof.
  intros H. unfold ingredient_line.
  rewrite extract_quantity_no_prefix, strip_remove_quantity by assumption.
  now rewrite remove_quantity_no_prefix.
Qed.

(** With a yield of 0 the quantity is dropped from the line. *)
Lemma ingredient_line_yield_zero (item : pystr) :
  ingredient_line 0 item = Ok (remove_quantity item).
Proof.
  unfold ingredient_line. rewrite strip_remove_quantity.
  destruct (extract_quantity item) as [q|]; [|reflexivity].
  now rewrite andb_false_r.
Qed.

(** When the prefix does not parse, the prefix is dropped all the same. *)
Lemma ingredient_line_unparsed (y : Z) (item : pystr) :
  extract_quantity item = None ->
  ingredient_line y item = Ok (remove_quantity item).
Proof.
  intros H. unfold ingredient_line. now rewrite H, strip_remove_quantity.
Qed.

(** C35: A prefix that does not parse and a yield of 0 both give the rest of
    the line alone: the prefix is removed and nothing is printed for it. *)
Theorem ingredient_line_drops_prefix (y : Z) (item : pystr) :
  extract_quantity item = None \/ y = 0 ->
  ingredient_line y item = Ok (remove_quantity item).
Proof.
  intros [H| ->]; [now apply ingredient_line_unparsed|].
  apply ingredient_line_yield_zero.
Qed.

(** A quantity that is not positive is dropped from the line. *)
Lemma ingredient_line_not_positive (y : Z) (item : pystr) (q : flt) :
  extract_quantity item = Some q -> float_gt_zero q = false ->
  ingredient_line y item = Ok (remove_quantity item).
Proof.
  intros H Hq. unfold ingredient_line. now rewrite H, Hq, strip_remove_quantity.
Qed.

(** A positive quantity and a yield other than 0: the quotient, printed,
    a space and the rest, stripped. *)
Lemma ingredient_line_scaled (y : Z) (item : pystr) (q s : flt) :
  extract_quantity item = Some q -> float_gt_zero q = true -> y <> 0 ->
  float_div_int q y = Ok s ->
  ingredient_line y item =
  Ok (strip (decimal_to_fraction s ++ " " ++ remove_quantity item)).
Proof.
  intros H Hq Hy Hs. unfold ingredient_line. rewrite H, Hq.
  destruct (Z.eqb_spec y 0); [contradiction|]. cbn [andb negb]. now rewrite Hs.
Qed.

(** C28: Invariant of the lines: a line returned by [ingredient_line]
    neither starts nor ends with white space. *)
Theorem ingredient_line_clean (y : Z) (item line : pystr) :
  ingredient_line y item = Ok line ->
  head_fails is_space line /\ last_fails is_space line.
Proof.
  unfold ingredient_line. destruct (extract_quantity item) as [q|].
  - destruct (_ && _).
    + destruct (float_div_int q y); cbn; [|discriminate].
      intros [= <-]. auto with py.
    + intros [= <-]. auto with py.
  - intros [= <-]. auto with py.
Qed.

(** The line is computed from the item alone when it raises no exception:
    it raises only in the division. *)
Lemma ingredient_line_raise (y : Z) (item : pystr) (e : exn) :
  ingredient_line y item = Raise e ->
  exists q, extract_quantity item = Some q /\ float_gt_zero q = true /\
            y <> 0 /\ float_div_int q y = Raise e.
Proof.
  destruct (ingredient_line_cases y item) as [[-> _]|(q & Hq & Hp & Hy & ->)];
    [discriminate|].
  destruct (float_div_int q y) eqn:E; cbn; [discriminate|].
  intros [= <-]. eauto.
Qed.

(** ** The lists *)

(** The sentinel stands for an empty list of ingredients. *)
Lemma ingredients_of_nil (y : Z) :
  ingredients_of y [] = Ok [py "Ingredients not found"].
Proof. reflexivity. Qed.

(** C7: Order and length: for a list of items that is not empty,
    [ingredients_of] returns [lines] exactly when [lines] has one line per
    item, in the order of the items, each being what [ingredient_line]
    returns for its item. *)
Theorem ingredients_of_ok (y : Z) (items lines : list pystr) :
  items <> [] ->
  ingredients_of y items = Ok lines <->
  Forall2 (fun item line => ingredient_line y item = Ok line) items lines.
Proof.
  intros Hne. unfold ingredients_of. rewrite <- res_map_ok_iff.
  destruct (res_map (ingredient_line y) items) as [ls|e] eqn:E; cbn.
  - pose proof (res_map_length _ _ _ E) as Hl.
    destruct ls; [destruct items; [contradiction | discriminate]|].
    split; congruence.
  - split; discriminate.
Qed.

(** C29: The list of lines [ingredients_of] returns is never empty: the
    sentinel stands for an empty list. *)
Theorem ingredients_of_nonempty (y : Z) (items lines : list pystr) :
  ingredients_of y items = Ok lines -> lines <> [].
Proof.
  unfold ingredients_of. destruct (res_map _ items) as [[|l ls]|e]; cbn;
    [intros [= <-] | intros [= <-] | ]; discriminate.
Qed.

(** For a list of instruction objects that is not empty the directions
    are their texts in order, an object without text giving the empty
    string. *)
Theorem directions_of_dicts (texts : list (option pystr)) :
  texts <> [] ->
  directions_of (map StepDict texts) = Ok (map (fun t => get t []) texts).
Proof.
  intros Hne. unfold directions_of.
  assert (res_map step_text (map StepDict texts)
          = Ok (map (fun t => get t []) texts)) as ->.
  { clear Hne. induction texts as [|t ts IH]; [reflexivity|].
    cbn [map res_map step_text]. now rewrite IH. }
  cbn. destruct texts; [contradiction | reflexivity].
Qed.

(** An instruction that is not an object makes the list fail. *)
Lemma directions_of_other (steps : list step) :
  In StepOther steps -> directions_of steps = Raise AttributeError.
Proof.
  intros H. unfold directions_of.
  assert (res_map step_text steps = Raise AttributeError) as ->; [|reflexivity].
  induction steps as [|s ss IH]; [contradiction|].
  destruct H as [->|H]; [reflexivity|].
  cbn [res_map]. destruct s; cbn; [now rewrite IH | reflexivity].
Qed.

Lemma directions_of_nonempty (steps : list step) (texts : list pystr) :
  directions_of steps = Ok texts -> texts <> [].
Proof.
  unfold directions_of. destruct (res_map _ steps) as [[|l ls]|e]; cbn;
    [intros [= <-] | intros [= <-] | ]; discriminate.
Qed.

End PipelineFacts.

(** ** The composed line *)

Lemma forallb_nonspace_head (s : pystr) :
  forallb nonspace s = true -> head_fails is_space s.
Proof.
  destruct s as [|c s]; cbn; [trivial|]. intros H.
  apply andb_true_iff in H as [H _]. now apply nonspace_true.
Qed.

Lemma token_ok_clean (t : pystr) :
  token_ok t -> head_fails is_space t /\ last_fails is_space t.
Proof.
  intros [_ H]. split; apply forallb_nonspace_head; [|rewrite forallb_rev]; exact H.
Qed.

(** A printed quantity, a space and a stripped rest: stripping removes the
    space when the rest is empty and nothing otherwise. *)
Lemma strip_compose (t r : pystr) :
  token_ok t -> head_fails is_space r -> last_fails is_space r ->
  strip (t ++ " " ++ r) = match r with [] => t | _ => t ++ " " ++ r end.
Proof.
  intros Ht Hh Hl. destruct (token_ok_clean t Ht) as [Hth Htl].
  destruct Ht as [Hne _]. destruct r as [|c r].
  - apply (strip_unique _ [] t (py " ")); auto.
  - apply strip_fixed.
    + destruct t; [contradiction | exact Hth].
    + unfold last_fails in *. change (py " " ++ c :: r) with ([" "%char] ++ c :: r).
      rewrite !rev_app_distr, <- app_assoc.
      apply head_fails_app; [exact Hl|].
      cbn. now destruct (rev r).
Qed.

(** ** The record *)

Section RecordFacts.
Context {FM : FloatModel}.


(** A page without decoded object yields nothing. *)
Lemma scrape_no_json :
  scrape_foodcom_recipe PageError = None /\
  scrape_foodcom_recipe PageNoJson = None.
Proof. split; reflexivity. Qed.


(** C30: An element of [recipeInstructions] that is not an object makes
    [scrape_foodcom_recipe] return [None] for the page. *)
Theorem scrape_bad_step (j : json_data) (steps : list step) :
  recipeInstructions j = Some steps -> In StepOther steps ->
  scrape_foodcom_recipe (PageJson j) = None.
Proof.
  intros E H. cbn. unfold build_recipe. rewrite E. cbn [get].
  rewrite (directions_of_other steps H).
  now destruct (ingredients_of _ _).
Qed.

End RecordFacts.

(** ** The pipeline in exact arithmetic *)

Section ExactPipeline.

(** The line of a positive quantity and a positive yield: the quotient in
    lowest terms, a space when the rest is not empty, and the rest. *)
Lemma exact_ingredient_line_scaled (y : Z) (item : pystr) (q : Fraction) :
  @extract_quantity exactQ item = Some q -> 0 < numerator q -> 0 < y ->
  denominator (scale q y) <= max_denominator ->
  @ingredient_line exactQ y item =
  Ok match remove_quantity item with
     | [] => render_fraction (scale q y)
     | _ => render_fraction (scale q y) ++ " " ++ remove_quantity item
     end.
Proof.
  intros Hq Hn Hy Hb. pose proof (exact_extract_wf item q Hq) as Hwf.
  assert (Hs : Fraction_wf (scale q y)) by (apply scale_wf; [assumption | lia]).
  rewrite (@ingredient_line_scaled exactQ y item q (scale q y));
    try assumption; try lia.
  - rewrite exact_decimal_to_fraction by assumption. f_equal.
    destruct (remove_quantity_clean item) as [Hh Hl].
    apply strip_compose; [|now apply head_fails_qty_space | assumption].
    apply render_fraction_token_ok; [assumption|].
    destruct Hwf. apply Z.lt_le_incl, normalize_num_pos; nia.
  - cbn. unfold exact_gt_zero. lia.
  - now apply exact_div_int_ok; [|lia].
Qed.

(** C34: In exact arithmetic [ingredient_line] raises no exception, whatever
    the line and the yield. *)
Theorem exact_ingredient_line_total (y : Z) (item : pystr) :
  is_ok (@ingredient_line exactQ y item) = true.
Proof.
  destruct (@ingredient_line exactQ y item) as [l|e] eqn:E; [reflexivity|].
  apply ingredient_line_raise in E as (q & Hq & _ & Hy & E).
  apply exact_extract_wf in Hq. cbn in E.
  now rewrite exact_div_int_ok in E.
Qed.

End ExactPipeline.

(** ** The scraper against the exact pipeline *)

(** A line is in the domain when its quantity, read exactly, is absent or
    within the bounds. *)
Definition item_in_domain (item : pystr) : bool :=
  match @extract_quantity exactQ item with
  | Some q =>
      (0 <=? numerator q) && (numerator q <=? Z.of_nat max_num)
      && (denominator q <=? Z.of_nat max_den)
  | None => true
  end.

(** A decoded page is in the domain when its yield and its lines are. *)
Definition page_in_domain (p : page) : bool :=
  match p with
  | PageJson j =>
      (yield_number (get (recipeYield j) (py "1")) <=? Z.of_nat max_yield)
      && forallb item_in_domain (get (recipeIngredient j) [])
  | _ => true
  end.

(** A page of the domain. *)
Definition sample_page : page :=
  PageJson
    (mkJson (Some (py "Bread")) (Some (py "PT1H30M")) (Some (py "4 servings"))
            (Some (map py ["2 cups flour"; "1/2 tsp salt"; "salt to taste"]))
            (Some [StepDict (Some (py "Mix.")); StepDict None])).

(** The record of the sample page. *)
Definition sample_record : recipe_data :=
  mkRecipe (py "Bread") (py "1 hours 30 minutes")
           (py "1/2 cups flour" ++ newline ++ py "1/8 tsp salt" ++ newline
              ++ py "salt to taste")
           (py "Mix." ++ newline).

Example scrape_sample :
  @scrape_foodcom_recipe exactQ sample_page = Some sample_record.
Proof. vm_compute. reflexivity. Qed.

Section Binary64.
Variable repr_finite : spec_float -> pystr.
Let B : FloatModel := binary64 repr_finite.

(** On the domain a line is the same in double precision and in exact
    arithmetic. *)
Lemma b64_ingredient_line_exact (y : Z) (item : pystr) :
  item_in_domain item = true -> 0 <= y <= Z.of_nat max_yield ->
  @ingredient_line B y item = @ingredient_line exactQ y item.
Proof.
  intros Hi Hy. unfold item_in_domain in Hi.
  destruct (Z.eq_dec y 0) as [->|Hy0]; [now rewrite !ingredient_line_yield_zero|].
  pose proof (b64_extract_quantity repr_finite item) as HB.
  destruct (@extract_quantity exactQ item) as [q|] eqn:Eq;
    [|now rewrite !ingredient_line_unparsed].
  pose proof (exact_extract_wf item q Eq) as Hwf.
  apply andb_true_iff in Hi as [Hi Hd]. apply andb_true_iff in Hi as [Hn0 Hn].
  apply Z.leb_le in Hn0, Hn, Hd.
  destruct (Z.eq_dec (numerator q) 0) as [Hz|Hz].
  - assert (q = mkFraction 0 1) as ->.
    { destruct q as [n d], Hwf as [Hp Hg]. cbn in *. subst n.
      rewrite Z.gcd_0_l, Z.abs_eq in Hg by lia. now subst d. }
    rewrite (@ingredient_line_not_positive B y item (S754_zero false));
      [|exact HB | reflexivity].
    now rewrite (@ingredient_line_not_positive exactQ y item (mkFraction 0 1)).
  - destruct Hwf as [Hp Hg].
    destruct (b64_agrees_spec repr_finite q y) as (x & s & Hx & Hg0 & Hs & Hr & Hb);
      [apply b64_agrees_domain; lia|].
    rewrite Hx in HB. change (binary64 repr_finite) with B in Hr.
    rewrite (@ingredient_line_scaled B y item x s HB Hg0 Hy0 Hs), Hr.
    rewrite (@ingredient_line_scaled exactQ y item q (scale q y) Eq);
      [| cbn; unfold exact_gt_zero; lia | assumption
       | apply exact_div_int_ok; [split|]; assumption].
    rewrite exact_decimal_to_fraction; [reflexivity | | assumption].
    apply scale_wf; [split|]; assumption.
Qed.

(** C1: In double precision, for a line whose leading quantity parses to a
    fraction [q] with numerator 1 to 40 and denominator at most 10, and a
    yield [y] from 1 to 24, the line appended by the loop of
    [scrape_foodcom_recipe] is [q / y] in lowest terms, printed by
    [render_fraction], followed by a space and the rest of the line, the
    space being dropped when the rest is empty. *)
Theorem b64_ingredient_line_scaled (y : Z) (item m : pystr) (q : Fraction) :
  match_quantity item = Some m -> parse_quantity (strip m) = Ok q ->
  1 <= numerator q <= Z.of_nat max_num -> denominator q <= Z.of_nat max_den ->
  1 <= y <= Z.of_nat max_yield ->
  @ingredient_line B y item =
  Ok match remove_quantity item with
     | [] => render_fraction (scale q y)
     | _ => render_fraction (scale q y) ++ " " ++ remove_quantity item
     end.
Proof.
  intros Hm Hp Hn Hd Hy.
  assert (Hq : @extract_quantity exactQ item = Some q)
    by (apply exact_extract_quantity; eauto).
  pose proof (exact_extract_wf item q Hq) as Hwf.
  rewrite b64_ingredient_line_exact; [|unfold item_in_domain; rewrite Hq | lia].
  - apply exact_ingredient_line_scaled; try assumption; try lia.
    pose proof (scale_den_le q y Hwf ltac:(lia)) as Hs.
    unfold max_denominator, max_den, max_yield in *. nia.
  - apply andb_true_iff. split; [apply andb_true_iff; split|]; apply Z.leb_le; lia.
Qed.

(** On the domain the list of lines is the same. *)
Lemma b64_ingredients_exact (y : Z) (items : list pystr) :
  forallb item_in_domain items = true -> 0 <= y <= Z.of_nat max_yield ->
  @ingredients_of B y items = @ingredients_of exactQ y items.
Proof.
  intros Hi Hy. unfold ingredients_of.
  rewrite (res_map_ext_in (@ingredient_line B y) (@ingredient_line exactQ y));
    [reflexivity|].
  intros item Hin. apply b64_ingredient_line_exact; [|exact Hy].
  rewrite forallb_forall in Hi. now apply Hi.
Qed.

(** C2: Refinement of the exact pipeline: for every outcome of the fetch and
    every decoded page whose yield is at most 24 and whose quantities, read
    exactly, are absent or have a numerator at most 40 and a denominator at
    most 10, [scrape_foodcom_recipe] in double precision returns what it
    returns in exact arithmetic. *)
Theorem b64_scrape_exact (p : page) :
  page_in_domain p = true ->
  @scrape_foodcom_recipe B p = @scrape_foodcom_recipe exactQ p.
Proof.
  destruct p as [| |j]; try reflexivity. cbn [page_in_domain scrape_foodcom_recipe].
  intros H. apply andb_true_iff in H as [Hy Hi]. apply Z.leb_le in Hy.
  unfold build_recipe. rewrite b64_ingredients_exact; [reflexivity | exact Hi|].
  split; [apply yield_number_nonneg | exact Hy].
Qed.

(** The scenarios of the specification hold in double precision:
    quantities are scaled to the fractions expected, a line without quantity
    is unchanged, an empty list gives the sentinel, a yield without digit is
    1 and [PT2H] is [2 hours]. *)
Example b64_scenarios :
  map (@ingredient_line B 4)
      (map py ["2 cups flour"; "salt to taste"; "1 1/2 tsp sugar"; "0.5 l milk"])
  = map (@Ok pystr)
      (map py ["1/2 cups flour"; "salt to taste"; "3/8 tsp sugar"; "1/8 l milk"])
  /\ @ingredient_line B 1 (py "1/2 teaspoon salt") = Ok (py "1/2 teaspoon salt")
  /\ @ingredients_of B 4 [] = Ok [py "Ingredients not found"]
  /\ yield_number (py "serves many") = 1
  /\ parse_iso8601_duration (py "PT2H") = py "2 hours".
Proof. vm_compute. repeat split; reflexivity. Qed.

(** A prefix that does not parse, a quantity of 0 and a yield of 0 all
    give the rest of the line alone: the prefix is removed and nothing is
    printed for it. *)
Example b64_dropped_prefix :
  map (@ingredient_line B 4)
      (map py ["3 / 4 cup oil"; "1/0 cups"; "1.5.2 kg"; "0 eggs"; " salt"])
  = map (@Ok pystr) (map py ["cup oil"; "cups"; "kg"; "eggs"; "salt"])
  /\ @ingredient_line B 0 (py "2 cups flour") = Ok (py "cups flour").
Proof. vm_compute. split; reflexivity. Qed.



End Binary64.

(** ** The digits of finite floats *)

Section Repr.
Variables r1 r2 : spec_float -> pystr.

Lemma ingredient_line_repr (y : Z) (item : pystr) :
  @ingredient_line (binary64 r1) y item = @ingredient_line (binary64 r2) y item.
Proof.
  unfold ingredient_line.
  change (@extract_quantity (binary64 r2) item)
    with (@extract_quantity (binary64 r1) item).
  destruct (@extract_quantity (binary64 r1) item) as [q|]; [|reflexivity].
  change (@float_gt_zero (binary64 r2) q) with (@float_gt_zero (binary64 r1) q).
  destruct (_ && _); [|reflexivity].
  change (@float_div_int (binary64 r2) q y) with (@float_div_int (binary64 r1) q y).
  destruct (@float_div_int (binary64 r1) q y) as [s|e]; [|reflexivity].
  cbn [bind]. now rewrite (decimal_to_fraction_repr r1 r2).
Qed.

(** C12: Equivalence of the instances: whatever the text of finite floats
    is, [scrape_foodcom_recipe] in double precision returns the same result;
    the text of a float is printed for an infinity only. *)
Theorem scrape_repr (p : page) :
  @scrape_foodcom_recipe (binary64 r1) p = @scrape_foodcom_recipe (binary64 r2) p.
Proof.
  destruct p as [| |j]; try reflexivity. cbn [scrape_foodcom_recipe].
  unfold build_recipe, ingredients_of.
  now rewrite (res_map_ext_in _ (@ingredient_line (binary64 r2) _) _
                 (fun item _ => ingredient_line_repr _ item)).
Qed.

End Repr.

(** ** Instances at concrete inputs *)

(** The instance of C1. *)
Lemma b64_ingredient_line_scaled_witness :
  @ingredient_line (binary64 (fun _ => [])) 4 (py "2 cups flour") = Ok (py "1/2 cups flour").
Proof.
  apply (b64_ingredient_line_scaled (fun _ => []) 4 (py "2 cups flour")
           (py "2 ") (mkFraction 2 1));
    [reflexivity | vm_compute; reflexivity | cbn; lia | cbn; lia | cbn; lia].
Defined.

(** The instance of C2. *)
Lemma b64_scrape_exact_witness :
  page_in_domain sample_page = true /\
  @scrape_foodcom_recipe (binary64 (fun _ => [])) sample_page
  = @scrape_foodcom_recipe exactQ sample_page.
Proof.
  split; [vm_compute; reflexivity|].
  apply (b64_scrape_exact (fun _ => []) sample_page). vm_compute. reflexivity.
Defined.

(** The instance of C7. *)
Lemma ingredients_of_ok_witness :
  @ingredients_of exactQ 2 [py "1 cup milk"] = Ok [py "1/2 cup milk"] <->
  Forall2 (fun item line => @ingredient_line exactQ 2 item = Ok line)
          [py "1 cup milk"] [py "1/2 cup milk"].
Proof.
  apply (@ingredients_of_ok exactQ 2 [py "1 cup milk"] [py "1/2 cup milk"]).
  discriminate.
Defined.

(** The instance of C8. *)
Lemma yield_number_str_witness :
  yield_number (py "Makes 12 cookies") = 12.
Proof.
  apply (yield_number_str 12 (py "Makes ") (py " cookies"));
    [lia | reflexivity | reflexivity].
Defined.

(** The instance of C27. *)
Lemma ingredient_line_no_prefix_witness :
  @ingredient_line (binary64 (fun _ => [])) 4 (py "salt to taste") = Ok (py "salt to taste").
Proof.
  apply (@ingredient_line_no_prefix (binary64 (fun _ => [])) 4 (py "salt to taste")).
  reflexivity.
Defined.

(** The instance of C28. *)
Lemma ingredient_line_clean_witness :
  head_fails is_space (py "1/2 cups flour") /\
  last_fails is_space (py "1/2 cups flour").
Proof.
  apply (@ingredient_line_clean (binary64 (fun _ => [])) 4 (py " 2 cups flour ")).
  vm_compute. reflexivity.
Defined.

(** The instance of C29. *)
Lemma ingredients_of_nonempty_witness :
  [py "Ingredients not found"] <> [].
Proof.
  apply (@ingredients_of_nonempty exactQ 4 [] [py "Ingredients not found"]).
  reflexivity.
Defined.

(** The instance of C30. *)
Lemma scrape_bad_step_witness :
  @scrape_foodcom_recipe exactQ
    (PageJson (mkJson None None None (Some [py "1 egg"]) (Some [StepOther])))
  = None.
Proof.
  apply (@scrape_bad_step exactQ
           (mkJson None None None (Some [py "1 egg"]) (Some [StepOther]))
           [StepOther]); [reflexivity | left; reflexivity].
Defined.

(** The instance of C35. *)
Lemma ingredient_line_drops_prefix_witness :
  @ingredient_line (binary64 (fun _ => [])) 4 (py "3 / 4 cup oil") = Ok (py "cup oil").
Proof.
  apply (@ingredient_line_drops_prefix (binary64 (fun _ => [])) 4 (py "3 / 4 cup oil")).
  left. vm_compute. reflexivity.
Defined.
