(* ===== verification/Csv.v ===== *)
(** * Csv: [save_to_csv], main.py lines 136-139

    The file is the table of its cells: absent, or the list of its lines.
    Saving a record appends its line, after the header when the file does
    not exist. *)

From Stdlib Require Import List ZArith Lia Bool Ascii String.
From S2P Require Import Prelude PyText Recipe.
Import ListNotations.

Open Scope string_scope.
Open Scope list_scope.

(** ** The file *)

(** A line of the table: its cells. *)
Definition row : Type := list pystr.

(** The keys of the record, which are the columns. *)
Definition columns : row :=
  map py ["Dish Name"; "Ready In Time"; "Ingredients"; "Directions"].

(** [pd.DataFrame([data])]: the one line of the frame. *)
Definition row_of (data : recipe_data) : row :=
  [Dish_Name data; Ready_In_Time data; Ingredients data; Directions data].

(** The file [rec.csv]: absent, or its lines. *)
Definition file : Type := option (list row).

(** [save_to_csv], lines 136-139: the line is appended, after the header
    when the file does not exist. *)
Definition save_to_csv (data : recipe_data) (f : file) : file :=
  match f with
  | None => Some [columns; row_of data]
  | Some rows => Some (rows ++ [row_of data])
  end.

(** The file after appending the lines of the records to [f]. *)
Definition append_all (rs : list recipe_data) (f : file) : file :=
  fold_left (fun f data => save_to_csv data f) rs f.

(** A table is well formed when it has a line and every line has the four
    cells of the columns. *)
Definition row_wf (r : row) : Prop := List.length r = 4%nat.

Definition file_wf (f : file) : Prop :=
  match f with
  | None => True
  | Some rows => rows <> [] /\ Forall row_wf rows
  end.

(** ** Appending *)

Lemma append_all_some (rs : list recipe_data) (rows : list row) :
  append_all rs (Some rows) = Some (rows ++ map row_of rs).
Proof.
  revert rows. induction rs as [|r rs IH]; intros rows; cbn.
  - now rewrite app_nil_r.
  - unfold append_all in IH. now rewrite IH, <- app_assoc.
Qed.

(** Appending to a file that does not exist writes the header once, in
    front of the lines; nothing is written for no record. *)
Lemma append_all_none (rs : list recipe_data) :
  append_all rs None =
  match rs with
  | [] => None
  | _ => Some (columns :: map row_of rs)
  end.
Proof.
  destruct rs as [|r rs]; [reflexivity|].
  change (append_all (r :: rs) None) with (append_all rs (Some [columns; row_of r])).
  now rewrite append_all_some.
Qed.

(** Saving in two runs is saving in one. *)
Lemma append_all_app (rs1 rs2 : list recipe_data) (f : file) :
  append_all (rs1 ++ rs2) f = append_all rs2 (append_all rs1 f).
Proof. apply fold_left_app. Qed.

(** A file that exists keeps its lines, in order, in front of the new
    ones. *)
Lemma save_to_csv_prefix (data : recipe_data) (rows : list row) :
  exists rows', save_to_csv data (Some rows) = Some rows' /\
                rows' = rows ++ [row_of data].
Proof. eexists. split; reflexivity. Qed.

(** ** Well-formed tables *)

Lemma row_of_wf (data : recipe_data) : row_wf (row_of data).
Proof. reflexivity. Qed.

(** Saving keeps the table well formed. *)
Lemma save_to_csv_wf (data : recipe_data) (f : file) :
  file_wf f -> file_wf (save_to_csv data f).
Proof.
  destruct f as [rows|]; cbn.
  - intros [Hne Hw]. split; [now destruct rows|].
    apply Forall_app. split; [exact Hw | repeat constructor].
  - intros _. split; [discriminate | repeat constructor].
Qed.

Lemma append_all_wf (rs : list recipe_data) (f : file) :
  file_wf f -> file_wf (append_all rs f).
Proof.
  revert f. induction rs as [|r rs IH]; intros f Hf; [exact Hf|].
  apply IH. now apply save_to_csv_wf.
Qed.

(** Saving only adds lines at the end. *)
Lemma save_to_csv_grows (data : recipe_data) (f : file) (rows : list row) :
  f = Some rows -> save_to_csv data f = Some (rows ++ [row_of data]).
Proof. now intros ->. Qed.

(** After saving, the line of the record is the last line of the file. *)
Lemma save_to_csv_last (data : recipe_data) (f : file) :
  exists rows, save_to_csv data f = Some (rows ++ [row_of data]).
Proof.
  destruct f as [rows|]; [now exists rows | now exists [columns]].
Qed.
