(* ===== verification/Run.v ===== *)
(** * Run: the loop over the URLs, main.py lines 145-156

    The run is a state machine.  Its state holds the pages still to visit,
    each with the outcome of its browser session, the CSV file, the lines
    printed, the number of browser sessions open and the point of control.
    A step is one of: entering [scrape_foodcom_recipe] for the next URL
    (the driver is created, or its creation raises and the run stops with
    the exception, which nothing catches), leaving it (the [try] block has
    run and [finally] has closed the driver), the rest of the loop body
    (printing and saving a record) and the last line of the module. *)

From Stdlib Require Import List ZArith Lia Bool Ascii String.
From S2P Require Import Prelude PyText PyFloat Recipe Csv.
Import ListNotations.

Open Scope string_scope.
Open Scope list_scope.

(** ** The state *)

(** Lines 70-75: creating the driver raises, outside the [try], or the
    session runs and gives the page. *)
Inductive session : Type :=
| DriverFail
| Session (p : page).

(** The lines printed. *)
Inductive event : Type :=
| Scraping (url : pystr)
| JsonNotFound (url : pystr)
| ErrorScraping (url : pystr)
| Extracted (data : recipe_data)
| Saved
| AllDone
| Traceback.

Inductive control : Type :=
| AtLoop
| InTry (url : pystr) (p : page)
| AfterScrape (r : option recipe_data).

Inductive status : Type :=
| Running
| Finished
| Crashed.

Record state : Type := mkState {
  pending : list (pystr * session);
  csv : file;
  log : list event;
  drivers : nat;
  point : control;
  stat : status
}.

(** The state before the loop, line 145. *)
Definition initial (urls : list (pystr * session)) (f : file) : state :=
  mkState urls f [] 0 AtLoop Running.

Section Machine.
Context {FM : FloatModel}.

(** What the [try] block prints, lines 84 and 127. *)
Definition scrape_log (url : pystr) (p : page) : list event :=
  match p with
  | PageNoJson => [JsonNotFound url]
  | PageError => [ErrorScraping url]
  | PageJson j =>
      match build_recipe j with
      | Ok _ => []
      | Raise _ => [ErrorScraping url]
      end
  end.

(** Lines 145-147 and 70-75: the next URL is announced and the driver
    created. *)
Definition enter (url : pystr) (p : page) (rest : list (pystr * session))
    (s : state) : state :=
  mkState rest (csv s) (log s ++ [Scraping url]) (S (drivers s)) (InTry url p) Running.

(** The exception of the driver's creation reaches the top of the module. *)
Definition crash (url : pystr) (rest : list (pystr * session)) (s : state) : state :=
  mkState rest (csv s) (log s ++ [Scraping url; Traceback]) (drivers s) AtLoop Crashed.

(** Lines 77-130: the [try] block, then [finally]. *)
Definition leave (url : pystr) (p : page) (s : state) : state :=
  mkState (pending s) (csv s) (log s ++ scrape_log url p) (pred (drivers s))
          (AfterScrape (scrape_foodcom_recipe p)) Running.

(** Lines 148-154: the record is printed and saved, or nothing is done. *)
Definition after (r : option recipe_data) (s : state) : state :=
  match r with
  | Some data =>
      mkState (pending s) (save_to_csv data (csv s))
              (log s ++ [Extracted data; Saved]) (drivers s) AtLoop Running
  | None => mkState (pending s) (csv s) (log s) (drivers s) AtLoop Running
  end.

(** Line 156. *)
Definition finish (s : state) : state :=
  mkState [] (csv s) (log s ++ [AllDone]) (drivers s) AtLoop Finished.

(** One step of the run, or [None] when it has stopped. *)
Definition step_fun (s : state) : option state :=
  match stat s with
  | Running =>
      match point s with
      | AtLoop =>
          match pending s with
          | [] => Some (finish s)
          | (url, DriverFail) :: rest => Some (crash url rest s)
          | (url, Session p) :: rest => Some (enter url p rest s)
          end
      | InTry url p => Some (leave url p s)
      | AfterScrape r => Some (after r s)
      end
  | Finished => None
  | Crashed => None
  end.

(** The steps as a relation. *)
Inductive step : state -> state -> Prop :=
| step_finish s :
    stat s = Running -> point s = AtLoop -> pending s = [] ->
    step s (finish s)
| step_crash s url rest :
    stat s = Running -> point s = AtLoop -> pending s = (url, DriverFail) :: rest ->
    step s (crash url rest s)
| step_enter s url p rest :
    stat s = Running -> point s = AtLoop -> pending s = (url, Session p) :: rest ->
    step s (enter url p rest s)
| step_leave s url p :
    stat s = Running -> point s = InTry url p ->
    step s (leave url p s)
| step_after s r :
    stat s = Running -> point s = AfterScrape r ->
    step s (after r s).

(** Any number of steps. *)
Inductive steps : state -> state -> Prop :=
| steps_refl s : steps s s
| steps_step s s1 s2 : step s s1 -> steps s1 s2 -> steps s s2.

(** [P] holds now or after some steps: as a step has one successor at
    most, this is that every run reaches a state where [P] holds. *)
Inductive eventually (P : state -> Prop) : state -> Prop :=
| ev_now s : P s -> eventually P s
| ev_step s s' : step s s' -> eventually P s' -> eventually P s.

(** The run with a bound on the number of steps. *)
Fixpoint run (fuel : nat) (s : state) : state :=
  match fuel with
  | O => s
  | S fuel' =>
      match step_fun s with
      | Some s' => run fuel' s'
      | None => s
      end
  end.

(** Three steps for each page and one to finish. *)
Definition run_fuel (s : state) : nat := 3 * List.length (pending s) + 3.

(** The whole loop as one function: the state in which the run stops. *)
Fixpoint run_pages (urls : list (pystr * session)) (f : file) (l : list event)
    : state :=
  match urls with
  | [] => mkState [] f (l ++ [AllDone]) 0 AtLoop Finished
  | (url, DriverFail) :: rest =>
      mkState rest f (l ++ [Scraping url; Traceback]) 0 AtLoop Crashed
  | (url, Session p) :: rest =>
      let l1 := (l ++ [Scraping url]) ++ scrape_log url p in
      match scrape_foodcom_recipe p with
      | Some data =>
          run_pages rest (save_to_csv data f) (l1 ++ [Extracted data; Saved])
      | None => run_pages rest f l1
      end
  end.

(** The records of the pages visited before the run stops, in order. *)
Fixpoint saved (urls : list (pystr * session)) : list recipe_data :=
  match urls with
  | [] => []
  | (_, DriverFail) :: _ => []
  | (_, Session p) :: rest =>
      match scrape_foodcom_recipe p with
      | Some data => data :: saved rest
      | None => saved rest
      end
  end.

End Machine.

Section MachineFacts.
Context {FM : FloatModel}.

(** ** Steps *)

(** The relation and the function agree. *)
Lemma step_fun_spec (s s' : state) : step s s' <-> step_fun s = Some s'.
Proof.
  unfold step_fun. split.
  - intros H. destruct H as [s Hs Hp Hu|s u rest Hs Hp Hu|s u p rest Hs Hp Hu
                            |s u p Hs Hp|s r Hs Hp];
      rewrite Hs, Hp; try rewrite Hu; reflexivity.
  - destruct (stat s) eqn:Hs; try discriminate.
    destruct (point s) as [|u p|r] eqn:Hp.
    + destruct (pending s) as [|[u [|p]] rest] eqn:Hu; intros [= <-].
      * now apply step_finish.
      * now apply step_crash.
      * now apply step_enter.
    + intros [= <-]. now apply step_leave.
    + intros [= <-]. now apply step_after.
Qed.

Lemma step_deterministic (s s1 s2 : state) : step s s1 -> step s s2 -> s1 = s2.
Proof. rewrite !step_fun_spec. congruence. Qed.

Lemma steps_trans (a b c : state) : steps a b -> steps b c -> steps a c.
Proof.
  intros H1 H2. induction H1 as [|a a1 b Ha _ IH]; [exact H2|].
  eapply steps_step; [exact Ha | now apply IH].
Qed.

Lemma steps_one (a b : state) : step a b -> steps a b.
Proof. intros H. eapply steps_step; [exact H | apply steps_refl]. Qed.

(** A state that has stopped stays where it is. *)
Lemma steps_stopped (s s' : state) : step_fun s = None -> steps s s' -> s' = s.
Proof.
  intros Hn H. destruct H as [|s s1 s2 H1 _]; [reflexivity|].
  apply step_fun_spec in H1. congruence.
Qed.

(** From a state that has stopped to which the run leads, every other run
    leads to it too: the run is deterministic. *)
Lemma steps_confluent (s a b : state) :
  steps s a -> step_fun a = None -> steps s b -> steps b a.
Proof.
  intros Ha Hn. induction Ha as [s|s s1 a H1 Ha IH]; intros Hb.
  - apply steps_stopped in Hb; [subst; apply steps_refl | exact Hn].
  - destruct Hb as [|s s2 b H2 Hb]; [eapply steps_step; eauto|].
    rewrite (step_deterministic _ _ _ H2 H1) in Hb. now apply IH.
Qed.

(** ** The browser sessions *)

(** A session is open inside the [try] block and nowhere else. *)
Definition drivers_inv (s : state) : Prop :=
  match point s with
  | InTry _ _ => drivers s = 1%nat
  | _ => drivers s = 0%nat
  end.

Lemma drivers_inv_step (s s' : state) :
  drivers_inv s -> step s s' -> drivers_inv s'.
Proof.
  unfold drivers_inv. intros Hi H.
  destruct H as [s Hs Hp Hu|s u rest Hs Hp Hu|s u p rest Hs Hp Hu|s u p Hs Hp|s r Hs Hp];
    rewrite Hp in Hi; cbn; try (now rewrite Hi); try assumption.
  destruct r; exact Hi.
Qed.

Lemma drivers_inv_steps (s s' : state) :
  drivers_inv s -> steps s s' -> drivers_inv s'.
Proof.
  intros Hi H. induction H as [|s s1 s2 H1 _ IH]; [exact Hi|].
  apply IH. now apply (drivers_inv_step s).
Qed.

(** ** The loop as one function *)

(** From the top of the loop the steps lead to the state [run_pages]
    computes. *)
Lemma steps_run_pages (urls : list (pystr * session)) (f : file) (l : list event) :
  steps (mkState urls f l 0 AtLoop Running) (run_pages urls f l).
Proof.
  revert f l. induction urls as [|[u [|p]] rest IH]; intros f l.
  - apply steps_one. now apply (step_finish (mkState [] f l 0 AtLoop Running)).
  - apply steps_one.
    now apply (step_crash (mkState ((u, DriverFail) :: rest) f l 0 AtLoop Running)).
  - eapply steps_step;
      [now apply (step_enter (mkState ((u, Session p) :: rest) f l 0 AtLoop Running))|].
    eapply steps_step; [now eapply step_leave|].
    eapply steps_step; [now eapply step_after|].
    cbn [run_pages]. unfold leave, after, enter. cbn.
    destruct (scrape_foodcom_recipe p); apply IH.
Qed.

(** The state [run_pages] computes has stopped. *)
Lemma run_pages_stopped (urls : list (pystr * session)) (f : file) (l : list event) :
  step_fun (run_pages urls f l) = None.
Proof.
  revert f l. induction urls as [|[u [|p]] rest IH]; intros f l; try reflexivity.
  cbn [run_pages]. destruct (scrape_foodcom_recipe p); apply IH.
Qed.

(** The file at the end holds the lines of the records saved. *)
Lemma run_pages_csv (urls : list (pystr * session)) (f : file) (l : list event) :
  csv (run_pages urls f l) = append_all (saved urls) f.
Proof.
  revert f l. induction urls as [|[u [|p]] rest IH]; intros f l; try reflexivity.
  cbn [run_pages saved]. destruct (scrape_foodcom_recipe p); apply IH.
Qed.

Definition is_driver_fail (x : pystr * session) : bool :=
  match snd x with
  | DriverFail => true
  | Session _ => false
  end.

(** The run crashes exactly when the creation of a driver fails. *)
Lemma run_pages_stat (urls : list (pystr * session)) (f : file) (l : list event) :
  stat (run_pages urls f l) =
  if existsb is_driver_fail urls then Crashed else Finished.
Proof.
  revert f l. induction urls as [|[u [|p]] rest IH]; intros f l; try reflexivity.
  cbn [run_pages existsb is_driver_fail snd orb].
  destruct (scrape_foodcom_recipe p); apply IH.
Qed.

(** The pages after a crash are never visited. *)
Lemma run_pages_pending (urls : list (pystr * session)) (f : file) (l : list event) :
  exists visited, urls = visited ++ pending (run_pages urls f l) /\
    (stat (run_pages urls f l) = Finished -> pending (run_pages urls f l) = []).
Proof.
  revert f l. induction urls as [|[u [|p]] rest IH]; intros f l.
  - exists []. split; reflexivity.
  - exists [(u, DriverFail)]. split; [reflexivity | discriminate].
  - cbn [run_pages].
    destruct (scrape_foodcom_recipe p) as [d|];
      [destruct (IH (save_to_csv d f) (((l ++ [Scraping u]) ++ scrape_log u p)
                                         ++ [Extracted d; Saved])) as (v & Hv & Hf)
      |destruct (IH f ((l ++ [Scraping u]) ++ scrape_log u p)) as (v & Hv & Hf)];
      exists ((u, Session p) :: v); (split; [cbn; now rewrite <- Hv | exact Hf]).
Qed.


Lemma run_stopped (n : nat) (s : state) : step_fun s = None -> run n s = s.
Proof. intros H. destruct n; [reflexivity|]. cbn [run]. now rewrite H. Qed.

(** Enough fuel: the bounded run reaches the state [run_pages] computes. *)
Lemma run_fuel_enough (urls : list (pystr * session)) (f : file) (l : list event)
    (n : nat) :
  (3 * List.length urls + 1 <= n)%nat ->
  run n (mkState urls f l 0 AtLoop Running) = run_pages urls f l.
Proof.
  revert f l n. induction urls as [|[u [|p]] rest IH]; intros f l n Hn.
  - destruct n; [cbn in Hn; lia|].
    change (run n (run_pages [] f l) = run_pages [] f l). now apply run_stopped.
  - destruct n; [cbn in Hn; lia|].
    change (run n (run_pages ((u, DriverFail) :: rest) f l)
            = run_pages ((u, DriverFail) :: rest) f l).
    now apply run_stopped.
  - destruct n as [|[|[|n]]]; try (cbn in Hn; lia).
    cbn [run step_fun stat point pending enter leave after run_pages csv log drivers pred].
    destruct (scrape_foodcom_recipe p); apply IH; cbn in Hn; lia.
Qed.

(** The fuel [run_fuel] of the state before the loop is enough. *)
Lemma run_initial (urls : list (pystr * session)) (f : file) :
  run (run_fuel (initial urls f)) (initial urls f) = run_pages urls f [].
Proof. apply run_fuel_enough. unfold run_fuel, initial. cbn. lia. Qed.

(** C13: Termination: with the fuel [run_fuel], three steps for each URL and
    three more, the bounded run reaches the state [run_pages] computes, and
    that state has stopped. *)
Theorem run_total (urls : list (pystr * session)) (f : file) :
  run (run_fuel (initial urls f)) (initial urls f) = run_pages urls f []
  /\ step_fun (run_pages urls f []) = None.
Proof. split; [apply run_initial | apply run_pages_stopped]. Qed.

(** C6: Refinement: every run of the step relation from the start of the
    loop that has stopped is in the state [run_pages] computes, so the steps
    of the loop implement the loop as one function. *)
Theorem run_unique (urls : list (pystr * session)) (f : file) (s : state) :
  steps (initial urls f) s -> step_fun s = None -> s = run_pages urls f [].
Proof.
  intros Hs Hn. pose proof (steps_run_pages urls f []) as Hr.
  pose proof (steps_confluent _ _ _ Hs Hn Hr) as H.
  apply (steps_stopped (run_pages urls f [])); [apply run_pages_stopped | exact H].
Qed.

(** C18: Safety: in every state of a run exactly one browser session is open
    inside the [try] block and none anywhere else, whatever the page did:
    [finally] closes the driver. *)
Theorem drivers_released (urls : list (pystr * session)) (f : file) (s : state) :
  steps (initial urls f) s -> drivers_inv s.
Proof. intros H. apply (drivers_inv_steps (initial urls f)); [reflexivity | exact H]. Qed.

(** C19: The file after a run that starts without file: none when no record
    was saved, else the header once and then the lines of the records saved,
    in the order of the URLs. *)
Theorem run_csv_fresh (urls : list (pystr * session)) :
  csv (run_pages urls None []) =
  match saved urls with
  | [] => None
  | _ => Some (columns :: map row_of (saved urls))
  end.
Proof. rewrite run_pages_csv. apply append_all_none. Qed.

(** The file after a run that starts with a file: its lines, then the
    lines of the records, and no header. *)
Lemma run_csv_existing (urls : list (pystr * session)) (rows : list row) :
  csv (run_pages urls (Some rows) []) = Some (rows ++ map row_of (saved urls)).
Proof. rewrite run_pages_csv. apply append_all_some. Qed.


(** A run over a first list without failing driver continues with the
    second list from the file the first list leaves. *)
Lemma run_pages_app (urls1 urls2 : list (pystr * session)) (f : file)
    (l : list event) :
  existsb is_driver_fail urls1 = false ->
  exists l', run_pages (urls1 ++ urls2) f l
             = run_pages urls2 (append_all (saved urls1) f) l'.
Proof.
  revert f l. induction urls1 as [|[u [|p]] rest IH]; intros f l H.
  - now exists l.
  - discriminate.
  - cbn in H. cbn [app run_pages saved].
    destruct (scrape_foodcom_recipe p); now apply IH.
Qed.

(** The last line of a run that finishes. *)
Lemma run_pages_last (urls : list (pystr * session)) (f : file) (l : list event) :
  existsb is_driver_fail urls = false ->
  exists l', log (run_pages urls f l) = l' ++ [AllDone].
Proof.
  revert f l. induction urls as [|[u [|p]] rest IH]; intros f l H.
  - now exists l.
  - discriminate.
  - cbn in H. cbn [run_pages]. destruct (scrape_foodcom_recipe p); now apply IH.
Qed.

(** When every page fails nothing is saved. *)
Lemma saved_none (urls : list (pystr * session)) :
  (forall u p, In (u, Session p) urls -> scrape_foodcom_recipe p = None) ->
  saved urls = [].
Proof.
  induction urls as [|[u [|p]] rest IH]; intros H; try reflexivity.
  cbn [saved]. rewrite (H u p) by now left.
  apply IH. intros u' p' Hin. apply (H u'). now right.
Qed.

(** C38: When no driver fails and every page fails, the run leaves the file
    as it was, finishes, and the last line it prints is the line that
    reports that all recipes were scraped. *)
Theorem run_failed_pages (urls : list (pystr * session)) (f : file) :
  existsb is_driver_fail urls = false ->
  (forall u p, In (u, Session p) urls -> scrape_foodcom_recipe p = None) ->
  csv (run_pages urls f []) = f /\
  stat (run_pages urls f []) = Finished /\
  exists l, log (run_pages urls f []) = l ++ [AllDone].
Proof.
  intros Hd Hn. rewrite run_pages_csv, run_pages_stat, Hd, (saved_none urls Hn).
  repeat split. now apply run_pages_last.
Qed.

(** C39: A driver that cannot be created stops the whole run: the exception
    is raised outside the [try], the records of the pages before it are in
    the file and the URLs after it are not visited. *)
Theorem run_driver_failure (before rest : list (pystr * session)) (u : pystr)
    (f : file) :
  existsb is_driver_fail before = false ->
  stat (run_pages (before ++ (u, DriverFail) :: rest) f []) = Crashed /\
  pending (run_pages (before ++ (u, DriverFail) :: rest) f []) = rest /\
  csv (run_pages (before ++ (u, DriverFail) :: rest) f [])
  = append_all (saved before) f.
Proof.
  intros H.
  destruct (run_pages_app before ((u, DriverFail) :: rest) f [] H) as (l' & ->).
  repeat split.
Qed.

(** ** Well-formed states *)

(** The table is well formed, a session is open inside the [try] block
    only, and a run that has stopped stands at the loop. *)
Definition state_wf (s : state) : Prop :=
  file_wf (csv s) /\ drivers_inv s /\ (stat s <> Running -> point s = AtLoop).

Lemma state_wf_initial (urls : list (pystr * session)) (f : file) :
  file_wf f -> state_wf (initial urls f).
Proof. intros H. split; [exact H | split; [reflexivity | intros _; reflexivity]]. Qed.

(** Every step keeps the state well formed. *)
Lemma state_wf_step (s s' : state) : state_wf s -> step s s' -> state_wf s'.
Proof.
  intros (Hf & Hd & Hp) H. split; [|split; [now apply (drivers_inv_step s)|]].
  - destruct H as [s _ _ _|s u rest _ _ _|s u p rest _ _ _|s u p _ _|s [d|] _ _];
      try exact Hf. now apply save_to_csv_wf.
  - destruct H as [s _ _ _|s u rest _ _ _|s u p rest _ _ _|s u p _ _|s [d|] _ _];
      cbn; intros Hs; try reflexivity; now destruct Hs.
Qed.

Lemma state_wf_steps (s s' : state) : state_wf s -> steps s s' -> state_wf s'.
Proof.
  intros Hw H. induction H as [|s s1 s2 H1 _ IH]; [exact Hw|].
  apply IH. now apply (state_wf_step s).
Qed.

(** C15: Type invariant of the state: in a run that starts with a
    well-formed file every state is well formed: every line of the table has
    four cells, a session is open inside the [try] block only, and a run
    that has stopped stands at the loop. *)
Theorem state_wf_reachable (urls : list (pystr * session)) (f : file) (s : state) :
  file_wf f -> steps (initial urls f) s -> state_wf s.
Proof.
  intros Hf H. apply (state_wf_steps (initial urls f)); [|exact H].
  now apply state_wf_initial.
Qed.

(** ** Liveness *)

Lemma eventually_steps (P : state -> Prop) (s s' : state) :
  steps s s' -> eventually P s' -> eventually P s.
Proof.
  intros H He. induction H as [|s s1 s2 H1 _ IH]; [exact He|].
  eapply ev_step; [exact H1 | now apply IH].
Qed.

Lemma eventually_weaken (P Q : state -> Prop) (s : state) :
  (forall t, P t -> Q t) -> eventually P s -> eventually Q s.
Proof.
  intros HPQ H. induction H as [s Hs|s s' H1 _ IH];
    [apply ev_now; auto | eapply ev_step; eauto].
Qed.

(** The pages before the first failing driver are visited one after the
    other: the run reaches the loop with the rest of the list and the
    records of the pages visited in the file. *)
Lemma steps_prefix (before rest : list (pystr * session)) (f : file)
    (l : list event) :
  existsb is_driver_fail before = false ->
  exists l', steps (mkState (before ++ rest) f l 0 AtLoop Running)
                   (mkState rest (append_all (saved before) f) l' 0 AtLoop Running).
Proof.
  revert f l. induction before as [|[u [|p]] before IH]; intros f l H.
  - exists l. apply steps_refl.
  - discriminate.
  - cbn in H. cbn [app saved].
    destruct (scrape_foodcom_recipe p) as [d|] eqn:E.
    + destruct (IH (save_to_csv d f)
                  (((l ++ [Scraping u]) ++ scrape_log u p) ++ [Extracted d; Saved]) H)
        as (l' & Hl').
      exists l'. eapply steps_step; [now apply step_enter|].
      eapply steps_step; [now eapply step_leave|].
      eapply steps_step; [now eapply step_after|].
      unfold after, leave, enter. cbn. rewrite E. exact Hl'.
    + destruct (IH f ((l ++ [Scraping u]) ++ scrape_log u p) H) as (l' & Hl').
      exists l'. eapply steps_step; [now apply step_enter|].
      eapply steps_step; [now eapply step_leave|].
      eapply steps_step; [now eapply step_after|].
      unfold after, leave, enter. cbn. rewrite E. exact Hl'.
Qed.

(** Every run stops. *)
Lemma eventually_stops (urls : list (pystr * session)) (f : file) :
  eventually (fun s => step_fun s = None) (initial urls f).
Proof.
  apply (eventually_steps _ _ (run_pages urls f [])); [apply steps_run_pages|].
  apply ev_now, run_pages_stopped.
Qed.

(** C26: Liveness: every URL with no failing driver before it is announced
    at some point of the run. *)
Theorem eventually_visited (before rest : list (pystr * session)) (u : pystr)
    (x : session) (f : file) :
  existsb is_driver_fail before = false ->
  eventually (fun s => In (Scraping u) (log s))
             (initial (before ++ (u, x) :: rest) f).
Proof.
  intros H. destruct (steps_prefix before ((u, x) :: rest) f [] H) as (l' & Hl').
  apply (eventually_steps _ _ _ Hl'). destruct x as [|p].
  - eapply ev_step; [now apply step_crash|]. apply ev_now. cbn.
    apply in_or_app. right. now left.
  - eapply ev_step; [now apply step_enter|]. apply ev_now. cbn.
    apply in_or_app. right. now left.
Qed.

(** C14: Liveness: for a page that yields a record, with no failing driver
    before it, the run reaches a state where the line of the record has been
    appended to the file. *)
Theorem eventually_saved (before rest : list (pystr * session)) (u : pystr)
    (p : page) (data : recipe_data) (f : file) :
  existsb is_driver_fail before = false ->
  scrape_foodcom_recipe p = Some data ->
  eventually (fun s => exists rows, csv s = Some (rows ++ [row_of data]))
             (initial (before ++ (u, Session p) :: rest) f).
Proof.
  intros H E.
  destruct (steps_prefix before ((u, Session p) :: rest) f [] H) as (l' & Hl').
  apply (eventually_steps _ _ _ Hl').
  eapply ev_step; [now apply step_enter|].
  eapply ev_step; [now eapply step_leave|].
  eapply ev_step; [now eapply step_after|].
  apply ev_now. unfold after, leave, enter. cbn. rewrite E. cbn.
  apply save_to_csv_last.
Qed.

(** A line of the file stays in the file: a step only appends. *)
Lemma step_keeps_rows (s s' : state) (rows : list row) :
  step s s' -> csv s = Some rows -> exists more, csv s' = Some (rows ++ more).
Proof.
  intros H Hc.
  destruct H as [s _ _ _|s u rest _ _ _|s u p rest _ _ _|s u p _ _|s [d|] _ _];
    cbn; try (exists []; now rewrite app_nil_r).
  exists [row_of d]. now rewrite Hc.
Qed.

End MachineFacts.

(** ** Concrete runs *)

(** A run over the sample page from no file: the header and one line. *)
Example run_sample :
  csv (@run_pages exactQ [(py "u", Session sample_page)] None [])
  = Some [columns;
          [py "Bread"; py "1 hours 30 minutes";
           py "1/2 cups flour" ++ newline ++ py "1/8 tsp salt" ++ newline
             ++ py "salt to taste";
           py "Mix." ++ newline]].
Proof. vm_compute. reflexivity. Qed.

(** ** Instances at concrete inputs *)

(** The instance of C6. *)
Lemma run_unique_witness :
  mkState [] None [Scraping (py "u"); JsonNotFound (py "u"); AllDone]
          0 AtLoop Finished
  = @run_pages exactQ [(py "u", Session PageNoJson)] None [].
Proof.
  apply (@run_unique exactQ [(py "u", Session PageNoJson)] None);
    [|reflexivity].
  eapply steps_step; [now apply step_enter|].
  eapply steps_step; [now eapply step_leave|].
  eapply steps_step; [now eapply step_after|].
  eapply steps_step; [now apply step_finish | apply steps_refl].
Defined.

(** The instance of C14. *)
Lemma eventually_saved_witness :
  @eventually exactQ
    (fun s => exists rows, csv s = Some (rows ++ [row_of sample_record]))
    (initial ([] ++ (py "u", Session sample_page) :: []) None).
Proof.
  apply (@eventually_saved exactQ [] [] (py "u") sample_page sample_record None);
    [reflexivity | vm_compute; reflexivity].
Defined.

(** The instance of C15. *)
Lemma state_wf_reachable_witness :
  state_wf (@run_pages exactQ [(py "u", Session sample_page)] None []).
Proof.
  apply (@state_wf_reachable exactQ [(py "u", Session sample_page)] None);
    [exact I | apply steps_run_pages].
Defined.

(** The instance of C18. *)
Lemma drivers_released_witness :
  drivers_inv (@run_pages exactQ [(py "u", Session PageNoJson)] None []).
Proof.
  apply (@drivers_released exactQ [(py "u", Session PageNoJson)] None).
  apply steps_run_pages.
Defined.


(** The instance of C26. *)
Lemma eventually_visited_witness :
  @eventually exactQ (fun s => In (Scraping (py "v")) (log s))
    (initial ([(py "u", Session PageError)] ++ (py "v", DriverFail) :: []) None).
Proof.
  apply (@eventually_visited exactQ [(py "u", Session PageError)] []
           (py "v") DriverFail None).
  reflexivity.
Defined.

(** The instance of C38. *)
Lemma run_failed_pages_witness :
  csv (@run_pages exactQ [(py "u", Session PageError)] None []) = None /\
  stat (@run_pages exactQ [(py "u", Session PageError)] None []) = Finished /\
  exists l, log (@run_pages exactQ [(py "u", Session PageError)] None [])
            = l ++ [AllDone].
Proof.
  apply (@run_failed_pages exactQ [(py "u", Session PageError)] None);
    [reflexivity|].
  intros u p [H|[]]. injection H as _ <-. reflexivity.
Defined.

(** The instance of C39. *)
Lemma run_driver_failure_witness :
  stat (@run_pages exactQ
          ([] ++ (py "u", DriverFail) :: [(py "v", Session sample_page)])
          None []) = Crashed /\
  pending (@run_pages exactQ
             ([] ++ (py "u", DriverFail) :: [(py "v", Session sample_page)])
             None [])
  = [(py "v", Session sample_page)] /\
  csv (@run_pages exactQ
         ([] ++ (py "u", DriverFail) :: [(py "v", Session sample_page)])
         None [])
  = @append_all (@saved exactQ []) None.
Proof.
  apply (@run_driver_failure exactQ [] [(py "v", Session sample_page)]
           (py "u") None).
  reflexivity.
Defined.
