(* ===== verification/Main.v ===== *)
(** * Main: the URL list and the run of the module, main.py lines 15-20 and
    145-156

    The program visits the two URLs of its list.  What the browser returns
    for a URL is not in the program: it is the function [web], from a URL to
    the outcome of its session.  [main] is the run of the machine of [Run]
    from the state before the loop, with the fuel of its two pages. *)

From Stdlib Require Import List ZArith Lia Bool Ascii String.
From S2P Require Import Prelude PyText PyFloat Recipe Csv Run.
Import ListNotations.

Open Scope string_scope.
Open Scope list_scope.

(** Lines 15-20. *)
Definition urls : list pystr :=
  map py
    ["https://www.food.com/recipe/palak-paneer-indian-fresh-spinach-with-paneer-cheese-25348";
     "https://www.food.com/recipe/oven-baked-vegetarian-samosas-397782"].

Section Main.
Context {FM : FloatModel}.
Variable web : pystr -> session.

(** The URLs with the outcome of their sessions. *)
Definition visits : list (pystr * session) := map (fun url => (url, web url)) urls.

(** Lines 145-156: the run from the state before the loop. *)
Definition main (f : file) : state :=
  run (run_fuel (initial visits f)) (initial visits f).

(** The number of lines a run adds to the file. *)
Definition added (f f' : file) : nat :=
  match f, f' with
  | Some rows, Some rows' => List.length rows' - List.length rows
  | None, Some rows' => List.length rows'
  | _, None => 0
  end.

(** The two URLs are different, so a function of the URL can give each its
    own outcome. *)
Lemma urls_NoDup : NoDup urls.
Proof.
  repeat constructor; [|intros []]. intros [H|[]]. discriminate H.
Qed.

Lemma visits_length : List.length visits = 2%nat.
Proof. reflexivity. Qed.

(** [main] is the state the loop as one function computes. *)
Lemma main_run_pages (f : file) : main f = run_pages visits f [].
Proof. apply run_initial. Qed.

Lemma saved_length (l : list (pystr * session)) :
  (List.length (saved l) <= List.length l)%nat.
Proof.
  induction l as [|[u [|p]] l IH]; cbn [saved List.length]; try lia.
  destruct (scrape_foodcom_recipe p); cbn [List.length]; lia.
Qed.

(** C25: Termination of the program: started with a well-formed file, [main]
    is reached by the steps of the machine from the state before the loop,
    has stopped, and is well formed. *)
Theorem main_stops (f : file) :
  file_wf f ->
  steps (initial visits f) (main f) /\ step_fun (main f) = None /\
  state_wf (main f).
Proof.
  intros Hf. rewrite main_run_pages. split; [apply steps_run_pages|].
  split; [apply run_pages_stopped|].
  apply (state_wf_steps (initial visits f)); [now apply state_wf_initial|].
  apply steps_run_pages.
Qed.

(** C24: The program keeps the lines of the file it finds, in order, and
    adds two lines at most after them, each with four cells. *)
Theorem main_appends (rows : list row) :
  exists more, csv (main (Some rows)) = Some (rows ++ more) /\
               (List.length more <= 2)%nat /\ Forall row_wf more.
Proof.
  rewrite main_run_pages, run_csv_existing.
  exists (map row_of (saved visits)). split; [reflexivity|]. split.
  - rewrite length_map. pose proof (saved_length visits). now rewrite visits_length in *.
  - apply Forall_map, Forall_forall. intros d _. apply row_of_wf.
Qed.

(** Without file the program writes nothing or the header and the lines of
    its records. *)
Lemma main_fresh :
  csv (main None) = None \/
  exists rs, rs <> [] /\ (List.length rs <= 2)%nat /\
             csv (main None) = Some (columns :: map row_of rs).
Proof.
  rewrite main_run_pages, run_pages_csv, append_all_none.
  destruct (saved visits) as [|d ds] eqn:E; [now left|right].
  exists (d :: ds). split; [discriminate|]. split; [|reflexivity].
  rewrite <- E. pose proof (saved_length visits). now rewrite visits_length in *.
Qed.

End Main.

(** With both pages like the sample page the file gets the header and two
    lines. *)
Example main_sample :
  added None (csv (@main exactQ (fun _ => Session sample_page) None)) = 3%nat.
Proof. vm_compute. reflexivity. Qed.

(** ** Instances at concrete inputs *)

(** The instance of C25. *)
Lemma main_stops_witness :
  @steps exactQ (initial (visits (fun _ => Session PageNoJson)) None)
        (@main exactQ (fun _ => Session PageNoJson) None) /\
  @step_fun exactQ (@main exactQ (fun _ => Session PageNoJson) None) = None /\
  state_wf (@main exactQ (fun _ => Session PageNoJson) None).
Proof.
  apply (@main_stops exactQ (fun _ => Session PageNoJson) None). exact I.
Defined.
